(** * PropSafe-AI: the ETL quality classifier, the business-pattern detector,
      the feature engineer and the ensemble scorer

    A shallow embedding of
    - [src/etl/clean_and_transform.py]  (class [InmobiliarioETL]),
    - [src/ml/feature_engineering_propsafe.py] (class [PropSafeFeatureEngineer]),
    - [src/ml/apply_models.py] ([score_batch]) and
    - [src/ml/train_propsafe.py] (class [PropSafeAnomalyDetector]),
    followed by the properties of the specification that concern them.

    The pandas columns are modelled row by row wherever the source works with
    element-wise masks, and as whole lists wherever it aggregates over the
    batch (group-by, min, max, percentile, nunique). *)

From Stdlib Require Import ZArith QArith Qround Lia Lqa Ascii.
From stdpp Require Import gmap strings list pretty sorting.

#[local] Set Warnings "-clear-no-such-hyp".

Local Open Scope Z_scope.

(** ** Part I. Definitions *)

(** *** float64 cells

    A float64 cell is a finite double, an infinity or NaN.  A finite double is
    represented by the rational it denotes: the comparisons of the source
    ([<], [<=], [==] against the constants 0, 1e6, 1e10) are exact on doubles,
    so they are the comparisons of the rationals; arithmetic is the exact
    arithmetic of the rationals, rounding is not modelled.  Every comparison
    with NaN is [false], as in IEEE 754; the two signed zeros are one zero. *)
Module Float64.

Inductive float64 : Type :=
| Fin (q : Q)
| PInf
| NInf
| NaN.

Definition of_Z (z : Z) : float64 := Fin (inject_Z z).

Definition isna (x : float64) : bool :=
  match x with NaN => true | _ => false end.

Definition Qlt_bool (a b : Q) : bool := negb (Qle_bool b a).

Definition ltb (x y : float64) : bool :=
  match x, y with
  | NaN, _ | _, NaN => false
  | Fin a, Fin b => Qlt_bool a b
  | NInf, (Fin _ | PInf) => true
  | Fin _, PInf => true
  | _, _ => false
  end.

Definition eqb (x y : float64) : bool :=
  match x, y with
  | Fin a, Fin b => Qeq_bool a b
  | PInf, PInf | NInf, NInf => true
  | _, _ => false
  end.

Definition leb (x y : float64) : bool := ltb x y || eqb x y.
Definition gtb (x y : float64) : bool := ltb y x.
Definition geb (x y : float64) : bool := leb y x.

Definition sign_of (q : Q) : comparison := (0 ?= q)%Q.

(** IEEE 754 arithmetic on the extended values. *)
Definition add (x y : float64) : float64 :=
  match x, y with
  | NaN, _ | _, NaN => NaN
  | Fin a, Fin b => Fin (a + b)
  | PInf, NInf | NInf, PInf => NaN
  | PInf, _ | _, PInf => PInf
  | NInf, _ | _, NInf => NInf
  end.

Definition opp (x : float64) : float64 :=
  match x with
  | Fin a => Fin (- a)
  | PInf => NInf
  | NInf => PInf
  | NaN => NaN
  end.

Definition sub (x y : float64) : float64 := add x (opp y).

Definition signed_inf (c : comparison) : float64 :=
  match c with Lt => PInf | Gt => NInf | Eq => NaN end.

Definition sign (x : float64) : comparison :=
  match x with
  | Fin a => sign_of a
  | PInf => Lt
  | NInf => Gt
  | NaN => Eq
  end.

Definition mul_sign (c d : comparison) : comparison :=
  match c, d with
  | Eq, _ | _, Eq => Eq
  | Lt, Lt | Gt, Gt => Lt
  | _, _ => Gt
  end.

Definition mul (x y : float64) : float64 :=
  match x, y with
  | NaN, _ | _, NaN => NaN
  | Fin a, Fin b => Fin (a * b)
  | _, _ => signed_inf (mul_sign (sign x) (sign y))
  end.

(** Division: [0/0] and [inf/inf] are NaN, [a/0] for [a <> 0] is an infinity
    of the sign of [a] (the divisor [max - min] of the source is never a
    negative zero), [a/inf] is zero. *)
Definition div (x y : float64) : float64 :=
  match x, y with
  | NaN, _ | _, NaN => NaN
  | Fin a, Fin b =>
      if Qeq_bool b 0 then signed_inf (sign_of a) else Fin (a / b)
  | Fin _, (PInf | NInf) => Fin 0
  | (PInf | NInf), (PInf | NInf) => NaN
  | (PInf | NInf), Fin b =>
      match sign_of b with
      | Eq => x
      | s => signed_inf (mul_sign (sign x) s)
      end
  end.

(** [numpy.minimum] and [numpy.maximum] reductions propagate NaN. *)
Definition fmin (x y : float64) : float64 :=
  if isna x || isna y then NaN else if ltb y x then y else x.
Definition fmax (x y : float64) : float64 :=
  if isna x || isna y then NaN else if ltb x y then y else x.

(** [a.min()] and [a.max()] of a non-empty array (the head and the rest). *)
Definition array_min (x : float64) (xs : list float64) : float64 :=
  foldl fmin x xs.
Definition array_max (x : float64) (xs : list float64) : float64 :=
  foldl fmax x xs.

(** The score lies in the closed interval [0, 1]. *)
Definition in_unit_interval (x : float64) : bool :=
  leb (Fin 0) x && leb x (Fin 1).

End Float64.
Export Float64.

(** *** pandas cells and string methods *)
Module Pandas.

(** A cell of an object column as the raw batch holds it.  [CNone] is
    Python's [None], [CNaN] is [numpy.nan] (the missing marker pandas itself
    writes), the rest are values: strings, integers and booleans (a finite
    float in an object cell is not modelled). *)
Inductive celda : Type :=
| CNone
| CNaN
| CStr (s : string)
| CInt (z : Z)
| CBool (b : bool).

Global Instance celda_eq_dec : EqDecision celda.
Proof. solve_decision. Defined.

(** [Series.astype(str)]: Python's [str] of every cell, the missing markers
    included: [str(None) = 'None'] and [str(nan) = 'nan'].  This is the
    behaviour of pandas 1 and 2, the one the replacement of ['NONE'] in
    [validar_y_tipar] is written for. *)
Definition astype_str (c : celda) : string :=
  match c with
  | CNone => "None"
  | CNaN => "nan"
  | CStr s => s
  | CInt z => pretty z
  | CBool true => "True"
  | CBool false => "False"
  end.

(** [Series.fillna(d)] on a column of optional strings. *)
Definition fillna_str (d : string) (c : option string) : string :=
  default d c.

Fixpoint lstrip (s : string) : string :=
  match s with
  | String a s' => if Ascii.is_space a then lstrip s' else s
  | EmptyString => EmptyString
  end.

(** [str.strip()]: white space removed at both ends (the ASCII white space
    characters). *)
Definition str_strip (s : string) : string :=
  String.rev (lstrip (String.rev (lstrip s))).

Definition upper_ascii (a : ascii) : ascii :=
  let n := nat_of_ascii a in
  if (97 <=? n)%nat && (n <=? 122)%nat then ascii_of_nat (n - 32) else a.

(** [str.upper()] on the ASCII letters. *)
Fixpoint str_upper (s : string) : string :=
  match s with
  | String a s' => String (upper_ascii a) (str_upper s')
  | EmptyString => EmptyString
  end.

(** [pat in s]: [pat] occurs in [s] as a substring. *)
Fixpoint str_find (pat s : string) : bool :=
  String.prefix pat s ||
  match s with
  | String _ s' => str_find pat s'
  | EmptyString => false
  end.

(** [Series.str.contains('p1|p2|...', case=False, na=na)] for an alternation
    of literal words: [na] where the cell is missing. *)
Definition str_contains_any (pats : list string) (na : bool)
    (c : option string) : bool :=
  match c with
  | None => na
  | Some s => existsb (fun p => str_find (str_upper p) (str_upper s)) pats
  end.

(** [Series.isin(values)]: a missing cell is in no list of strings. *)
Definition isin (values : list string) (c : option string) : bool :=
  match c with
  | None => false
  | Some s => bool_decide (s ∈ values)
  end.

(** A nullable ([Int64] / [boolean]) column: [None] is [<NA>].  Comparing
    an [Int64] cell with a scalar gives [<NA>] on [<NA>]. *)
Definition Int64_ltb (x : option Z) (c : Z) : option bool :=
  (fun v => bool_decide (v < c)) <$> x.
Definition Int64_gtb (x : option Z) (c : Z) : option bool :=
  (fun v => bool_decide (v > c)) <$> x.

(** [|] of two nullable boolean columns (Kleene logic). *)
Definition or_na (a b : option bool) : option bool :=
  match a, b with
  | Some true, _ | _, Some true => Some true
  | Some false, Some false => Some false
  | _, _ => None
  end.

(** [df.loc[mask, col] = v] with a nullable boolean mask writes the rows
    where the mask is [True]; pandas converts the mask with
    [to_numpy(dtype=bool, na_value=False)], so [<NA>] selects nothing. *)
Definition selects (mask : option bool) : bool := default false mask.

End Pandas.
Export Pandas.

(** *** [src/etl/clean_and_transform.py]: class [InmobiliarioETL] *)
Module ETL.

(** **** [crear_composite_key]

    The raw row, as loaded: the five columns the key is made of. *)
Record Crudo : Type := mkCrudo {
  crudo_DIVIPOLA : celda;
  crudo_MATRICULA : celda;
  crudo_NUM_ANOTACION : celda;
  crudo_COD_NATUJUR : celda;
  crudo_YEAR_RADICA : celda }.

Global Instance Crudo_eq_dec : EqDecision Crudo.
Proof. solve_decision. Defined.

(** [df[col].astype(str).fillna(d)]: [astype(str)] leaves no missing cell,
    so the [fillna] that follows it finds nothing to fill. *)
Definition key_part (d : string) (c : celda) : string :=
  fillna_str d (Some (astype_str c)).

Definition transaction_id (r : Crudo) : string :=
  key_part "UNK" (crudo_DIVIPOLA r) +:+ "_" +:+
  key_part "UNK" (crudo_MATRICULA r) +:+ "_" +:+
  key_part "0" (crudo_NUM_ANOTACION r) +:+ "_" +:+
  key_part "UNK" (crudo_COD_NATUJUR r) +:+ "_" +:+
  key_part "0" (crudo_YEAR_RADICA r).

(** [Series.nunique()]: the number of distinct values of the column. *)
Definition nunique (col : list string) : nat :=
  size (list_to_set col : gset string).

(** The result of [crear_composite_key]: the batch with the column
    [transaction_id] added, and the one figure the step reports, the
    [{nunique} únicas] of its log line. *)
Record ConClave : Type := mkConClave {
  filas : list (Crudo * string);
  claves_unicas : nat }.

Definition crear_composite_key (df : list Crudo) : ConClave :=
  let df' := map (fun r => (r, transaction_id r)) df in
  {| filas := df'; claves_unicas := nunique (df'.*2) |}.

(** The number of rows of a batch whose key already occurred in an earlier
    row: what a count of duplicated keys would be
    ([df['transaction_id'].duplicated().sum()]).  The source computes no
    such figure; it is defined here to compare it with what is reported. *)
Fixpoint duplicated_count (seen : list string) (col : list string) : nat :=
  match col with
  | [] => 0
  | k :: col' =>
      (if bool_decide (k ∈ seen) then 1 else 0)%nat
      + duplicated_count (k :: seen) col'
  end.

(** **** [validar_y_tipar]: the categorical columns (step 7)

    [df[col].astype(str).str.strip().str.upper()] and then
    [.replace('NONE', np.nan)], on one cell: the result is a string or the
    missing marker NaN. *)
Definition limpiar_categoria (c : celda) : celda :=
  let s := str_upper (str_strip (astype_str c)) in
  if bool_decide (s = "NONE") then CNaN else CStr s.

Definition cat_cols : list string :=
  ["DEPARTAMENTO"; "MUNICIPIO"; "TIPO_PREDIO_ZONA"; "CATEGORIA_RURALIDAD";
   "ESTADO_FOLIO"].

(** The loop of step 7 over a batch given by its columns:
    [for col in cat_cols: if col in df.columns: df[col] = ...]; a column
    that is not in the batch is passed over, the other columns of the batch
    are left as they are. *)
Definition limpiar_campos_categoricos (df : gmap string (list celda))
  : gmap string (list celda) :=
  foldl (fun df col => alter (fmap limpiar_categoria) col df) df cat_cols.

(** [Series.isna()] on a cell. *)
Definition celda_isna (c : celda) : bool :=
  match c with
  | CNone | CNaN => true
  | _ => false
  end.

(** [Series.map({'1': 1, '0': 0, 1: 1, 0: 0})] of the binary indicator
    columns (steps 2, 5 and 6): a key of the dictionary or missing.  [True]
    and [False] are the keys [1] and [0] of a Python dictionary. *)
Definition map_binario (c : celda) : option Z :=
  match c with
  | CStr "1" | CInt 1 | CBool true => Some 1
  | CStr "0" | CInt 0 | CBool false => Some 0
  | _ => None
  end.

(** **** [clasificar_calidad]

    A typed row, as [validar_y_tipar] leaves it: [YEAR_RADICA] is a nullable
    [Int64], [Dinámica_Inmobiliaria] holds 1, 0 or NaN ([None]), [VALOR] is a
    float64, the categorical columns are strings or missing. *)
Record Registro : Type := mkRegistro {
  MATRICULA : option string;
  YEAR_RADICA : option Z;
  Dinamica_Inmobiliaria : option Z;
  VALOR : float64;
  DEPARTAMENTO : option string;
  MUNICIPIO : option string;
  NOMBRE_NATUJUR : option string;
  TIPO_PREDIO_ZONA : option string }.

(** The values of the column [calidad_datos]. *)
Inductive Calidad : Type := OK | ADVERTENCIA | ERROR.

(** The values of the column [tipo_error] ([None] apart). *)
Inductive TipoError : Type :=
| DINAMICA_INVALIDA
| YEAR_INVALIDO
| GEOGRAFIA_INVALIDA
| MERCADO_SIN_VALOR
| VALOR_IRRISIORIO
| VALOR_EXTREMO_DIGITACION
| TIPO_PREDIO_INVALIDO.

Global Instance Calidad_eq_dec : EqDecision Calidad.
Proof. solve_decision. Defined.
Global Instance TipoError_eq_dec : EqDecision TipoError.
Proof. solve_decision. Defined.

(** The four columns [clasificar_calidad] adds to a row. *)
Record Calificacion : Type := mkCalificacion {
  calidad_datos : Calidad;
  tipo_error : option TipoError;
  es_mercado_valido : bool;
  valor_valido : bool }.

(** [df.loc[mask, 'calidad_datos'] = v], on one row: the value is written
    where the mask is [True]. *)
Definition loc_calidad (mask : bool) (v : Calidad) (c : Calificacion)
  : Calificacion :=
  mkCalificacion (if mask then v else calidad_datos c) (tipo_error c)
    (es_mercado_valido c) (valor_valido c).

(** [df.loc[mask, 'tipo_error'] = v], on one row. *)
Definition loc_tipo_error (mask : bool) (v : TipoError) (c : Calificacion)
  : Calificacion :=
  mkCalificacion (calidad_datos c)
    (if mask then Some v else tipo_error c)
    (es_mercado_valido c) (valor_valido c).

(** [df['es_mercado_valido'] = b] and [df['valor_valido'] = b], on one
    row. *)
Definition set_es_mercado_valido (b : bool) (c : Calificacion)
  : Calificacion :=
  mkCalificacion (calidad_datos c) (tipo_error c) b (valor_valido c).

Definition set_valor_valido (b : bool) (c : Calificacion) : Calificacion :=
  mkCalificacion (calidad_datos c) (tipo_error c) (es_mercado_valido c) b.

Definition YEAR_MIN : Z := 2000.
Definition YEAR_MAX : Z := 2025.
(** 1_000_000 and 10_000_000_000 COP. *)
Definition VALOR_PISO : float64 := of_Z 1000000.
Definition VALOR_TECHO : float64 := of_Z 10000000000.

Definition palabras_actos_con_valor : list string :=
  ["COMPRAVENTA"; "HIPOTECA"; "VENTA"; "MUTUO"].

Definition valores_validos_tipo : list string :=
  ["URBANO"; "RURAL"; "SIN INFORMACION"; "MIXTO"].

(** The body of [clasificar_calidad] on one row: the masks and the
    assignments of the source, in its order.  ([mask_admin_cero] of the
    source is computed and never used; it is left out.) *)
Definition clasificar_fila (r : Registro) : Calificacion :=
  let c := mkCalificacion OK None false false in
  (* REGLA 1 *)
  let mask_din_invalido := bool_decide (Dinamica_Inmobiliaria r = None) in
  let c := loc_calidad mask_din_invalido ERROR c in
  let c := loc_tipo_error mask_din_invalido DINAMICA_INVALIDA c in
  (* REGLA 2 *)
  let mask_year_invalido :=
    or_na (Int64_ltb (YEAR_RADICA r) YEAR_MIN)
          (Int64_gtb (YEAR_RADICA r) YEAR_MAX) in
  let c := loc_calidad (selects mask_year_invalido) ERROR c in
  let c := loc_tipo_error (selects mask_year_invalido) YEAR_INVALIDO c in
  (* REGLA 3 *)
  let mask_geo_invalido :=
    bool_decide (DEPARTAMENTO r = None) || bool_decide (MUNICIPIO r = None) in
  let c := loc_calidad mask_geo_invalido ERROR c in
  let c := loc_tipo_error mask_geo_invalido GEOGRAFIA_INVALIDA c in
  (* REGLA 4 *)
  let c :=
    set_es_mercado_valido (bool_decide (Dinamica_Inmobiliaria r = Some 1)) c in
  (* REGLA 5 *)
  let actos_con_valor :=
    str_contains_any palabras_actos_con_valor false (NOMBRE_NATUJUR r) in
  let mask_mercado_sin_valor :=
    es_mercado_valido c && (isna (VALOR r) || eqb (VALOR r) (of_Z 0)) in
  let c := loc_calidad mask_mercado_sin_valor ERROR c in
  let c := loc_tipo_error mask_mercado_sin_valor MERCADO_SIN_VALOR c in
  let mask_compraventa_irrisiorio :=
    actos_con_valor && gtb (VALOR r) (of_Z 0) && ltb (VALOR r) VALOR_PISO
    && bool_decide (calidad_datos c = OK) in
  let c := loc_calidad mask_compraventa_irrisiorio ADVERTENCIA c in
  let c := loc_tipo_error mask_compraventa_irrisiorio VALOR_IRRISIORIO c in
  let mask_valor_extremo := gtb (VALOR r) VALOR_TECHO in
  let c := loc_calidad mask_valor_extremo ERROR c in
  let c := loc_tipo_error mask_valor_extremo VALOR_EXTREMO_DIGITACION c in
  let mask_valor_valido :=
    geb (VALOR r) VALOR_PISO && leb (VALOR r) VALOR_TECHO
    && es_mercado_valido c in
  let c := set_valor_valido mask_valor_valido c in
  (* REGLA 6 *)
  let mask_tipo_invalido :=
    negb (isin valores_validos_tipo (TIPO_PREDIO_ZONA r)) in
  let c :=
    loc_calidad (mask_tipo_invalido && bool_decide (calidad_datos c = OK))
      ADVERTENCIA c in
  let c :=
    loc_tipo_error (mask_tipo_invalido && bool_decide (tipo_error c = None))
      TIPO_PREDIO_INVALIDO c in
  c.

(** A classified row: the typed row and the four columns added to it. *)
Definition Clasificado : Type := Registro * Calificacion.

Definition clasificar_calidad (df : list Registro) : list Clasificado :=
  map (fun r => (r, clasificar_fila r)) df.

(** **** [crear_datasets]: the masks of the partitions

    ([completo] is the whole batch and has no mask.) *)
Definition mask_limpio (f : Clasificado) : bool :=
  bool_decide (calidad_datos f.2 = OK).
Definition mask_mercado (f : Clasificado) : bool :=
  es_mercado_valido f.2 && negb (bool_decide (calidad_datos f.2 = ERROR)).
Definition mask_ml (f : Clasificado) : bool :=
  es_mercado_valido f.2 && valor_valido f.2
  && bool_decide (calidad_datos f.2 = OK).
Definition mask_error (f : Clasificado) : bool :=
  bool_decide (calidad_datos f.2 = ERROR).
Definition mask_adv (f : Clasificado) : bool :=
  bool_decide (calidad_datos f.2 = ADVERTENCIA).

(** [df[mask_ml]], the rows written to [ml_training.parquet]. *)
Definition ml_training (df : list Clasificado) : list Clasificado :=
  filter (fun f => mask_ml f = true) df.

(** **** [detectar_anomalias_negocio]: excessive activity (ANOMALÍA 1)

    [df.groupby(['MATRICULA', 'YEAR_RADICA']).size().to_dict()]: the number
    of rows of every (property, year) pair; group-by leaves out the rows in
    which a key column is missing. *)
Definition clave_grupo (r : Registro) : option (string * Z) :=
  m ← MATRICULA r; y ← YEAR_RADICA r; Some (m, y).

Definition groupby_size (df : list Registro) : gmap (string * Z) nat :=
  foldr (fun r acc =>
           match clave_grupo r with
           | Some k => <[k := S (default 0%nat (acc !! k))]> acc
           | None => acc
           end) ∅ df.

(** [anotaciones_dict.get(k, 0)] for one of the [keys] zipped from the two
    columns: a pair with a missing component is no key of the dictionary. *)
Definition dict_get (d : gmap (string * Z) nat)
    (k : option string * option Z) : nat :=
  match k with
  | (Some m, Some y) => default 0%nat (d !! (m, y))
  | _ => 0%nat
  end.

Definition UMBRAL_ACTIVIDAD : nat := 150.

(** The columns the first anomaly adds to a row. *)
Record Actividad : Type := mkActividad {
  anotaciones_por_anio : nat;
  flag_actividad_excesiva : bool }.

(** The excessive-activity part of [detectar_anomalias_negocio]: the
    dictionary is built once over the batch and then read for every row.
    (The geographic flag of the same function is a separate column and is
    not modelled.) *)
Definition detectar_actividad (df : list Registro)
  : list (Registro * Actividad) :=
  let anotaciones_dict := groupby_size df in
  map (fun r =>
         let n := dict_get anotaciones_dict (MATRICULA r, YEAR_RADICA r) in
         (r, mkActividad n (bool_decide (UMBRAL_ACTIVIDAD < n)%nat)))
      df.

(** The rows of one group, as group-by forms the groups: two rows are in
    the same group when both have a property identifier and a filing year
    and these are equal; a row with a missing value is in no group.
    [registros_con_misma_clave] is the size of the group of a row (0 for a
    row in no group).  The plain count of the rows with the row's pair is
    [registros_con_mismo_par] below. *)
Definition misma_clave (r r' : Registro) : bool :=
  match MATRICULA r, YEAR_RADICA r, MATRICULA r', YEAR_RADICA r' with
  | Some m, Some y, Some m', Some y' =>
      bool_decide (m = m') && bool_decide (y = y')
  | _, _, _, _ => false
  end.

Definition registros_con_misma_clave (df : list Registro) (r : Registro)
  : nat :=
  length (filter (fun r' => misma_clave r r' = true) df).

(** **** [load_data]

    The Parquet file as [load_data] reads it: its rows, and the batches
    that [iter_batches(batch_size)] yields for a batch size, which together
    are the rows of the file in their order. *)
Record ParquetFile (A : Type) : Type := mkParquetFile {
  filas_parquet : list A;
  iter_batches : Z → list (list A);
  iter_batches_concat :
    ∀ batch_size, concat (iter_batches batch_size) = filas_parquet }.
Arguments mkParquetFile {A}.
Arguments filas_parquet {A}.
Arguments iter_batches {A}.

(** The loop of the sampling branch: every batch is appended to [chunks]
    and counted in [rows_read]; the loop is left after the batch with which
    [rows_read >= sample_size]. *)
Fixpoint leer_batches {A : Type} (sample_size rows_read : Z)
    (batches : list (list A)) : list (list A) :=
  match batches with
  | [] => []
  | df_batch :: batches' =>
      let rows_read := rows_read + Z.of_nat (length df_batch) in
      df_batch ::
        (if bool_decide (rows_read >= sample_size) then []
         else leer_batches sample_size rows_read batches')
  end.

(** [DataFrame.head(n)]: the first [n] rows, and for a negative [n] all
    rows but the last [-n]. *)
Definition df_head {A : Type} (n : Z) (df : list A) : list A :=
  if bool_decide (0 <= n) then take (Z.to_nat n) df
  else take (length df - Z.to_nat (- n)) df.

(** [pd.concat(chunks, ignore_index=True)]: [ValueError] ([None]) on an
    empty list of chunks. *)
Definition pd_concat {A : Type} (chunks : list (list A)) : option (list A) :=
  match chunks with
  | [] => None
  | _ => Some (concat chunks)
  end.

(** [load_data]: the batch loaded and the figure stored in
    [stats['registros_entrada']].  [if sample_size:] is false for [None]
    and for 0. *)
Definition load_data {A : Type} (parquet_file : ParquetFile A)
    (sample_size : option Z) : option (list A * Z) :=
  df ← match sample_size with
       | Some n =>
           if bool_decide (n = 0)
           then pd_concat (iter_batches parquet_file 500000)
           else df_head n <$>
                pd_concat (leer_batches n 0 (iter_batches parquet_file 100000))
       | None => pd_concat (iter_batches parquet_file 500000)
       end;
  Some (df, Z.of_nat (length df)).

(** **** [crear_composite_key]: the separator

    No one of the four parts of the key that are followed by ['_'] holds
    the character ['_'] in its text. *)
Definition sin_separador (r : Crudo) : bool :=
  forallb (fun c => negb (str_find "_" (astype_str c)))
    [crudo_DIVIPOLA r; crudo_MATRICULA r; crudo_NUM_ANOTACION r;
     crudo_COD_NATUJUR r].

(** **** [validar_y_tipar]: the range of [ORIP] (step 8)

    [df.loc[(df['ORIP'] < 1) | (df['ORIP'] > 999), 'ORIP'] = np.nan] on one
    cell of the float64 column. *)
Definition validar_orip (orip : float64) : float64 :=
  if ltb orip (of_Z 1) || gtb orip (of_Z 999) then NaN else orip.

(** **** [clasificar_calidad]: the rules as a list of priorities

    The reason code a row ends with, written as one cascade: the first
    condition that holds gives the code.  It is compared below with the
    sequence of assignments of [clasificar_fila]. *)
Definition prioridad_tipo_error (r : Registro) : option TipoError :=
  if gtb (VALOR r) VALOR_TECHO then Some VALOR_EXTREMO_DIGITACION
  else if bool_decide (Dinamica_Inmobiliaria r = Some 1)
          && (isna (VALOR r) || eqb (VALOR r) (of_Z 0))
  then Some MERCADO_SIN_VALOR
  else if bool_decide (DEPARTAMENTO r = None)
          || bool_decide (MUNICIPIO r = None)
  then Some GEOGRAFIA_INVALIDA
  else if selects (or_na (Int64_ltb (YEAR_RADICA r) YEAR_MIN)
                         (Int64_gtb (YEAR_RADICA r) YEAR_MAX))
  then Some YEAR_INVALIDO
  else if bool_decide (Dinamica_Inmobiliaria r = None)
  then Some DINAMICA_INVALIDA
  else if str_contains_any palabras_actos_con_valor false (NOMBRE_NATUJUR r)
          && gtb (VALOR r) (of_Z 0) && ltb (VALOR r) VALOR_PISO
  then Some VALOR_IRRISIORIO
  else if negb (isin valores_validos_tipo (TIPO_PREDIO_ZONA r))
  then Some TIPO_PREDIO_INVALIDO
  else None.

(** The row [r] with the filing year [y]. *)
Definition con_year (r : Registro) (y : option Z) : Registro :=
  mkRegistro (MATRICULA r) y (Dinamica_Inmobiliaria r) (VALOR r)
    (DEPARTAMENTO r) (MUNICIPIO r) (NOMBRE_NATUJUR r) (TIPO_PREDIO_ZONA r).

(** **** [self.stats], [clasificar_calidad] and [crear_datasets]

    [mask.sum()]: the number of rows a boolean mask selects. *)
Definition mask_sum {A : Type} (mask : A → bool) (df : list A) : nat :=
  length (filter (fun f => mask f = true) df).

(** The dictionary [self.stats]. *)
Record Stats : Type := mkStats {
  registros_entrada : Z;
  registros_salida : Z;
  registros_descartados : Z;
  registros_con_errores : Z;
  registros_sospechosos : Z }.

(** [clasificar_calidad] with the two figures it stores in [self.stats]. *)
Definition clasificar_calidad_stats (stats : Stats) (df : list Registro)
  : list Clasificado * Stats :=
  let df' := clasificar_calidad df in
  (df',
   mkStats (registros_entrada stats) (registros_salida stats)
     (registros_descartados stats)
     (Z.of_nat (mask_sum mask_error df')) (Z.of_nat (mask_sum mask_adv df'))).

(** The dictionary [counts] that [crear_datasets] returns. *)
Record Counts : Type := mkCounts {
  counts_completo : nat;
  counts_limpio : nat;
  counts_mercado : nat;
  counts_ml_training : nat;
  counts_errores : nat;
  counts_advertencias : nat }.

(** The six files [crear_datasets] writes. *)
Record Datasets : Type := mkDatasets {
  completo_parquet : list Clasificado;
  limpio_parquet : list Clasificado;
  mercado_parquet : list Clasificado;
  ml_training_parquet : list Clasificado;
  errores_parquet : list Clasificado;
  advertencias_parquet : list Clasificado }.

(** [crear_datasets]: the files written, the dictionary returned and the
    two entries of [self.stats] it sets. *)
Definition crear_datasets (stats : Stats) (df : list Clasificado)
  : Datasets * Counts * Stats :=
  let escrito (mask : Clasificado → bool) :=
    filter (fun f => mask f = true) df in
  let counts :=
    mkCounts (length df) (mask_sum mask_limpio df) (mask_sum mask_mercado df)
      (mask_sum mask_ml df) (mask_sum mask_error df) (mask_sum mask_adv df) in
  (mkDatasets df (escrito mask_limpio) (escrito mask_mercado)
     (ml_training df) (escrito mask_error) (escrito mask_adv),
   counts,
   mkStats (registros_entrada stats)
     (Z.of_nat (counts_ml_training counts))
     (registros_entrada stats - Z.of_nat (counts_ml_training counts))
     (registros_con_errores stats) (registros_sospechosos stats)).

(** **** [detectar_anomalias_negocio]: the rows that share a pair

    Two rows share their (property, year) pair when their two columns are
    equal, a missing value being equal to a missing value;
    [registros_con_mismo_par] is the number of rows of the batch that share
    the pair of a row. *)
Definition mismo_par (r r' : Registro) : bool :=
  bool_decide (MATRICULA r' = MATRICULA r ∧ YEAR_RADICA r' = YEAR_RADICA r).

Definition registros_con_mismo_par (df : list Registro) (r : Registro)
  : nat :=
  length (filter (fun r' => mismo_par r r' = true) df).

(** **** [detectar_anomalias_negocio]: the figure it logs

    [actividad_excesiva = df['flag_actividad_excesiva'].sum()]. *)
Definition actividad_excesiva (df : list (Registro * Actividad)) : nat :=
  mask_sum (fun f => flag_actividad_excesiva f.2) df.

End ETL.
Export ETL.

(** *** [src/ml/feature_engineering_propsafe.py]: class
    [PropSafeFeatureEngineer] *)
Module FeatureEngineering.

(** The exceptions [create_features] can raise. *)
Inductive Excepcion : Type :=
| KeyError (columna : string)
| AttributeError (mensaje : string)
| IntCastingNaNError (columna : string).

Inductive resultado (A : Type) : Type :=
| Ok (a : A)
| Raise (e : Excepcion).
Arguments Ok {A}.
Arguments Raise {A}.

(** Sequencing: the first exception raised ends the computation. *)
Definition bind {A B : Type} (m : resultado A) (k : A → resultado B)
  : resultado B :=
  match m with
  | Ok a => k a
  | Raise e => Raise e
  end.

Notation "'let*' x ':=' m 'in' k" := (bind m (fun x => k))
  (at level 10, x name, m at level 100, k at level 200,
   format "'let*'  x  ':='  m  'in' '//' k").

(** A date, as [pd.to_datetime(..., format='%d/%m/%Y', errors='coerce')]
    leaves a cell that parses ([NaT], a cell that does not, is [None]). *)
Record Fecha : Type := mkFecha { anio : Z; mes : Z; dia : Z }.

(** Days from 1970-01-01 to a date of the Gregorian calendar. *)
Definition dias_desde_1970 (f : Fecha) : Z :=
  let y := if mes f <=? 2 then anio f - 1 else anio f in
  let era := y / 400 in
  let yoe := y - era * 400 in
  let mp := (mes f + 9) mod 12 in
  let doy := (153 * mp + 2) / 5 + dia f - 1 in
  let doe := yoe * 365 + yoe / 4 - yoe / 100 + doy in
  era * 146097 + doe - 719468.

(** [.dt.dayofweek]: Monday is 0. *)
Definition dayofweek (f : Fecha) : Z := (dias_desde_1970 f + 3) mod 7.
(** [.dt.quarter]. *)
Definition quarter (f : Fecha) : Z := (mes f - 1) / 3 + 1.
(** [(fecha - pd.Timestamp('2015-01-01')).dt.days]. *)
Definition dias_desde_2015 (f : Fecha) : Z :=
  dias_desde_1970 f - dias_desde_1970 (mkFecha 2015 1 1).

(** The batch [create_features] receives.  A column of the schema is a
    list of cells, an absent column is [None].  The cells are typed as the
    ETL writes them; [FECHA_RADICA_TEXTO] holds what [pd.to_datetime] makes
    of the text and [COD_NATUJUR] what [pd.to_numeric(errors='coerce')]
    makes of the code (NaN where it does not parse). *)
Record DataFrame : Type := mkDataFrame {
  n_filas : nat;
  col_transaction_id : option (list string);
  col_FECHA_RADICA_TEXTO : option (list (option Fecha));
  col_YEAR_RADICA : option (list (option Z));
  col_VALOR : option (list float64);
  col_anotaciones_por_anio : option (list float64);
  col_TIPO_PREDIO_ZONA : option (list (option string));
  col_CATEGORIA_RURALIDAD : option (list celda);
  col_flag_actividad_excesiva : option (list (option bool));
  col_flag_geo_discrepancia : option (list (option bool));
  col_total_flags_anomalia : option (list (option Z));
  col_TIENE_VALOR : option (list (option Z));
  col_COD_NATUJUR : option (list float64);
  col_COUNT_A : option (list (option Z));
  col_COUNT_DE : option (list (option Z));
  col_PREDIOS_NUEVOS : option (list (option Z)) }.

(** Every column of a DataFrame has one cell per row. *)
Definition largo_ok {A : Type} (n : nat) (c : option (list A)) : Prop :=
  match c with
  | Some l => length l = n
  | None => True
  end.

Definition bien_formado (df : DataFrame) : Prop :=
  largo_ok (n_filas df) (col_transaction_id df)
  ∧ largo_ok (n_filas df) (col_FECHA_RADICA_TEXTO df)
  ∧ largo_ok (n_filas df) (col_YEAR_RADICA df)
  ∧ largo_ok (n_filas df) (col_VALOR df)
  ∧ largo_ok (n_filas df) (col_anotaciones_por_anio df)
  ∧ largo_ok (n_filas df) (col_TIPO_PREDIO_ZONA df)
  ∧ largo_ok (n_filas df) (col_CATEGORIA_RURALIDAD df)
  ∧ largo_ok (n_filas df) (col_flag_actividad_excesiva df)
  ∧ largo_ok (n_filas df) (col_flag_geo_discrepancia df)
  ∧ largo_ok (n_filas df) (col_total_flags_anomalia df)
  ∧ largo_ok (n_filas df) (col_TIENE_VALOR df)
  ∧ largo_ok (n_filas df) (col_COD_NATUJUR df)
  ∧ largo_ok (n_filas df) (col_COUNT_A df)
  ∧ largo_ok (n_filas df) (col_COUNT_DE df)
  ∧ largo_ok (n_filas df) (col_PREDIOS_NUEVOS df).

(** A cell of a feature column: a number, or [numpy.log1p] of a number,
    kept as such (its value is not a rational). *)
Inductive numero : Type :=
| Num (x : float64)
| Log1p (x : float64).

Definition entero (z : Z) : numero := Num (of_Z z).
(** [.astype(int)] of a boolean. *)
Definition de_bool (b : bool) : numero := entero (if b then 1 else 0).
(** An [Int64] cell, [<NA>] as NaN. *)
Definition de_Int64 (c : option Z) : numero :=
  match c with
  | Some z => entero z
  | None => Num NaN
  end.

(** [isna] of a feature cell: [log1p(x)] is NaN for a NaN and below -1. *)
Definition numero_isna (v : numero) : bool :=
  match v with
  | Num x => isna x
  | Log1p x => isna x || ltb x (of_Z (-1))
  end.

(** [Series.fillna(d)] on a float64 column. *)
Definition fillna (d : float64) (x : float64) : float64 :=
  if isna x then d else x.

(** The feature table: the column [transaction_id] and the numeric
    columns, in the order of their assignment. *)
Record Features : Type := mkFeatures {
  feat_transaction_id : list string;
  columnas : list (string * list numero) }.

(** [features[nombre]], [None] where the table has no such column. *)
Fixpoint buscar (nombre : string) (cols : list (string * list numero))
  : option (list numero) :=
  match cols with
  | [] => None
  | (k, v) :: cols' =>
      if String.eqb k nombre then Some v else buscar nombre cols'
  end.

Definition columna (nombre : string) (f : Features) : option (list numero) :=
  buscar nombre (columnas f).

(** [df[nombre]]: [KeyError] on an absent column. *)
Definition getitem {A : Type} (nombre : string) (c : option (list A))
  : resultado (list A) :=
  match c with
  | Some l => Ok l
  | None => Raise (KeyError nombre)
  end.

(** [df.get(nombre, 0).fillna(d).astype(int)]: on an absent column
    [df.get] returns the integer 0, which has no method [fillna]. *)
Definition get_fillna_astype_int {A : Type} (c : option (list A))
    (llenar : A → Z) : resultado (list numero) :=
  match c with
  | Some l => Ok ((fun x => entero (llenar x)) <$> l)
  | None => Raise (AttributeError "'int' object has no attribute 'fillna'")
  end.

(** [features[nombre] = escalar]: the scalar on every row. *)
Definition escalar (n : nat) (z : Z) : list numero := replicate n (entero z).

(** [Series.str.contains(pat, na=na)] for an alternation of literal words,
    upper and lower case distinguished. *)
Definition contains (pats : list string) (na : bool) (c : option string)
  : bool :=
  match c with
  | None => na
  | Some s => existsb (fun p => str_find p s) pats
  end.

(** 1. The temporal features. *)
Definition features_temporales (df : DataFrame) (n : nat)
  : list (string * list numero) :=
  match col_FECHA_RADICA_TEXTO df with
  | Some fechas =>
      let dt (campo : Fecha → Z) : list numero :=
        (fun c => de_Int64 (campo <$> c)) <$> fechas in
      [("year", dt anio);
       ("month", dt mes);
       ("quarter", dt quarter);
       ("day_of_week", dt dayofweek);
       ("is_weekend",
         (fun c => de_bool (from_option (fun f => bool_decide (5 <= dayofweek f))
                              false c)) <$> fechas);
       ("days_since_2015", dt dias_desde_2015)]
  | None =>
      match col_YEAR_RADICA df with
      | Some years =>
          [("year", de_Int64 <$> years);
           ("month", escalar n 6);
           ("quarter", escalar n 2);
           ("day_of_week", escalar n 3);
           ("is_weekend", escalar n 0);
           ("days_since_2015",
             (fun y => de_Int64 ((fun z => (z - 2015) * 365) <$> y)) <$> years)]
      | None => []
      end
  end.

(** 2. The value features; [df['VALOR']] must exist. *)
Definition features_valor (df : DataFrame)
  : resultado (list (string * list numero)) :=
  let* valor := getitem "VALOR" (col_VALOR df) in
  let valor_acto := fillna (of_Z 0) <$> valor in
  Ok [("valor_acto", Num <$> valor_acto);
      ("log_valor", Log1p <$> valor_acto);
      ("valor_millones",
        (fun v => Num (div v (of_Z 1000000))) <$> valor_acto);
      ("valor_miles_millones",
        (fun v => Num (div v (of_Z 1000000000))) <$> valor_acto);
      ("valor_bajo",
        (fun v => de_bool (ltb v (of_Z 50000000))) <$> valor_acto);
      ("valor_medio",
        (fun v => de_bool (geb v (of_Z 50000000)
                           && ltb v (of_Z 500000000))) <$> valor_acto);
      ("valor_alto",
        (fun v => de_bool (geb v (of_Z 500000000))) <$> valor_acto)].

(** 3. The area features: not in the data, all 0. *)
Definition features_areas (n : nat) : list (string * list numero) :=
  (fun nombre => (nombre, escalar n 0)) <$>
  ["area_terreno"; "area_construida"; "area_total"; "log_area_terreno";
   "log_area_construida"; "ratio_construccion"; "valor_m2_terreno";
   "valor_m2_construida"].

(** 4. The activity features. *)
Definition features_actividad (df : DataFrame) (n : nat)
  : list (string * list numero) :=
  match col_anotaciones_por_anio df with
  | Some anotaciones =>
      let a := fillna (of_Z 1) <$> anotaciones in
      [("anotaciones_por_anio", Num <$> a);
       ("log_anotaciones", Log1p <$> a);
       ("actividad_alta", (fun v => de_bool (gtb v (of_Z 10))) <$> a)]
  | None =>
      [("anotaciones_por_anio", escalar n 1);
       ("log_anotaciones", escalar n 0);
       ("actividad_alta", escalar n 0)]
  end.

(** [==] of a cell of [CATEGORIA_RURALIDAD] with an integer. *)
Definition celda_eq_int (c : celda) (z : Z) : bool :=
  match c with
  | CInt v => bool_decide (v = z)
  | CBool b => bool_decide ((if b then 1 else 0) = z)
  | _ => false
  end.

(** 5. The zone features. *)
Definition features_geograficas (df : DataFrame) (n : nat)
  : list (string * list numero) :=
  match col_TIPO_PREDIO_ZONA df with
  | Some zona =>
      [("es_urbano", (fun c => de_bool (contains ["URBANO"] false c)) <$> zona);
       ("es_rural", (fun c => de_bool (contains ["RURAL"] false c)) <$> zona);
       ("sin_zona",
         (fun c => de_bool (negb (contains ["URBANO"; "RURAL"] true c)))
         <$> zona)]
  | None =>
      match col_CATEGORIA_RURALIDAD df with
      | Some cat =>
          [("es_urbano", (fun c => de_bool (celda_eq_int c 1)) <$> cat);
           ("es_rural",
             (fun c => de_bool (celda_eq_int c 2 || celda_eq_int c 3)) <$> cat);
           ("sin_zona", (fun c => de_bool (celda_isna c)) <$> cat)]
      | None =>
          [("es_urbano", escalar n 0);
           ("es_rural", escalar n 0);
           ("sin_zona", escalar n 1)]
      end
  end.

(** 6. The property-type features. *)
Definition features_tipo_predio (df : DataFrame) (n : nat)
  : list (string * list numero) :=
  match col_TIPO_PREDIO_ZONA df with
  | Some zona =>
      [("predio_nph", (fun c => de_bool (contains ["NPH"] false c)) <$> zona);
       ("predio_matriz",
         (fun c => de_bool (contains ["MATRIZ"] false c)) <$> zona);
       ("predio_matriz_nph",
         (fun c => de_bool (contains ["MATRIZ NPH"] false c)) <$> zona)]
  | None =>
      [("predio_nph", escalar n 0);
       ("predio_matriz", escalar n 0);
       ("predio_matriz_nph", escalar n 0)]
  end.

(** 7. The anomaly flags, read with [df.get]. *)
Definition features_flags (df : DataFrame)
  : resultado (list (string * list numero)) :=
  let* f1 := get_fillna_astype_int (col_flag_actividad_excesiva df)
         (fun c => if default false c then 1 else 0) in
  let* f2 := get_fillna_astype_int (col_flag_geo_discrepancia df)
         (fun c => if default false c then 1 else 0) in
  let* f3 := get_fillna_astype_int (col_total_flags_anomalia df) (default 0) in
  let* f4 := get_fillna_astype_int (col_TIENE_VALOR df) (default 1) in
  Ok [("flag_actividad_excesiva", f1);
      ("flag_geo_discrepancia", f2);
      ("total_flags_anomalia", f3);
      ("tiene_valor", f4)].

(** [(x // 100).astype(int)] on a float64 cell: the floor of the quotient;
    the quotient of an infinity is NaN, which [astype(int)] refuses. *)
Definition floordiv_100_astype_int (x : float64) : option Z :=
  match x with
  | Fin q => Some (Qfloor (q / 100))
  | _ => None
  end.

(** 8. The legal-nature code. *)
Definition features_naturaleza (df : DataFrame) (n : nat)
  : resultado (list (string * list numero)) :=
  match col_COD_NATUJUR df with
  | Some cod =>
      let cod_naturaleza_num := fillna (of_Z 0) <$> cod in
      match mapM floordiv_100_astype_int cod_naturaleza_num with
      | Some grupo =>
          Ok [("cod_naturaleza_num", Num <$> cod_naturaleza_num);
              ("cod_naturaleza_grupo", entero <$> grupo)]
      | None => Raise (IntCastingNaNError "cod_naturaleza_grupo")
      end
  | None =>
      Ok [("cod_naturaleza_num", escalar n 0);
          ("cod_naturaleza_grupo", escalar n 0)]
  end.

(** 9. The counts, read with [df.get]. *)
Definition features_counts (df : DataFrame)
  : resultado (list (string * list numero)) :=
  let* c1 := get_fillna_astype_int (col_COUNT_A df) (default 0) in
  let* c2 := get_fillna_astype_int (col_COUNT_DE df) (default 0) in
  let* c3 := get_fillna_astype_int (col_PREDIOS_NUEVOS df) (default 0) in
  Ok [("count_a", c1); ("count_de", c2); ("predios_nuevos", c3)].

(** [features.fillna(0)]: every NaN of the table becomes 0 (where the table
    has no NaN this changes nothing, so the test of the source is not
    needed). *)
Definition sanear (v : numero) : numero :=
  if numero_isna v then entero 0 else v.

Definition features_fillna_0 (cols : list (string * list numero))
  : list (string * list numero) :=
  (fun c : string * list numero => (c.1, sanear <$> c.2)) <$> cols.

(** [PropSafeFeatureEngineer.create_features]. *)
Definition create_features (df : DataFrame) : resultado Features :=
  let* tid := getitem "transaction_id" (col_transaction_id df) in
  let n := length tid in
  let temporales := features_temporales df n in
  let* valor := features_valor df in
  let areas := features_areas n in
  let actividad := features_actividad df n in
  let geograficas := features_geograficas df n in
  let tipo_predio := features_tipo_predio df n in
  let* flags := features_flags df in
  let* naturaleza := features_naturaleza df n in
  let* counts := features_counts df in
  let cols :=
    temporales ++ valor ++ areas ++ actividad ++ geograficas ++ tipo_predio
    ++ flags ++ naturaleza ++ counts in
  Ok (mkFeatures tid (features_fillna_0 cols)).

(** The columns [create_features] reads with [df[...]] or with
    [df.get(...)] are in the schema. *)
Definition columnas_leidas_presentes (df : DataFrame) : Prop :=
  is_Some (col_transaction_id df)
  ∧ is_Some (col_VALOR df)
  ∧ is_Some (col_flag_actividad_excesiva df)
  ∧ is_Some (col_flag_geo_discrepancia df)
  ∧ is_Some (col_total_flags_anomalia df)
  ∧ is_Some (col_TIENE_VALOR df)
  ∧ is_Some (col_COUNT_A df)
  ∧ is_Some (col_COUNT_DE df)
  ∧ is_Some (col_PREDIOS_NUEVOS df).

(** No legal-nature code of the batch is an infinity. *)
Definition cod_natujur_finito (df : DataFrame) : Prop :=
  ∀ cod, col_COD_NATUJUR df = Some cod →
         Forall (fun x => x ≠ PInf ∧ x ≠ NInf) cod.

(** The names of the feature columns, in the order of their assignment:
    the six temporal ones and the thirty-three that follow them. *)
Definition nombres_temporales : list string :=
  ["year"; "month"; "quarter"; "day_of_week"; "is_weekend"; "days_since_2015"].

Definition nombres_fijos : list string :=
  ["valor_acto"; "log_valor"; "valor_millones"; "valor_miles_millones";
   "valor_bajo"; "valor_medio"; "valor_alto";
   "area_terreno"; "area_construida"; "area_total"; "log_area_terreno";
   "log_area_construida"; "ratio_construccion"; "valor_m2_terreno";
   "valor_m2_construida";
   "anotaciones_por_anio"; "log_anotaciones"; "actividad_alta";
   "es_urbano"; "es_rural"; "sin_zona";
   "predio_nph"; "predio_matriz"; "predio_matriz_nph";
   "flag_actividad_excesiva"; "flag_geo_discrepancia"; "total_flags_anomalia";
   "tiene_valor";
   "cod_naturaleza_num"; "cod_naturaleza_grupo";
   "count_a"; "count_de"; "predios_nuevos"].

End FeatureEngineering.
Export FeatureEngineering.

(** *** [src/ml/apply_models.py] and [src/ml/train_propsafe.py]: the
    ensemble scorer *)
Module Ensemble.

(** A fitted scikit-learn detector ([IsolationForest], or
    [LocalOutlierFactor] with [novelty=True]) as the scorer uses it: two
    functions from the rows of a feature matrix to one finite score per row.
    For both detectors and both functions scikit-learn documents: the lower,
    the more abnormal; negative values are outliers. *)
Record Detector (X : Type) : Type := mkDetector {
  score_samples : list X → list Q;
  decision_function : list X → list Q;
  score_samples_length : ∀ m, length (score_samples m) = length m;
  decision_function_length : ∀ m, length (decision_function m) = length m }.
Arguments mkDetector {X}.
Arguments score_samples {X}.
Arguments decision_function {X}.

(** A detector that scores every row on its own. *)
Program Definition detector_por_fila {X : Type} (f g : X → Q) : Detector X :=
  mkDetector (fun m => f <$> m) (fun m => g <$> m) _ _.
Next Obligation. intros. apply length_fmap. Qed.
Next Obligation. intros. apply length_fmap. Qed.

(** An engineer whose [transform] returns a pair, as line 60 of
    [score_batch] unpacks it ([X, _ = engineer.transform(df)]):
    [transform] is the first component of the pair, the batch as a feature
    matrix, one row per record.  The unpacking itself, and an engineer
    that returns one array, are in [score_batch_desde_transform] below. *)
Record FeatureEngineer (Lote X : Type) : Type := mkFeatureEngineer {
  transform : Lote → list X }.
Arguments mkFeatureEngineer {Lote X}.
Arguments transform {Lote X}.

(** The array of scores a detector returns, as a float64 array. *)
Definition asarray (l : list Q) : list float64 := Fin <$> l.

(** [(a - a.min()) / (a.max() - a.min())] on an array; [a.min()] of an
    empty array raises [ValueError] ([None]). *)
Definition min_max (a : list float64) : option (list float64) :=
  match a with
  | [] => None
  | x :: xs =>
      let lo := array_min x xs in
      let hi := array_max x xs in
      Some ((fun v => div (sub v lo) (sub hi lo)) <$> a)
  end.

(** The weights 0.6 and 0.4 of the two detectors. *)
Definition PESO_IF : float64 := Fin (6 # 10).
Definition PESO_LOF : float64 := Fin (4 # 10).

(** [0.6 * if_norm + 0.4 * lof_norm], element by element. *)
Definition weighted_ensemble (if_norm lof_norm : list float64)
  : list float64 :=
  zip_with (fun a b => add (mul PESO_IF a) (mul PESO_LOF b)) if_norm lof_norm.

(** [score_batch] of [apply_models.py]. *)
Definition score_batch {Lote X : Type} (df : Lote)
    (engineer : FeatureEngineer Lote X) (iso_forest lof : Detector X)
  : option (list float64 * list bool) :=
  let X_ := transform engineer df in
  let if_scores := asarray (score_samples iso_forest X_) in
  let lof_scores := asarray (score_samples lof X_) in
  if_norm ← min_max if_scores;
  lof_norm ← min_max lof_scores;
  let if_norm := (fun v => sub (Fin 1) v) <$> if_norm in
  let lof_norm := (fun v => sub (Fin 1) v) <$> lof_norm in
  let ensemble_scores := weighted_ensemble if_norm lof_norm in
  let is_anomaly := (fun s => geb s (Fin (1 # 2))) <$> ensemble_scores in
  Some (ensemble_scores, is_anomaly).

(** The three risk classes. *)
Inductive Riesgo : Type := normal | suspicious | high_risk.

(** [_classify_risk] of [apply_models.py], on one score. *)
Definition _classify_risk_score (score : float64) : Riesgo :=
  if geb score (Fin (7 # 10)) then high_risk
  else if geb score (Fin (4 # 10)) then suspicious
  else normal.

(** The order the scores are sorted by. *)
Definition Qle_b (a b : Q) : Prop := Qle_bool a b = true.

Global Instance Qle_b_dec : RelDecision Qle_b.
Proof. intros a b. unfold Qle_b. apply _. Defined.

(** [numpy.percentile(a, p)] with the default linear interpolation, on a
    non-empty array of finite values: the value at position
    [(n - 1) * p / 100] of the sorted array, interpolated between its two
    neighbours. *)
Definition percentile (a : list Q) (p : Q) : Q :=
  let s := merge_sort Qle_b a in
  let pos := (inject_Z (Z.of_nat (length a) - 1) * p / 100)%Q in
  let i := Z.to_nat (Qfloor pos) in
  let frac := (pos - inject_Z (Qfloor pos))%Q in
  let lo := nth i s 0%Q in
  let hi := nth (S i) s lo in
  (lo + frac * (hi - lo))%Q.

(** [numpy.clip(x, lo, hi)]: [minimum(maximum(x, lo), hi)]. *)
Definition clip (lo hi x : float64) : float64 := fmin (fmax x lo) hi.

(** [PropSafeAnomalyDetector._normalize_scores]. *)
Definition _normalize_scores (scores : list Q) : option (list float64) :=
  let p5 := Fin (percentile scores 5) in
  let p95 := Fin (percentile scores 95) in
  let scores_clipped := clip p5 p95 <$> asarray scores in
  match scores_clipped with
  | [] => None
  | x :: xs =>
      let score_min := array_min x xs in
      let score_max := array_max x xs in
      if gtb (sub score_max score_min) (Fin 0)
      then Some ((fun v => div (sub v score_min) (sub score_max score_min))
                 <$> scores_clipped)
      else Some ((fun _ => Fin 0) <$> scores)
  end.

(** [PropSafeAnomalyDetector._classify_risk]: 0 normal, 1 suspicious,
    2 high risk. *)
Definition _classify_risk (scores : list float64) : list Z :=
  (fun s => if geb s (Fin (7 # 10)) then 2
            else if geb s (Fin (4 # 10)) then 1 else 0) <$> scores.

(** The state of a [PropSafeAnomalyDetector] that [predict] reads. *)
Record PropSafeAnomalyDetector (X : Type) : Type :=
  mkPropSafeAnomalyDetector {
  iso_forest : Detector X;
  lof : Detector X;
  scaler_transform : list X → list X;
  is_fitted : bool }.
Arguments mkPropSafeAnomalyDetector {X}.
Arguments iso_forest {X}.
Arguments lof {X}.
Arguments scaler_transform {X}.
Arguments is_fitted {X}.

(** The entries of the dictionary [predict] returns that are computed from
    the scores (the two arrays of labels of the detectors are left out). *)
Record Prediccion : Type := mkPrediccion {
  anomaly_scores : list float64;
  classifications : list Z;
  if_scores : list float64;
  lof_scores : list float64 }.

(** [PropSafeAnomalyDetector.predict]; [None] where the source raises
    ([ValueError] on a detector that is not fitted or an empty batch). *)
Definition predict {X : Type} (self : PropSafeAnomalyDetector X)
    (X_ : list X) : option Prediccion :=
  if negb (is_fitted self) then None
  else
    let X_scaled := scaler_transform self X_ in
    let if_scores := decision_function (iso_forest self) X_scaled in
    let lof_scores := Qopp <$> decision_function (lof self) X_scaled in
    if_scores_norm ← _normalize_scores if_scores;
    lof_scores_norm ← _normalize_scores lof_scores;
    let ensemble_scores := weighted_ensemble if_scores_norm lof_scores_norm in
    let classifications := _classify_risk ensemble_scores in
    Some (mkPrediccion ensemble_scores classifications
            if_scores_norm lof_scores_norm).

(** Two arrays hold the same numbers ([numpy.array_equal]). *)
Definition array_equal (a b : list float64) : Prop :=
  Forall2 (fun x y => eqb x y = true) a b.

(** What [engineer.transform(df)] returns, as line 60 of [score_batch]
    meets it: a pair whose first component is the feature matrix, or one
    array, the feature matrix itself (what [FeatureEngineer.transform] of
    [ml/feature_engineering.py] returns). *)
Inductive Transformado (X : Type) : Type :=
| Par (X_ : list X)
| Arreglo (filas : list X).
Arguments Par {X}.
Arguments Arreglo {X}.

(** [score_batch] from its first line, [X, _ = engineer.transform(df)].  A
    pair gives its first component to [X], and the rest of the function is
    [score_batch] above.  An array is unpacked along its rows:
    [ValueError] unless it has exactly two rows, and with two rows [X] is
    the first row, a one-dimensional array, which [score_samples] refuses
    with [ValueError].  On an array the function raises in every case
    ([None]). *)
Definition score_batch_desde_transform {Lote X : Type} (df : Lote)
    (transformar : Lote → Transformado X) (iso_forest lof : Detector X)
  : option (list float64 * list bool) :=
  match transformar df with
  | Par X_ => score_batch df (mkFeatureEngineer (fun _ => X_)) iso_forest lof
  | Arreglo _ => None
  end.

(** The integer [PropSafeAnomalyDetector._classify_risk] writes for a risk
    class. *)
Definition codigo_riesgo (r : Riesgo) : Z :=
  match r with normal => 0 | suspicious => 1 | high_risk => 2 end.

(** The array holds two different scores. *)
Definition distingue (scores : list Q) : Prop :=
  ∃ a b, a ∈ scores ∧ b ∈ scores ∧ (a < b)%Q.

(** [numpy.clip] on finite values, as a function of the value clipped. *)
Definition clip_Q (lo hi x : Q) : Q :=
  let m := if Qlt_bool x lo then lo else x in
  if Qlt_bool hi m then hi else m.

End Ensemble.
Export Ensemble.

(** *** Concrete rows and batches used in the examples below *)
Module Ejemplos.

(** A market sale and an administrative act, both with value 0. *)
Definition registro_mercado_sin_valor : Registro :=
  mkRegistro (Some "050-1") (Some 2020) (Some 1) (of_Z 0)
    (Some "ANTIOQUIA") (Some "MEDELLIN") (Some "COMPRAVENTA") (Some "URBANO").

Definition registro_admin_sin_valor : Registro :=
  mkRegistro (Some "050-2") (Some 2020) (Some 0) (of_Z 0)
    (Some "ANTIOQUIA") (Some "MEDELLIN") (Some "SUCESION") (Some "URBANO").

(** A market sale of 25,000,000,000 with a zone outside the accepted
    list. *)
Definition registro_valor_extremo : Registro :=
  mkRegistro (Some "050-3") (Some 2021) (Some 1) (of_Z 25000000000)
    (Some "ANTIOQUIA") (Some "MEDELLIN") (Some "COMPRAVENTA") (Some "BALDIO").

(** A market sale of 5,000,000 filed in 1990: the year rule makes it an
    [ERROR], the value is within the range. *)
Definition registro_year_1990 : Registro :=
  mkRegistro (Some "050-4") (Some 1990) (Some 1) (of_Z 5000000)
    (Some "ANTIOQUIA") (Some "MEDELLIN") (Some "COMPRAVENTA") (Some "URBANO").

(** The same sale, filed in 2020 with a zone outside the accepted list: an
    [ADVERTENCIA]. *)
Definition registro_zona_rara : Registro :=
  mkRegistro (Some "050-5") (Some 2020) (Some 1) (of_Z 5000000)
    (Some "ANTIOQUIA") (Some "MEDELLIN") (Some "COMPRAVENTA") (Some "BALDIO").

(** An administrative act with no value and no act name: the inputs of the
    low-value rule and of the ceiling rule are missing. *)
Definition registro_admin_incompleto : Registro :=
  mkRegistro (Some "050-7") (Some 2020) (Some 0) NaN
    (Some "ANTIOQUIA") (Some "MEDELLIN") None (Some "RURAL").

(** A valid market sale whose zone category is missing. *)
Definition registro_sin_zona : Registro :=
  mkRegistro (Some "050-8") (Some 2020) (Some 1) (of_Z 5000000)
    (Some "ANTIOQUIA") (Some "MEDELLIN") (Some "COMPRAVENTA") None.

(** A valid market sale whose filing year is missing. *)
Definition registro_sin_year : Registro :=
  mkRegistro (Some "050-9") None (Some 1) (of_Z 5000000)
    (Some "ANTIOQUIA") (Some "MEDELLIN") (Some "COMPRAVENTA") (Some "URBANO").

(** One annotation of the property 176-4521, filed in the year [y]. *)
Definition anotacion (y : option Z) : Registro :=
  mkRegistro (Some "176-4521") y (Some 0) (of_Z 0)
    (Some "CUNDINAMARCA") (Some "ZIPAQUIRA") (Some "EMBARGO") (Some "URBANO").

Definition anotacion_2021 : Registro := anotacion (Some 2021).

Definition lote_151 : list Registro := replicate 151 anotacion_2021.

(** A raw batch of three rows: the department of the second row is NaN,
    that of the third is [None]. *)
Definition lote_departamento_nan : gmap string (list celda) :=
  {[ "DEPARTAMENTO" := [CStr " Antioquia"; CNaN; CNone];
     "MUNICIPIO" := [CStr "Medellin"; CStr "Itagui"; CStr "Bello"];
     "PK" := [CInt 1; CInt 2; CInt 3] ]}.

(** A raw row of the municipality 5001, act 0125, year 2021. *)
Definition fila_cruda (matricula : string) (anotacion : Z) : Crudo :=
  mkCrudo (CInt 5001) (CStr matricula) (CInt anotacion) (CStr "0125")
    (CInt 2021).

(** Three source rows, the first one injected a second time. *)
Definition lote_con_duplicado : list Crudo :=
  [fila_cruda "001-77" 1; fila_cruda "001-77" 2; fila_cruda "001-78" 1;
   fila_cruda "001-77" 1].

(** A detector whose score of a record is the record's one feature, and a
    fitted ensemble of two of them with the identity as scaler. *)
Definition detector_identidad : Detector Q :=
  detector_por_fila (fun x => x) (fun x => x).

Definition detector_entrenado : PropSafeAnomalyDetector Q :=
  mkPropSafeAnomalyDetector detector_identidad detector_identidad
    (fun m => m) true.

(** Two records: the first is the outlier for both detectors (the lower
    score, -0.3), the second the inlier (0.2). *)
Definition lote_outlier_inlier : list Q := [(-3 # 10)%Q; (2 # 10)%Q].

(** A batch of two records with every column of the schema but [VALOR]. *)
Definition lote_sin_valor : DataFrame :=
  mkDataFrame 2 (Some ["5001_050-1_1_0125_2020"; "5001_050-2_1_0125_2021"])
    None (Some [Some 2020; Some 2021]) None
    (Some [of_Z 1; of_Z 3]) (Some [Some "URBANO"; Some "RURAL"]) None
    (Some [Some false; Some false]) (Some [Some false; Some true])
    (Some [Some 0; Some 1]) (Some [Some 1; Some 1])
    (Some [of_Z 125; of_Z 125]) (Some [Some 1; Some 2])
    (Some [Some 1; Some 1]) (Some [Some 0; Some 0]).

(** The same batch with [VALOR] and without [COUNT_A]. *)
Definition lote_sin_count_a : DataFrame :=
  mkDataFrame 2 (Some ["5001_050-1_1_0125_2020"; "5001_050-2_1_0125_2021"])
    None (Some [Some 2020; Some 2021]) (Some [of_Z 60000000; of_Z 0])
    (Some [of_Z 1; of_Z 3]) (Some [Some "URBANO"; Some "RURAL"]) None
    (Some [Some false; Some false]) (Some [Some false; Some true])
    (Some [Some 0; Some 1]) (Some [Some 1; Some 1])
    (Some [of_Z 125; of_Z 125]) None
    (Some [Some 1; Some 1]) (Some [Some 0; Some 0]).

(** A batch with the columns that are read and none of the optional ones. *)
Definition lote_sin_opcionales : DataFrame :=
  mkDataFrame 2 (Some ["5001_050-1_1_0125_2020"; "5001_050-2_1_0125_2021"])
    None None (Some [of_Z 60000000; NaN]) None None None
    (Some [Some false; Some false]) (Some [Some false; Some true])
    (Some [Some 0; Some 1]) (Some [Some 1; None])
    None (Some [Some 1; Some 2])
    (Some [Some 1; None]) (Some [Some 0; Some 0]).

(** A Parquet file of six rows, read in batches of two. *)
Definition archivo_seis_filas : ParquetFile Z :=
  mkParquetFile [1; 2; 3; 4; 5; 6] (fun _ => [[1; 2]; [3; 4]; [5; 6]])
    (fun _ => eq_refl).

(** The row [fila_cruda "001-77" 1] with every cell given as text. *)
Definition fila_cruda_texto : Crudo :=
  mkCrudo (CStr "5001") (CStr "001-77") (CStr "1") (CStr "0125")
    (CStr "2021").

(** 151 annotations of one property, none with a filing year. *)
Definition anotacion_sin_year : Registro := anotacion None.

Definition lote_151_sin_year : list Registro :=
  replicate 151 anotacion_sin_year.

(** A typed batch of two market sales: one without filing year, one filed
    in 1990. *)
Definition lote_ml : list Registro := [registro_sin_year; registro_year_1990].

(** A batch with the columns that are read, a zone column with a missing
    cell and a year column with a missing cell. *)
Definition lote_zona_faltante : DataFrame :=
  mkDataFrame 2 (Some ["5001_050-1_1_0125_2020"; "5001_050-2_1_0125_nan"])
    None (Some [Some 2020; None]) (Some [of_Z 60000000; of_Z 700000000])
    None (Some [Some "URBANO"; None]) None
    (Some [Some false; Some false]) (Some [Some false; Some true])
    (Some [Some 0; Some 1]) (Some [Some 1; None])
    None (Some [Some 1; Some 2])
    (Some [Some 1; None]) (Some [Some 0; Some 0]).

End Ejemplos.
Export Ejemplos.

(** ** Part II. Properties *)

(** *** Comparisons of float64 cells *)
Section Float64Facts.

Lemma Qlt_bool_iff (a b : Q) : Qlt_bool a b = true ↔ (a < b)%Q.
Proof.
  unfold Qlt_bool. rewrite negb_true_iff.
  destruct (Qle_bool b a) eqn:E.
  - apply Qle_bool_iff in E. split; [discriminate | intros H; lra].
  - split; [intros _ | reflexivity].
    destruct (Qlt_le_dec a b) as [H | H]; [exact H |].
    apply Qle_bool_iff in H. congruence.
Qed.

Lemma ltb_nan_l (x : float64) : ltb NaN x = false.
Proof. reflexivity. Qed.

Lemma ltb_nan_r (x : float64) : ltb x NaN = false.
Proof. by destruct x. Qed.

Lemma isna_true (x : float64) : isna x = true → x = NaN.
Proof. by destruct x. Qed.

Lemma eqb_Fin_inv (x : float64) (c : Q) :
  eqb x (Fin c) = true → ∃ q, x = Fin q ∧ (q == c)%Q.
Proof.
  destruct x as [q| | |]; simpl; try discriminate.
  intros H%Qeq_bool_iff. eauto.
Qed.

Lemma ltb_Fin (a b : Q) : ltb (Fin a) (Fin b) = true ↔ (a < b)%Q.
Proof. apply Qlt_bool_iff. Qed.

Lemma ltb_Fin_false (a b : Q) : ltb (Fin a) (Fin b) = false ↔ (b <= a)%Q.
Proof.
  rewrite <- not_true_iff_false, ltb_Fin. split; intros H; lra.
Qed.

Lemma leb_Fin (a b : Q) : leb (Fin a) (Fin b) = true ↔ (a <= b)%Q.
Proof.
  unfold leb. rewrite orb_true_iff, ltb_Fin. simpl. rewrite Qeq_bool_iff.
  split; [intros [H | H]; lra |].
  intros H. destruct (Qlt_le_dec a b); [by left | right; lra].
Qed.

(** A missing or zero value is neither positive nor above the ceiling. *)
Lemma sin_valor_no_positivo (v : float64) :
  isna v || eqb v (of_Z 0) = true →
  gtb v (of_Z 0) = false ∧ gtb v VALOR_TECHO = false.
Proof.
  intros [H | H]%orb_true_iff.
  - apply isna_true in H as ->. unfold gtb. by rewrite !ltb_nan_r.
  - apply eqb_Fin_inv in H as (q & -> & Hq).
    unfold gtb, VALOR_TECHO, of_Z. rewrite !ltb_Fin_false.
    rewrite Hq. split; [lra | done].
Qed.

End Float64Facts.

(** Reads a column of [clasificar_fila r] as the nested conditional the
    sequence of assignments amounts to. *)
Ltac leer_columnas :=
  unfold clasificar_fila;
  cbn [calidad_datos tipo_error es_mercado_valido valor_valido
       loc_calidad loc_tipo_error set_es_mercado_valido set_valor_valido].

(** Every row of the classified batch is a row of the input with the
    result of [clasificar_fila] attached. *)
Lemma clasificar_calidad_elem (df : list Registro) (f : Clasificado) :
  f ∈ clasificar_calidad df ↔ f.1 ∈ df ∧ f.2 = clasificar_fila f.1.
Proof.
  unfold clasificar_calidad. rewrite list_elem_of_fmap. split.
  - intros (r & -> & Hr). done.
  - intros [Hr Hf]. exists f.1. split; [|done]. destruct f; simpl in *. by subst.
Qed.

Lemma clasificar_calidad_length (df : list Registro) :
  length (clasificar_calidad df) = length df.
Proof. apply length_map. Qed.

(** *** The contextual value rule *)

Example clasificar_mercado_sin_valor :
  clasificar_fila registro_mercado_sin_valor
  = mkCalificacion ERROR (Some MERCADO_SIN_VALOR) true false.
Proof. vm_compute. reflexivity. Qed.

Example clasificar_admin_sin_valor :
  clasificar_fila registro_admin_sin_valor
  = mkCalificacion OK None false false.
Proof. vm_compute. reflexivity. Qed.

(** C1. In every classified batch, a row that is market-relevant
    ([Dinámica_Inmobiliaria = 1]) and whose [VALOR] is missing or exactly 0
    ends with the verdict [ERROR] and the reason [MERCADO_SIN_VALOR]; a row
    that is not market-relevant never carries the reason
    [MERCADO_SIN_VALOR], whatever its value. *)
Theorem mercado_sin_valor_contextual (df : list Registro) (f : Clasificado) :
  f ∈ clasificar_calidad df →
  (Dinamica_Inmobiliaria f.1 = Some 1 →
   isna (VALOR f.1) || eqb (VALOR f.1) (of_Z 0) = true →
   calidad_datos f.2 = ERROR ∧ tipo_error f.2 = Some MERCADO_SIN_VALOR)
  ∧ (Dinamica_Inmobiliaria f.1 ≠ Some 1 →
     tipo_error f.2 ≠ Some MERCADO_SIN_VALOR).
Proof.
  intros [_ Hf]%clasificar_calidad_elem. rewrite Hf. clear Hf.
  generalize f.1 as r. clear f. intros r. leer_columnas. split.
  - intros Hdin Hval.
    destruct (sin_valor_no_positivo _ Hval) as [Hpos Htecho].
    rewrite Hdin, Hval, Hpos, Htecho.
    simpl. rewrite !andb_false_r. simpl. rewrite ?andb_false_r. done.
  - intros Hdin.
    rewrite (bool_decide_eq_false_2 _ Hdin). simpl.
    repeat (case_match; try done).
Qed.

(** The claim C1 at a batch of a market row and an administrative row, both
    with value 0. *)
Lemma mercado_sin_valor_contextual_witness :
  (calidad_datos (clasificar_fila registro_mercado_sin_valor) = ERROR
   ∧ tipo_error (clasificar_fila registro_mercado_sin_valor)
     = Some MERCADO_SIN_VALOR)
  ∧ tipo_error (clasificar_fila registro_admin_sin_valor)
    ≠ Some MERCADO_SIN_VALOR.
Proof.
  pose (df := [registro_mercado_sin_valor; registro_admin_sin_valor]).
  split.
  - refine (proj1 (mercado_sin_valor_contextual df
             (registro_mercado_sin_valor,
              clasificar_fila registro_mercado_sin_valor) _) _ _).
    + apply clasificar_calidad_elem. split; [|reflexivity].
      simpl. apply list_elem_of_here.
    + reflexivity.
    + reflexivity.
  - refine (proj2 (mercado_sin_valor_contextual df
             (registro_admin_sin_valor,
              clasificar_fila registro_admin_sin_valor) _) _).
    + apply clasificar_calidad_elem. split; [|reflexivity].
      simpl. apply list_elem_of_further, list_elem_of_here.
    + simpl. discriminate.
Defined.

(** *** The ceiling rule *)

Example clasificar_valor_extremo :
  clasificar_fila registro_valor_extremo
  = mkCalificacion ERROR (Some VALOR_EXTREMO_DIGITACION) true false.
Proof. vm_compute. reflexivity. Qed.

(** C4. In every classified batch, a row whose [VALOR] is above the ceiling
    of 10,000,000,000 ends with the verdict [ERROR], with the reason
    [VALOR_EXTREMO_DIGITACION], whatever its market indicator and its act
    name: the zone rule that runs afterwards and the low-value rule that
    runs before leave it [ERROR]. *)
Theorem valor_extremo_domina (df : list Registro) (f : Clasificado) :
  f ∈ clasificar_calidad df →
  gtb (VALOR f.1) VALOR_TECHO = true →
  calidad_datos f.2 = ERROR
  ∧ tipo_error f.2 = Some VALOR_EXTREMO_DIGITACION.
Proof.
  intros [_ Hf]%clasificar_calidad_elem Hext. rewrite Hf. clear Hf.
  revert Hext. generalize f.1 as r. clear f. intros r Hext.
  leer_columnas. rewrite Hext. simpl.
  rewrite ?andb_false_r. done.
Qed.

Lemma valor_extremo_domina_witness :
  calidad_datos (clasificar_fila registro_valor_extremo) = ERROR
  ∧ tipo_error (clasificar_fila registro_valor_extremo)
    = Some VALOR_EXTREMO_DIGITACION.
Proof.
  refine (valor_extremo_domina [registro_valor_extremo]
            (registro_valor_extremo, clasificar_fila registro_valor_extremo)
            _ _).
  - apply clasificar_calidad_elem. split; [|reflexivity].
    simpl. apply list_elem_of_here.
  - reflexivity.
Defined.

(** *** The value-valid-for-modelling column *)

(** C5, as stated, fails: [valor_valido] is [True] on a row whose verdict
    is [ERROR], and on a row whose verdict is [ADVERTENCIA]. *)
Lemma valor_valido_con_error :
  ¬ (∀ f : Clasificado,
       f ∈ clasificar_calidad [registro_year_1990; registro_zona_rara] →
       valor_valido f.2 = true → calidad_datos f.2 = OK)
  ∧ (valor_valido (clasificar_fila registro_year_1990) = true
     ∧ calidad_datos (clasificar_fila registro_year_1990) = ERROR)
  ∧ (valor_valido (clasificar_fila registro_zona_rara) = true
     ∧ calidad_datos (clasificar_fila registro_zona_rara) = ADVERTENCIA).
Proof.
  split; [|by vm_compute].
  intros H.
  specialize (H (registro_year_1990, clasificar_fila registro_year_1990)).
  assert (calidad_datos (clasificar_fila registro_year_1990) = OK) as Hok.
  { apply H; [|reflexivity]. simpl. apply list_elem_of_here. }
  vm_compute in Hok. discriminate.
Qed.

(** C5 (amended). In every classified batch, [valor_valido] is [True]
    exactly when the row is market-relevant and its [VALOR] lies in
    [1,000,000 .. 10,000,000,000]; the verdict takes no part in it.  The
    verdict is joined in [crear_datasets]: a row is selected for
    [ml_training] exactly when [valor_valido] holds and its verdict is
    [OK]. *)
Theorem valor_valido_rango_mercado (df : list Registro) (f : Clasificado) :
  f ∈ clasificar_calidad df →
  (valor_valido f.2 = true ↔
     Dinamica_Inmobiliaria f.1 = Some 1
     ∧ geb (VALOR f.1) VALOR_PISO = true
     ∧ leb (VALOR f.1) VALOR_TECHO = true)
  ∧ (mask_ml f = true ↔
       valor_valido f.2 = true ∧ calidad_datos f.2 = OK).
Proof.
  intros [_ Hf]%clasificar_calidad_elem.
  assert (valor_valido f.2 = true ↔
            Dinamica_Inmobiliaria f.1 = Some 1
            ∧ geb (VALOR f.1) VALOR_PISO = true
            ∧ leb (VALOR f.1) VALOR_TECHO = true) as Hval.
  { rewrite Hf. leer_columnas.
    rewrite !andb_true_iff, bool_decide_eq_true. tauto. }
  split; [exact Hval|].
  unfold mask_ml. rewrite !andb_true_iff, bool_decide_eq_true.
  split; [tauto|]. intros [Hv Hok]. split; [split|]; try done.
  apply Hval in Hv as [Hdin _].
  rewrite Hf. leer_columnas. by apply bool_decide_eq_true.
Qed.

(** The rows written to [ml_training.parquet] are the rows of the batch
    that [mask_ml] selects. *)
Lemma ml_training_elem (df : list Clasificado) (f : Clasificado) :
  f ∈ ml_training df ↔ f ∈ df ∧ mask_ml f = true.
Proof. unfold ml_training. rewrite list_elem_of_filter. tauto. Qed.

Lemma valor_valido_rango_mercado_witness :
  (valor_valido (clasificar_fila registro_year_1990) = true ↔
     Some 1 = Some 1
     ∧ geb (of_Z 5000000) VALOR_PISO = true
     ∧ leb (of_Z 5000000) VALOR_TECHO = true)
  ∧ (mask_ml (registro_year_1990, clasificar_fila registro_year_1990) = true ↔
       valor_valido (clasificar_fila registro_year_1990) = true
       ∧ calidad_datos (clasificar_fila registro_year_1990) = OK).
Proof.
  refine (valor_valido_rango_mercado [registro_year_1990]
            (registro_year_1990, clasificar_fila registro_year_1990) _).
  apply clasificar_calidad_elem. split; [|reflexivity].
  simpl. apply list_elem_of_here.
Defined.

(** *** Missing inputs of the rules *)

(** C3, as stated, fails: a row whose [VALOR] and [NOMBRE_NATUJUR] are
    missing can end [OK], and a row whose zone category is missing ends
    [ADVERTENCIA]; neither is an [ERROR]. *)
Lemma regla_con_entrada_faltante_sin_error :
  (VALOR registro_admin_incompleto = NaN
   ∧ NOMBRE_NATUJUR registro_admin_incompleto = None
   ∧ calidad_datos (clasificar_fila registro_admin_incompleto) = OK)
  ∧ (TIPO_PREDIO_ZONA registro_sin_zona = None
     ∧ calidad_datos (clasificar_fila registro_sin_zona) = ADVERTENCIA).
Proof. by vm_compute. Qed.

(** The year rule on a missing year: the comparison of the nullable column
    is [<NA>], the mask selects nothing and the row stays [OK]. *)
Example clasificar_sin_year :
  clasificar_fila registro_sin_year = mkCalificacion OK None true true.
Proof. vm_compute. reflexivity. Qed.

(** The rules that follow an [ERROR] leave it: the zone rule and the
    low-value rule write only where the verdict is still [OK]. *)
Lemma zona_preserva_error (m : bool) (x : Calidad) :
  x = ERROR →
  (if m && bool_decide (x = OK) then ADVERTENCIA else x) = ERROR.
Proof. intros ->. by rewrite andb_false_r. Qed.

Lemma valor_preserva_error (ext a : bool) (y : Calidad) :
  y = ERROR →
  (if ext then ERROR
   else if a && bool_decide (y = OK) then ADVERTENCIA else y) = ERROR.
Proof. intros ->. rewrite andb_false_r. by destruct ext. Qed.

(** C3 (amended). In every classified batch: a row whose market indicator
    is missing, or whose [DEPARTAMENTO] or [MUNICIPIO] is missing, or that
    is market-relevant with a missing [VALOR], ends with the verdict
    [ERROR]; a row whose zone category is missing is matched by the zone
    rule, a warning rule, and ends [ADVERTENCIA] or [ERROR], never [OK]; a
    missing [VALOR] on a row that is not market-relevant matches no value
    rule, and a missing act name does not match the low-value rule. *)
Theorem entradas_faltantes (df : list Registro) (f : Clasificado) :
  f ∈ clasificar_calidad df →
  (Dinamica_Inmobiliaria f.1 = None
   ∨ DEPARTAMENTO f.1 = None
   ∨ MUNICIPIO f.1 = None
   ∨ (Dinamica_Inmobiliaria f.1 = Some 1 ∧ VALOR f.1 = NaN) →
   calidad_datos f.2 = ERROR)
  ∧ (TIPO_PREDIO_ZONA f.1 = None →
     calidad_datos f.2 ≠ OK ∧ tipo_error f.2 ≠ None)
  ∧ (VALOR f.1 = NaN → Dinamica_Inmobiliaria f.1 ≠ Some 1 →
     tipo_error f.2 ≠ Some MERCADO_SIN_VALOR
     ∧ tipo_error f.2 ≠ Some VALOR_IRRISIORIO
     ∧ tipo_error f.2 ≠ Some VALOR_EXTREMO_DIGITACION)
  ∧ (NOMBRE_NATUJUR f.1 = None → tipo_error f.2 ≠ Some VALOR_IRRISIORIO).
Proof.
  intros [_ Hf]%clasificar_calidad_elem. rewrite Hf. clear Hf.
  generalize f.1 as r. clear f. intros r. leer_columnas.
  split; [|split; [|split]].
  - intros Hmiss.
    apply zona_preserva_error, valor_preserva_error.
    destruct Hmiss as [Hd | [Hd | [Hd | [Hd Hv]]]].
    + rewrite Hd. simpl. repeat (case_match; try done).
    + rewrite Hd. simpl. repeat (case_match; try done).
    + rewrite Hd. simpl. rewrite orb_true_r. repeat (case_match; try done).
    + rewrite Hd, Hv. reflexivity.
  - intros Hz. rewrite Hz. simpl. split.
    + case_bool_decide as Hc; [done | exact Hc].
    + case_bool_decide as Hc; [done | exact Hc].
  - intros Hv Hd. rewrite Hv.
    rewrite (bool_decide_eq_false_2 _ Hd). unfold gtb. simpl.
    rewrite ?ltb_nan_r, ?andb_false_r. simpl.
    repeat split; repeat (case_match; try done).
  - intros Hn. rewrite Hn. simpl.
    repeat (case_match; try done).
Qed.

Lemma entradas_faltantes_witness :
  calidad_datos
    (clasificar_fila
       (mkRegistro (Some "050-10") (Some 2020) None (of_Z 5000000)
          (Some "ANTIOQUIA") None (Some "COMPRAVENTA") None)) = ERROR
  ∧ tipo_error (clasificar_fila registro_admin_incompleto)
    ≠ Some VALOR_IRRISIORIO.
Proof.
  split.
  - pose (r := mkRegistro (Some "050-10") (Some 2020) None (of_Z 5000000)
                 (Some "ANTIOQUIA") None (Some "COMPRAVENTA") None).
    refine (proj1 (entradas_faltantes [r] (r, clasificar_fila r) _) _).
    + apply clasificar_calidad_elem. split; [|reflexivity].
      simpl. apply list_elem_of_here.
    + left. reflexivity.
  - refine (proj2 (proj2 (proj2 (entradas_faltantes
              [registro_admin_incompleto]
              (registro_admin_incompleto,
               clasificar_fila registro_admin_incompleto) _))) _).
    + apply clasificar_calidad_elem. split; [|reflexivity].
      simpl. apply list_elem_of_here.
    + reflexivity.
Defined.

(** *** Excessive activity per property and year *)
Section ActividadExcesiva.

(** The dictionary of [groupby(...).size()] holds, for every pair, the
    number of rows of the batch with that pair. *)
Lemma groupby_size_lookup (df : list Registro) (k : string * Z) :
  default 0%nat (groupby_size df !! k)
  = length (filter (fun r => clave_grupo r = Some k) df).
Proof.
  induction df as [|r df IH]; simpl.
  - by rewrite lookup_empty.
  - destruct (clave_grupo r) as [k'|] eqn:Hk.
    + destruct (decide (k' = k)) as [->|Hne].
      * rewrite lookup_insert_eq, filter_cons_True by done.
        simpl. by rewrite IH.
      * rewrite lookup_insert_ne, filter_cons_False by congruence.
        exact IH.
    + rewrite filter_cons_False by congruence. exact IH.
Qed.

Lemma misma_clave_spec (r r' : Registro) (k : string * Z) :
  clave_grupo r = Some k →
  misma_clave r r' = true ↔ clave_grupo r' = Some k.
Proof.
  unfold clave_grupo, misma_clave.
  destruct (MATRICULA r) as [m|], (YEAR_RADICA r) as [y|];
    simpl; try discriminate.
  intros [= <-].
  destruct (MATRICULA r') as [m'|], (YEAR_RADICA r') as [y'|]; simpl;
    try (split; discriminate).
  rewrite andb_true_iff, !bool_decide_eq_true. split.
  - by intros [-> ->].
  - by intros [= -> ->].
Qed.

Lemma misma_clave_sin_clave (r r' : Registro) :
  clave_grupo r = None → misma_clave r r' = false.
Proof.
  unfold clave_grupo, misma_clave.
  by destruct (MATRICULA r), (YEAR_RADICA r).
Qed.

(** What [anotaciones_dict.get(k, 0)] reads for a row is the number of rows
    of the batch that share its pair. *)
Lemma dict_get_groupby_size (df : list Registro) (r : Registro) :
  dict_get (groupby_size df) (MATRICULA r, YEAR_RADICA r)
  = registros_con_misma_clave df r.
Proof.
  unfold registros_con_misma_clave.
  destruct (clave_grupo r) as [k|] eqn:Hk.
  - assert (dict_get (groupby_size df) (MATRICULA r, YEAR_RADICA r)
            = default 0%nat (groupby_size df !! k)) as ->.
    { unfold clave_grupo in Hk. unfold dict_get.
      destruct (MATRICULA r), (YEAR_RADICA r); simpl in Hk; try discriminate.
      by injection Hk as <-. }
    rewrite groupby_size_lookup. f_equal.
    apply list_filter_iff. intros r'. symmetry. by apply misma_clave_spec.
  - assert (dict_get (groupby_size df) (MATRICULA r, YEAR_RADICA r) = 0%nat)
      as ->.
    { unfold clave_grupo in Hk. unfold dict_get.
      by destruct (MATRICULA r), (YEAR_RADICA r). }
    symmetry. induction df as [|r' df IH]; [done|].
    rewrite filter_cons_False; [exact IH|].
    by rewrite misma_clave_sin_clave.
Qed.

(** Where the row has both values, sharing the pair is plain equality of
    the two columns. *)
Lemma misma_clave_presentes (r r' : Registro) :
  is_Some (MATRICULA r) → is_Some (YEAR_RADICA r) →
  misma_clave r r' = true ↔
    MATRICULA r' = MATRICULA r ∧ YEAR_RADICA r' = YEAR_RADICA r.
Proof.
  intros [m Hm] [y Hy]. unfold misma_clave. rewrite Hm, Hy.
  destruct (MATRICULA r') as [m'|], (YEAR_RADICA r') as [y'|];
    try (split; [discriminate | intros [? ?]; discriminate]).
  rewrite andb_true_iff, !bool_decide_eq_true. split.
  - by intros [-> ->].
  - by intros [[= ->] [= ->]].
Qed.

(** Every row of the batch gets its two columns, in order. *)
Lemma detectar_actividad_filas (df : list Registro) :
  (detectar_actividad df).*1 = df.
Proof.
  unfold detectar_actividad. cbv zeta.
  generalize (groupby_size df) as d. intros d.
  induction df as [|r df IH]; [done|]. simpl. f_equal. exact IH.
Qed.

End ActividadExcesiva.

(** The boundary: 151 annotations of one property in one year are all
    flagged, 150 are not. *)
Example actividad_151 :
  (detectar_actividad (replicate 151 (anotacion (Some 2021)))).*2
  = replicate 151 (mkActividad 151 true).
Proof. vm_compute. reflexivity. Qed.

Example actividad_150 :
  (detectar_actividad (replicate 150 (anotacion (Some 2021)))).*2
  = replicate 150 (mkActividad 150 false).
Proof. vm_compute. reflexivity. Qed.

(** Rows whose filing year is missing form no group. *)
Example actividad_sin_year :
  (detectar_actividad (replicate 151 (anotacion None))).*2
  = replicate 151 (mkActividad 0 false).
Proof. vm_compute. reflexivity. Qed.

(** Where the row has both values, the size of its group is the number
    of rows that share its pair. *)
Lemma misma_clave_mismo_par (df : list Registro) (r : Registro) :
  is_Some (MATRICULA r) → is_Some (YEAR_RADICA r) →
  registros_con_misma_clave df r = registros_con_mismo_par df r.
Proof.
  intros Hm Hy. unfold registros_con_misma_clave, registros_con_mismo_par.
  f_equal. apply list_filter_iff. intros r'.
  rewrite (misma_clave_presentes r r' Hm Hy).
  unfold mismo_par. by rewrite bool_decide_eq_true.
Qed.

(** A row with a missing value is in a group of size 0. *)
Lemma sin_clave_sin_grupo (df : list Registro) (r : Registro) :
  MATRICULA r = None ∨ YEAR_RADICA r = None →
  registros_con_misma_clave df r = 0%nat.
Proof.
  intros Hmiss. unfold registros_con_misma_clave.
  assert (clave_grupo r = None) as Hk.
  { unfold clave_grupo. destruct Hmiss as [-> | ->]; [done|].
    by destruct (MATRICULA r). }
  induction df as [|r' df IH]; [done|].
  rewrite filter_cons_False; [exact IH|].
  by rewrite misma_clave_sin_clave.
Qed.

(** C8, as stated, fails: 151 annotations of one property whose filing
    year is missing share their (property, year) pair, so the number of
    rows sharing the pair of each of them is 151, above 150; yet every one
    of them gets the count 0 and no flag. *)
Lemma actividad_par_sin_year :
  ¬ (∀ r a, (r, a) ∈ detectar_actividad lote_151_sin_year →
            (flag_actividad_excesiva a = true ↔
               (150 < registros_con_mismo_par lote_151_sin_year r)%nat))
  ∧ registros_con_mismo_par lote_151_sin_year anotacion_sin_year = 151%nat
  ∧ (detectar_actividad lote_151_sin_year).*2
    = replicate 151 (mkActividad 0 false).
Proof.
  assert (registros_con_mismo_par lote_151_sin_year anotacion_sin_year
          = 151%nat) as Hpar by (vm_compute; reflexivity).
  split; [|split; [exact Hpar | vm_compute; reflexivity]].
  intros H.
  specialize (H anotacion_sin_year (mkActividad 0 false)).
  rewrite Hpar in H.
  assert (false = true) as Hf; [|discriminate Hf].
  apply H; [|lia].
  unfold detectar_actividad. apply list_elem_of_fmap.
  exists anotacion_sin_year. split; [vm_compute; reflexivity|].
  apply list_elem_of_here.
Qed.

(** C8 (amended). For every batch and every row of it that has both a
    property identifier and a filing year, [anotaciones_por_anio] is the
    number of rows of the batch that share the row's (property identifier,
    filing year) pair, and [flag_actividad_excesiva] is [True] exactly when
    that number exceeds 150.  A row in which the property identifier or
    the year is missing gets the count 0 and is never flagged, however
    many rows share its pair. *)
Theorem actividad_excesiva_umbral
    (df : list Registro) (r : Registro) (a : Actividad) :
  (r, a) ∈ detectar_actividad df →
  r ∈ df
  ∧ (is_Some (MATRICULA r) → is_Some (YEAR_RADICA r) →
     anotaciones_por_anio a = registros_con_mismo_par df r
     ∧ (flag_actividad_excesiva a = true ↔
          (150 < registros_con_mismo_par df r)%nat))
  ∧ (MATRICULA r = None ∨ YEAR_RADICA r = None →
     anotaciones_por_anio a = 0%nat ∧ flag_actividad_excesiva a = false).
Proof.
  unfold detectar_actividad. cbv zeta. rewrite list_elem_of_fmap.
  intros (r' & [= -> ->] & Hin).
  pose proof (dict_get_groupby_size df r') as Hget.
  unfold dict_get in Hget. simpl. rewrite Hget.
  split; [exact Hin|]. split.
  - intros Hm Hy. rewrite (misma_clave_mismo_par df r' Hm Hy).
    by rewrite bool_decide_eq_true.
  - intros Hmiss. by rewrite (sin_clave_sin_grupo df r' Hmiss).
Qed.

Lemma actividad_excesiva_umbral_witness :
  anotacion_2021 ∈ lote_151
  ∧ 151%nat = registros_con_mismo_par lote_151 anotacion_2021
  ∧ (true = true ↔
       (150 < registros_con_mismo_par lote_151 anotacion_2021)%nat).
Proof.
  destruct (actividad_excesiva_umbral lote_151 anotacion_2021
              (mkActividad 151 true)) as (Hin & Hpar & _).
  - unfold detectar_actividad. apply list_elem_of_fmap.
    exists anotacion_2021. split.
    + vm_compute. reflexivity.
    + apply list_elem_of_here.
  - split; [exact Hin|]. apply Hpar; eexists; reflexivity.
Defined.

(** *** Composite keys and duplicated rows *)
Section ClavesCompuestas.

(** Rows seen so far and rows still to come: the rows whose key was already
    seen and the keys not yet seen add up to the rows. *)
Lemma duplicated_count_size (seen col : list string) :
  (duplicated_count seen col
   + size ((list_to_set col : gset string) ∖ list_to_set seen))%nat
  = length col.
Proof.
  revert seen. induction col as [|k col IH]; intros seen; simpl.
  - by rewrite difference_disjoint_L, size_empty by set_solver.
  - specialize (IH (k :: seen)). simpl in IH.
    case_bool_decide as Hk.
    + replace (({[k]} ∪ list_to_set col) ∖ list_to_set seen : gset string)
        with ((list_to_set col : gset string) ∖ ({[k]} ∪ list_to_set seen)).
      * lia.
      * rewrite <- (elem_of_list_to_set (C := gset string)) in Hk.
        set_solver.
    + replace (({[k]} ∪ list_to_set col) ∖ list_to_set seen : gset string)
        with ({[k]} ∪
              (list_to_set col : gset string) ∖ ({[k]} ∪ list_to_set seen)).
      * rewrite size_union, size_singleton by set_solver. lia.
      * rewrite <- (elem_of_list_to_set (C := gset string)) in Hk.
        apply set_eq. intros x. destruct (decide (x = k)); set_solver.
Qed.

Lemma nunique_duplicated_count (col : list string) :
  (nunique col + duplicated_count [] col)%nat = length col.
Proof.
  pose proof (duplicated_count_size [] col) as H. simpl in H.
  rewrite difference_empty_L in H. unfold nunique. lia.
Qed.

(** No row has a key that was already seen exactly when the keys are
    pairwise different and none was seen before. *)
Lemma duplicated_count_zero (seen col : list string) :
  duplicated_count seen col = 0%nat
  ↔ NoDup col ∧ ∀ k, k ∈ col → k ∉ seen.
Proof.
  revert seen. induction col as [|k col IH]; intros seen; simpl.
  - split; [intros _ | done]. split; [constructor|].
    intros k Hk. by apply elem_of_nil in Hk.
  - rewrite NoDup_cons. split.
    + intros H. assert (k ∉ seen) as Hk by (case_bool_decide; [lia | done]).
      assert (duplicated_count (k :: seen) col = 0%nat) as H0 by lia.
      apply IH in H0 as [Hnd Hns]. split; [split; [|done]|].
      * intros Hin. apply (Hns k Hin), list_elem_of_here.
      * intros x [->|Hx]%elem_of_cons; [done|].
        intros Hs. by apply (Hns x Hx), list_elem_of_further.
    + intros [[Hk Hnd] Hns].
      rewrite bool_decide_eq_false_2
        by (apply Hns, list_elem_of_here).
      simpl. apply IH. split; [done|].
      intros x Hx [->|Hs]%elem_of_cons; [done|].
      by apply (Hns x (list_elem_of_further _ _ _ Hx)).
Qed.

End ClavesCompuestas.

Example transaction_id_ejemplo :
  transaction_id (fila_cruda "001-77" 1) = "5001_001-77_1_0125_2021".
Proof. vm_compute. reflexivity. Qed.

(** C9, as stated, fails: on a batch with one injected duplicate row the
    one figure [crear_composite_key] reports is 3, the number of distinct
    keys; the number of duplicated keys, 1, is not what is reported. *)
Lemma duplicados_no_reportados :
  duplicated_count [] (filas (crear_composite_key lote_con_duplicado)).*2
  = 1%nat
  ∧ claves_unicas (crear_composite_key lote_con_duplicado) = 3%nat
  ∧ claves_unicas (crear_composite_key lote_con_duplicado)
    ≠ duplicated_count []
        (filas (crear_composite_key lote_con_duplicado)).*2.
Proof. by vm_compute. Qed.

(** C9 (amended). For every batch, [crear_composite_key] keeps every row,
    in order, duplicated rows included, and attaches to each its composite
    key; what it reports is the number of distinct keys, which together
    with the number of rows gives the number of rows with a duplicated key:
    distinct keys + duplicated rows = rows.  In particular a batch has no
    duplicated key exactly when the reported figure is its number of
    rows. *)
Theorem claves_unicas_y_duplicados (df : list Crudo) :
  (filas (crear_composite_key df)).*1 = df
  ∧ (filas (crear_composite_key df)).*2 = transaction_id <$> df
  ∧ length (filas (crear_composite_key df)) = length df
  ∧ (claves_unicas (crear_composite_key df)
     + duplicated_count [] (transaction_id <$> df))%nat = length df
  ∧ (claves_unicas (crear_composite_key df) = length df
     ↔ NoDup (transaction_id <$> df)).
Proof.
  assert ((filas (crear_composite_key df)).*2 = transaction_id <$> df)
    as Hkeys.
  { unfold crear_composite_key. cbv zeta. cbn [filas].
    induction df as [|r df IH]; simpl; [done | f_equal; exact IH]. }
  assert ((claves_unicas (crear_composite_key df)
           + duplicated_count [] (transaction_id <$> df))%nat = length df)
    as Hsum.
  { rewrite <- Hkeys at 1.
    change (claves_unicas (crear_composite_key df))
      with (nunique (filas (crear_composite_key df)).*2).
    rewrite nunique_duplicated_count, Hkeys. apply length_fmap. }
  split; [|split; [exact Hkeys|split; [|split; [exact Hsum|]]]].
  - clear Hkeys Hsum. unfold crear_composite_key. cbv zeta. cbn [filas].
    induction df as [|r df IH]; simpl; [done | f_equal; exact IH].
  - unfold crear_composite_key. cbv zeta. cbn [filas]. apply length_map.
  - pose proof (duplicated_count_zero [] (transaction_id <$> df)) as Hz.
    split.
    + intros Heq. apply Hz. lia.
    + intros Hnd. assert (duplicated_count [] (transaction_id <$> df) = 0%nat)
        as H0; [|lia].
      apply Hz. split; [done|]. intros k _ Hk. by apply elem_of_nil in Hk.
Qed.

(** *** The categorical columns of [validar_y_tipar] *)

(** [None] and every spelling of the word are read as missing. *)
Example limpiar_categoria_none :
  limpiar_categoria CNone = CNaN
  ∧ limpiar_categoria (CStr "NONE") = CNaN
  ∧ limpiar_categoria (CStr "  none ") = CNaN
  ∧ limpiar_categoria (CStr " Valle del Cauca ") = CStr "VALLE DEL CAUCA".
Proof. by vm_compute. Qed.

(** The binary indicator columns hold 1, 0 or missing after the map. *)
Lemma map_binario_canonico (c : celda) :
  map_binario c = None ∨ map_binario c = Some 0 ∨ map_binario c = Some 1.
Proof.
  unfold map_binario. repeat (case_match; auto).
Qed.

(** A cell of a categorical column is a string or missing after step 7,
    and it is missing exactly when its text, trimmed and in upper case, is
    the word NONE. *)
Lemma limpiar_categoria_faltante (c : celda) :
  (celda_isna (limpiar_categoria c) = true ↔
     str_upper (str_strip (astype_str c)) = "NONE")
  ∧ (limpiar_categoria c = CNaN
     ∨ limpiar_categoria c = CStr (str_upper (str_strip (astype_str c)))).
Proof.
  unfold limpiar_categoria. case_bool_decide; simpl; split; auto.
  - done.
  - split; [discriminate | done].
Qed.

(** A loop that rewrites the columns of a list, each at most once. *)
Lemma foldl_alter_lookup {A : Type} (f : A → A) (cols : list string)
    (df : gmap string A) (col : string) :
  NoDup cols →
  foldl (fun df c => alter f c df) df cols !! col
  = if bool_decide (col ∈ cols) then f <$> df !! col else df !! col.
Proof.
  intros Hnd. revert df.
  induction Hnd as [|c cols Hc Hnd IH]; intros df; simpl.
  - reflexivity.
  - rewrite IH, lookup_alter.
    destruct (decide (c = col)) as [->|Hne].
    + rewrite (bool_decide_eq_false_2 _ Hc).
      rewrite bool_decide_eq_true_2 by apply list_elem_of_here. reflexivity.
    + case_bool_decide as Hin.
      * rewrite bool_decide_eq_true_2 by by apply list_elem_of_further.
        reflexivity.
      * rewrite bool_decide_eq_false_2; [reflexivity|].
        rewrite elem_of_cons. intros [->|?]; done.
Qed.

(** The columns of step 7 are rewritten cell by cell, the others are not
    touched. *)
Lemma limpiar_campos_categoricos_lookup
    (df : gmap string (list celda)) (col : string) :
  limpiar_campos_categoricos df !! col
  = if bool_decide (col ∈ cat_cols)
    then fmap limpiar_categoria <$> df !! col
    else df !! col.
Proof.
  apply foldl_alter_lookup. apply (bool_decide_unpack _). by vm_compute.
Qed.

(** C2 at a batch whose [DEPARTAMENTO] column holds NaN in its second row:
    [astype(str)] writes the word ['nan'], [upper] makes it ['NAN'], and
    [replace('NONE', nan)] does not match it; the column is left with the
    string ['NAN'], which is not missing, where a [None] in the same place
    becomes missing. *)
Theorem limpiar_categoria_nan_residual :
  limpiar_campos_categoricos lote_departamento_nan !! "DEPARTAMENTO"
  = Some [CStr "ANTIOQUIA"; CStr "NAN"; CNaN]
  ∧ limpiar_categoria CNaN = CStr "NAN"
  ∧ celda_isna (limpiar_categoria CNaN) = false.
Proof. by vm_compute. Qed.

(** *** The ensemble scorer *)
Section Puntuacion.

Context {Lote X : Type}.

Lemma array_min_constante (v : float64) (n : nat) :
  array_min v (replicate n v) = v.
Proof.
  unfold array_min. induction n as [|n IH]; simpl; [done|].
  assert (fmin v v = v) as ->; [|exact IH].
  unfold fmin. destruct v; simpl; try done. by destruct (Qlt_bool q q).
Qed.

Lemma array_max_constante (v : float64) (n : nat) :
  array_max v (replicate n v) = v.
Proof.
  unfold array_max. induction n as [|n IH]; simpl; [done|].
  assert (fmax v v = v) as ->; [|exact IH].
  unfold fmax. destruct v; simpl; try done. by destruct (Qlt_bool q q).
Qed.

Lemma div_cero_cero (q : Q) :
  div (sub (Fin q) (Fin q)) (sub (Fin q) (Fin q)) = NaN.
Proof.
  unfold sub, add, opp, div.
  assert (q + - q == 0)%Q as Hz by ring.
  rewrite (proj2 (Qeq_bool_iff _ _) Hz).
  unfold sign_of. symmetry in Hz. apply Qeq_alt in Hz. by rewrite Hz.
Qed.

(** Without a guard, the min-max normalisation of a constant array is NaN
    in every position. *)
Lemma min_max_constante (q : Q) (n : nat) :
  min_max (replicate (S n) (Fin q)) = Some (replicate (S n) NaN).
Proof.
  unfold min_max. cbn [replicate].
  rewrite array_min_constante, array_max_constante.
  f_equal. change (Fin q :: replicate n (Fin q)) with (replicate (S n) (Fin q)).
  rewrite fmap_replicate. by rewrite div_cero_cero.
Qed.

Lemma weighted_ensemble_nan_l (n : nat) (b : list float64) :
  length b = n →
  weighted_ensemble ((fun v => sub (Fin 1) v) <$> replicate n NaN) b
  = replicate n NaN.
Proof.
  revert b. induction n as [|n IH]; intros [|y b] Hlen; try done.
  simpl in *. f_equal. apply IH. lia.
Qed.

Lemma min_max_length (a b : list float64) :
  min_max a = Some b → length b = length a.
Proof.
  destruct a as [|x a]; [done|]. unfold min_max. intros [= <-].
  simpl. by rewrite length_fmap.
Qed.

(** [score_batch] on a non-empty batch to which the isolation forest gives
    one and the same score: every ensemble score is NaN, and no record is
    marked as an anomaly. *)
Lemma score_batch_degenerado (df : Lote) (engineer : FeatureEngineer Lote X)
    (iso_forest lof : Detector X) (q : Q) (n : nat) :
  length (transform engineer df) = S n →
  score_samples iso_forest (transform engineer df) = replicate (S n) q →
  score_batch df engineer iso_forest lof
  = Some (replicate (S n) NaN, replicate (S n) false).
Proof.
  intros Hlen Hq. unfold score_batch. cbv zeta. rewrite Hq.
  unfold asarray. rewrite fmap_replicate, min_max_constante.
  cbn [mbind option_bind].
  pose proof (score_samples_length _ lof (transform engineer df)) as Hl.
  rewrite Hlen in Hl.
  destruct (min_max (Fin <$> score_samples lof (transform engineer df)))
    as [lof_norm|] eqn:Hmm.
  - cbn [mbind option_bind].
    apply min_max_length in Hmm.
    rewrite length_fmap, Hl in Hmm.
    rewrite weighted_ensemble_nan_l by (by rewrite length_fmap).
    by rewrite fmap_replicate.
  - destruct (score_samples lof (transform engineer df)); done.
Qed.

End Puntuacion.

(** C7 at a batch of one record, whatever the record and the two fitted
    detectors: both denominators [max - min] are 0, the normalised scores
    are [0/0], and the one ensemble score [score_batch] returns is NaN,
    which is not a number of the interval [0, 1]. *)
Theorem score_batch_un_registro_nan
    {X : Type} (x : X) (iso_forest lof : Detector X) :
  score_batch tt (mkFeatureEngineer (fun _ : unit => [x])) iso_forest lof
  = Some ([NaN], [false])
  ∧ in_unit_interval NaN = false.
Proof.
  split; [|reflexivity].
  pose proof (score_samples_length _ iso_forest [x]) as Hl.
  destruct (score_samples iso_forest [x]) as [|q [|? ?]] eqn:Hq;
    try discriminate.
  by apply (score_batch_degenerado tt _ iso_forest lof q 0).
Qed.

(** *** The guarded normalisation of [train_propsafe.py] *)
Section NormalizacionGuardada.

Lemma fmin_Fin (a b : Q) :
  fmin (Fin a) (Fin b) = Fin (if Qlt_bool b a then b else a).
Proof. unfold fmin. simpl. by destruct (Qlt_bool b a). Qed.

Lemma fmax_Fin (a b : Q) :
  fmax (Fin a) (Fin b) = Fin (if Qlt_bool a b then b else a).
Proof. unfold fmax. simpl. by destruct (Qlt_bool a b). Qed.

Lemma clip_Fin (lo hi x : Q) : ∃ q, clip (Fin lo) (Fin hi) (Fin x) = Fin q.
Proof. unfold clip. rewrite fmax_Fin, fmin_Fin. eauto. Qed.

Lemma clip_asarray (lo hi : Q) (scores : list Q) :
  ∃ qs, clip (Fin lo) (Fin hi) <$> asarray scores = asarray qs
        ∧ length qs = length scores.
Proof.
  induction scores as [|x scores (qs & Hqs & Hl)].
  - by exists [].
  - destruct (clip_Fin lo hi x) as [q Hq]. exists (q :: qs).
    unfold asarray in *. rewrite !fmap_cons, Hq, Hqs. cbn [length].
    by rewrite Hl.
Qed.

(** The minimum of an array of finite values is a finite value below all
    of them. *)
Lemma array_min_Fin (x : Q) (xs : list Q) :
  ∃ m, array_min (Fin x) (asarray xs) = Fin m
       ∧ (m <= x)%Q ∧ Forall (fun y => (m <= y)%Q) xs.
Proof.
  unfold array_min, asarray. revert x.
  induction xs as [|y xs IH]; intros x; simpl.
  - exists x. split; [done|]. split; [lra | constructor].
  - rewrite fmin_Fin.
    destruct (Qlt_bool y x) eqn:E.
    + apply Qlt_bool_iff in E.
      destruct (IH y) as (m & Hfold & Hm & Hall). exists m.
      split; [exact Hfold|]. split; [lra|]. by constructor.
    + assert (x <= y)%Q as Hxy.
      { destruct (Qlt_le_dec y x) as [H|H]; [|done].
        apply Qlt_bool_iff in H. congruence. }
      destruct (IH x) as (m & Hfold & Hm & Hall). exists m.
      split; [exact Hfold|]. split; [done|]. constructor; [lra | done].
Qed.

Lemma array_max_Fin (x : Q) (xs : list Q) :
  ∃ m, array_max (Fin x) (asarray xs) = Fin m
       ∧ (x <= m)%Q ∧ Forall (fun y => (y <= m)%Q) xs.
Proof.
  unfold array_max, asarray. revert x.
  induction xs as [|y xs IH]; intros x; simpl.
  - exists x. split; [done|]. split; [lra | constructor].
  - rewrite fmax_Fin.
    destruct (Qlt_bool x y) eqn:E.
    + apply Qlt_bool_iff in E.
      destruct (IH y) as (m & Hfold & Hm & Hall). exists m.
      split; [exact Hfold|]. split; [lra|]. by constructor.
    + assert (y <= x)%Q as Hxy.
      { destruct (Qlt_le_dec x y) as [H|H]; [|done].
        apply Qlt_bool_iff in H. congruence. }
      destruct (IH x) as (m & Hfold & Hm & Hall). exists m.
      split; [exact Hfold|]. split; [done|]. constructor; [lra | done].
Qed.

(** A value between the minimum and the maximum, divided by a positive
    range, lies in [0, 1]. *)
Lemma min_max_en_intervalo (c lo hi : Q) :
  (lo <= c)%Q → (c <= hi)%Q → (0 < hi + - lo)%Q →
  in_unit_interval (div (sub (Fin c) (Fin lo)) (sub (Fin hi) (Fin lo))) = true.
Proof.
  intros Hlo Hhi Hpos. unfold sub, add, opp, div.
  assert (Qeq_bool (hi + - lo) 0 = false) as ->.
  { apply not_true_iff_false. intros H%Qeq_bool_iff. lra. }
  unfold in_unit_interval. rewrite andb_true_iff, !leb_Fin. split.
  - apply Qle_shift_div_l; [done | lra].
  - apply Qle_shift_div_r; [done | lra].
Qed.

(** [_normalize_scores] returns, for every non-empty array of finite
    scores, one number of [0, 1] per score. *)
Lemma normalize_scores_unit_interval (scores : list Q) :
  scores ≠ [] →
  ∃ out, _normalize_scores scores = Some out
         ∧ length out = length scores
         ∧ Forall (fun v => in_unit_interval v = true) out.
Proof.
  intros Hne. unfold _normalize_scores. cbv zeta.
  destruct (clip_asarray (percentile scores 5) (percentile scores 95) scores)
    as (qs & -> & Hl).
  destruct qs as [|x qs]; [by destruct scores|].
  change (asarray (x :: qs)) with (Fin x :: asarray qs).
  destruct (array_min_Fin x qs) as (lo & -> & Hlox & Hlo).
  destruct (array_max_Fin x qs) as (hi & -> & Hhix & Hhi).
  destruct (gtb (sub (Fin hi) (Fin lo)) (Fin 0)) eqn:Hg.
  - eexists. split; [reflexivity|]. split.
    { rewrite length_fmap. cbn [length]. unfold asarray.
      by rewrite length_fmap. }
    apply ltb_Fin in Hg.
    change (Fin x :: asarray qs) with (asarray (x :: qs)).
    unfold asarray. rewrite <- list_fmap_compose. apply Forall_fmap.
    assert (Forall (fun y => (lo <= y)%Q ∧ (y <= hi)%Q) (x :: qs)) as Hall.
    { constructor; [done|]. apply Forall_and. done. }
    eapply Forall_impl; [exact Hall|]. intros c [H1 H2]. simpl.
    by apply min_max_en_intervalo.
  - eexists. split; [reflexivity|]. split; [by rewrite length_fmap|].
    apply Forall_fmap, Forall_forall. intros ? _. reflexivity.
Qed.

(** The weighted sum of two numbers of [0, 1] is a number of [0, 1]. *)
Lemma weighted_ensemble_unit_interval (a b : list float64) :
  Forall (fun v => in_unit_interval v = true) a →
  Forall (fun v => in_unit_interval v = true) b →
  Forall (fun v => in_unit_interval v = true) (weighted_ensemble a b).
Proof.
  intros Ha. revert b. induction Ha as [|x a Hx Ha IH]; intros b Hb.
  - constructor.
  - destruct Hb as [|y b Hy Hb]; [constructor|].
    unfold weighted_ensemble. cbn [zip_with]. constructor; [|by apply IH].
    unfold in_unit_interval in *.
    apply andb_true_iff in Hx as [Hx0 Hx1].
    apply andb_true_iff in Hy as [Hy0 Hy1].
    destruct x as [p| | |], y as [q| | |]; try discriminate.
    apply leb_Fin in Hx0, Hx1, Hy0, Hy1.
    unfold PESO_IF, PESO_LOF. simpl add.
    rewrite andb_true_iff, !leb_Fin.
    clear -Hx0 Hx1 Hy0 Hy1. split.
    + lra.
    + lra.
Qed.

(** Outside the degenerate case [score_batch] does what its comment says:
    where each detector gives two different scores in the batch, every
    ensemble score is a number of [0, 1]. *)
Lemma min_max_unit_interval (scores : list Q) (a b : Q) :
  a ∈ scores → b ∈ scores → (a < b)%Q →
  ∃ out, min_max (asarray scores) = Some out
         ∧ length out = length scores
         ∧ Forall (fun v => in_unit_interval v = true) out.
Proof.
  intros Ha Hb Hab. destruct scores as [|x xs]; [by apply elem_of_nil in Ha|].
  unfold min_max. change (asarray (x :: xs)) with (Fin x :: asarray xs).
  destruct (array_min_Fin x xs) as (lo & -> & Hlox & Hlo).
  destruct (array_max_Fin x xs) as (hi & -> & Hhix & Hhi).
  assert (Forall (fun y => (lo <= y)%Q ∧ (y <= hi)%Q) (x :: xs)) as Hall.
  { constructor; [done|]. by apply Forall_and. }
  assert (0 < hi + - lo)%Q as Hpos.
  { rewrite Forall_forall in Hall.
    destruct (Hall a Ha) as [Ha1 _]. destruct (Hall b Hb) as [_ Hb2]. lra. }
  eexists. split; [reflexivity|]. split.
  { rewrite length_fmap. cbn [length]. unfold asarray. by rewrite length_fmap. }
  change (Fin x :: asarray xs) with (asarray (x :: xs)).
  unfold asarray. rewrite <- list_fmap_compose. apply Forall_fmap.
  eapply Forall_impl; [exact Hall|]. intros c [H1 H2]. simpl.
  by apply min_max_en_intervalo.
Qed.

Lemma invertir_unit_interval (v : float64) :
  in_unit_interval v = true → in_unit_interval (sub (Fin 1) v) = true.
Proof.
  unfold in_unit_interval. intros [H0 H1]%andb_true_iff.
  destruct v as [q| | |]; try discriminate.
  apply leb_Fin in H0, H1. unfold sub, opp, add.
  rewrite andb_true_iff, !leb_Fin. clear -H0 H1. split; lra.
Qed.

Lemma score_batch_unit_interval {Lote X : Type} (df : Lote)
    (engineer : FeatureEngineer Lote X) (iso_forest lof : Detector X)
    (a b c d : Q) :
  a ∈ score_samples iso_forest (transform engineer df) →
  b ∈ score_samples iso_forest (transform engineer df) →
  (a < b)%Q →
  c ∈ score_samples lof (transform engineer df) →
  d ∈ score_samples lof (transform engineer df) →
  (c < d)%Q →
  ∃ scores is_anomaly,
    score_batch df engineer iso_forest lof = Some (scores, is_anomaly)
    ∧ length scores = length (transform engineer df)
    ∧ Forall (fun v => in_unit_interval v = true) scores.
Proof.
  intros Ha Hb Hab Hc Hd Hcd. unfold score_batch. cbv zeta.
  destruct (min_max_unit_interval _ a b Ha Hb Hab) as (n1 & -> & L1 & U1).
  destruct (min_max_unit_interval _ c d Hc Hd Hcd) as (n2 & -> & L2 & U2).
  cbn [mbind option_bind]. eexists _, _. split; [reflexivity|].
  rewrite score_samples_length in L1, L2. split.
  - unfold weighted_ensemble. rewrite length_zip_with, !length_fmap. lia.
  - apply weighted_ensemble_unit_interval; apply Forall_fmap;
      (eapply Forall_impl; [eassumption|]); intros v Hv; simpl;
      by apply invertir_unit_interval.
Qed.

(** [predict] of a fitted detector returns, for every non-empty batch, one
    ensemble score per record, each a number of [0, 1]. *)
Lemma predict_unit_interval {X : Type} (self : PropSafeAnomalyDetector X)
    (X_ : list X) :
  is_fitted self = true →
  scaler_transform self X_ ≠ [] →
  ∃ p, predict self X_ = Some p
       ∧ Forall (fun v => in_unit_interval v = true) (anomaly_scores p).
Proof.
  intros Hfit Hne. unfold predict. rewrite Hfit. cbv zeta. cbn [negb].
  assert (∀ d : Detector X, decision_function d (scaler_transform self X_) ≠ [])
    as Hdec.
  { intros d Hd. apply Hne.
    pose proof (decision_function_length _ d (scaler_transform self X_)) as Hl.
    rewrite Hd in Hl. by destruct (scaler_transform self X_). }
  destruct (normalize_scores_unit_interval
              (decision_function (iso_forest self) (scaler_transform self X_)))
    as (a & -> & _ & Ha); [apply Hdec|].
  destruct (normalize_scores_unit_interval
              (Qopp <$> decision_function (lof self) (scaler_transform self X_)))
    as (b & -> & _ & Hb).
  { intros Hd. apply fmap_nil_inv in Hd. by apply Hdec in Hd. }
  eexists. split; [reflexivity|]. cbn [anomaly_scores].
  by apply weighted_ensemble_unit_interval.
Qed.

End NormalizacionGuardada.

(** The guarded sibling, [_normalize_scores], returns zeros on the same
    degenerate input. *)
Example normalize_scores_un_registro :
  _normalize_scores [(-3 # 10)%Q] = Some [Fin 0].
Proof. vm_compute. reflexivity. Qed.

(** [score_batch] inverts both normalised scores: the outlier gets 1. *)
Example score_batch_orientacion :
  ∃ scores,
    score_batch lote_outlier_inlier (mkFeatureEngineer (fun l => l))
      detector_identidad detector_identidad
    = Some (scores, [true; false])
    ∧ array_equal scores [Fin 1; Fin 0].
Proof.
  eexists. split; [vm_compute; reflexivity|].
  repeat constructor.
Qed.

(** C6 on [predict]: the local-outlier-factor scores are negated before
    they are normalised and the isolation-forest scores are not, so the
    two normalised scores point in opposite directions.  The record that is
    the outlier for both detectors gets the isolation-forest score 0 and
    the local-outlier-factor score 1, and its ensemble score, 0.4, is below
    the 0.6 of the inlier. *)
Theorem predict_orientacion_opuesta :
  ∃ p,
    predict detector_entrenado lote_outlier_inlier = Some p
    ∧ array_equal (if_scores p) [Fin 0; Fin 1]
    ∧ array_equal (lof_scores p) [Fin 1; Fin 0]
    ∧ array_equal (anomaly_scores p) [Fin (4 # 10); Fin (6 # 10)].
Proof.
  eexists. split; [vm_compute; reflexivity|].
  cbn [if_scores lof_scores anomaly_scores].
  repeat split; repeat constructor.
Qed.

(** *** The feature engineer and the columns of its input *)
Section ColumnasOpcionales.

Lemma sanear_entero (z : Z) : sanear (entero z) = entero z.
Proof. reflexivity. Qed.

Lemma sanear_escalar (n : nat) (z : Z) :
  sanear <$> escalar n z = escalar n z.
Proof. unfold escalar. by rewrite fmap_replicate. Qed.

Lemma length_escalar (n : nat) (z : Z) : length (escalar n z) = n.
Proof. apply length_replicate. Qed.

(** The integer division of the legal-nature code succeeds on every
    column without an infinity, cell by cell. *)
Lemma floordiv_sin_infinitos (cod : list float64) :
  Forall (fun x => x ≠ PInf ∧ x ≠ NInf) cod →
  ∃ grupo,
    mapM floordiv_100_astype_int (fillna (of_Z 0) <$> cod) = Some grupo
    ∧ length grupo = length cod.
Proof.
  induction 1 as [|x cod [Hp Hn] _ (grupo & Hg & Hl)].
  - by exists [].
  - rewrite fmap_cons. cbn [mapM]. rewrite Hg.
    destruct x as [q| | |]; try done; simpl.
    + exists (Qfloor (q / 100) :: grupo). by rewrite <- Hl.
    + exists (Qfloor (0 / 100) :: grupo). by rewrite <- Hl.
Qed.

(** Every block of features has one cell per row. *)
Lemma largo_fillna_0 (n : nat) (cols : list (string * list numero)) :
  Forall (fun c => length c.2 = n) cols →
  Forall (fun c => length c.2 = n) (features_fillna_0 cols).
Proof.
  intros H. unfold features_fillna_0. apply Forall_fmap.
  eapply Forall_impl; [exact H|]. intros c Hc. simpl.
  by rewrite length_fmap.
Qed.

Lemma largo_temporales (df : DataFrame) :
  largo_ok (n_filas df) (col_FECHA_RADICA_TEXTO df) →
  largo_ok (n_filas df) (col_YEAR_RADICA df) →
  Forall (fun c => length c.2 = n_filas df)
    (features_temporales df (n_filas df)).
Proof.
  unfold features_temporales, largo_ok.
  destruct (col_FECHA_RADICA_TEXTO df), (col_YEAR_RADICA df); intros H1 H2;
    repeat constructor; simpl; rewrite ?length_fmap, ?length_escalar; done.
Qed.

Lemma largo_areas (n : nat) :
  Forall (fun c => length c.2 = n) (features_areas n).
Proof.
  unfold features_areas. apply Forall_fmap, Forall_forall.
  intros nombre _. apply length_escalar.
Qed.

Lemma largo_actividad (df : DataFrame) :
  largo_ok (n_filas df) (col_anotaciones_por_anio df) →
  Forall (fun c => length c.2 = n_filas df)
    (features_actividad df (n_filas df)).
Proof.
  unfold features_actividad, largo_ok.
  destruct (col_anotaciones_por_anio df); intros H1;
    repeat constructor; simpl; rewrite ?length_fmap, ?length_escalar; done.
Qed.

Lemma largo_geograficas (df : DataFrame) :
  largo_ok (n_filas df) (col_TIPO_PREDIO_ZONA df) →
  largo_ok (n_filas df) (col_CATEGORIA_RURALIDAD df) →
  Forall (fun c => length c.2 = n_filas df)
    (features_geograficas df (n_filas df)).
Proof.
  unfold features_geograficas, largo_ok.
  destruct (col_TIPO_PREDIO_ZONA df), (col_CATEGORIA_RURALIDAD df);
    intros H1 H2;
    repeat constructor; simpl; rewrite ?length_fmap, ?length_escalar; done.
Qed.

Lemma largo_tipo_predio (df : DataFrame) :
  largo_ok (n_filas df) (col_TIPO_PREDIO_ZONA df) →
  Forall (fun c => length c.2 = n_filas df)
    (features_tipo_predio df (n_filas df)).
Proof.
  unfold features_tipo_predio, largo_ok.
  destruct (col_TIPO_PREDIO_ZONA df); intros H1;
    repeat constructor; simpl; rewrite ?length_fmap, ?length_escalar; done.
Qed.

End ColumnasOpcionales.

(** Where [df.get(col, 0)] finds no column, the [.fillna] that follows is
    called on the integer 0. *)
Example create_features_sin_count_a :
  create_features lote_sin_count_a
  = Raise (AttributeError "'int' object has no attribute 'fillna'").
Proof. vm_compute. reflexivity. Qed.

(** With [VALOR] back in the schema of that batch the table is built; the
    legal-nature code 125 is in the group 1. *)
Example create_features_con_valor :
  ∃ f,
    create_features
      (mkDataFrame 2 (col_transaction_id lote_sin_valor) None
         (col_YEAR_RADICA lote_sin_valor) (Some [of_Z 60000000; NaN])
         (col_anotaciones_por_anio lote_sin_valor)
         (col_TIPO_PREDIO_ZONA lote_sin_valor) None
         (col_flag_actividad_excesiva lote_sin_valor)
         (col_flag_geo_discrepancia lote_sin_valor)
         (col_total_flags_anomalia lote_sin_valor)
         (col_TIENE_VALOR lote_sin_valor) (col_COD_NATUJUR lote_sin_valor)
         (col_COUNT_A lote_sin_valor) (col_COUNT_DE lote_sin_valor)
         (col_PREDIOS_NUEVOS lote_sin_valor)) = Ok f
    ∧ length (columnas f) = 39%nat
    ∧ columna "valor_acto" f = Some [entero 60000000; entero 0]
    ∧ columna "valor_medio" f = Some [entero 1; entero 0]
    ∧ columna "cod_naturaleza_grupo" f = Some [entero 1; entero 1]
    ∧ columna "es_urbano" f = Some [entero 1; entero 0].
Proof. eexists. split; [vm_compute; reflexivity|]. by vm_compute. Qed.

(** C10, as stated, fails: on a batch whose schema has no column [VALOR],
    [create_features] raises [KeyError] and returns no feature row. *)
Lemma create_features_sin_valor :
  bien_formado lote_sin_valor
  ∧ col_VALOR lote_sin_valor = None
  ∧ create_features lote_sin_valor = Raise (KeyError "VALOR")
  ∧ ¬ ∃ f, create_features lote_sin_valor = Ok f.
Proof.
  split; [by vm_compute|]. split; [reflexivity|].
  split; [vm_compute; reflexivity|].
  intros [f Hf]. vm_compute in Hf. discriminate.
Qed.

(** C10 (amended). For every batch whose schema has the columns
    [create_features] reads directly ([transaction_id], [VALOR]) and the
    seven it reads with [df.get], and whichever of the optional columns
    [FECHA_RADICA_TEXTO], [YEAR_RADICA], [anotaciones_por_anio],
    [TIPO_PREDIO_ZONA], [CATEGORIA_RURALIDAD] and [COD_NATUJUR] it has,
    [create_features] raises nothing and returns a table with the keys of
    the batch and one cell per record in every column.  The features of an
    absent optional column take the defaults of the source: 1, 0, 0 for the
    activity features; 0 for the property-type features; 0, 0 and
    [sin_zona = 1] for the zone features; 0 for the legal-nature features;
    month 6, quarter 2, day of week 3, weekend 0 where only the year is in
    the schema, and no temporal column at all where neither the date nor
    the year is. *)
Theorem create_features_columnas_opcionales (df : DataFrame) :
  bien_formado df →
  columnas_leidas_presentes df →
  cod_natujur_finito df →
  ∃ f,
    create_features df = Ok f
    ∧ Some (feat_transaction_id f) = col_transaction_id df
    ∧ Forall (fun c => length c.2 = n_filas df) (columnas f)
    ∧ (col_anotaciones_por_anio df = None →
       columna "anotaciones_por_anio" f = Some (escalar (n_filas df) 1)
       ∧ columna "log_anotaciones" f = Some (escalar (n_filas df) 0)
       ∧ columna "actividad_alta" f = Some (escalar (n_filas df) 0))
    ∧ (col_TIPO_PREDIO_ZONA df = None →
       columna "predio_nph" f = Some (escalar (n_filas df) 0)
       ∧ columna "predio_matriz" f = Some (escalar (n_filas df) 0)
       ∧ columna "predio_matriz_nph" f = Some (escalar (n_filas df) 0))
    ∧ (col_TIPO_PREDIO_ZONA df = None → col_CATEGORIA_RURALIDAD df = None →
       columna "es_urbano" f = Some (escalar (n_filas df) 0)
       ∧ columna "es_rural" f = Some (escalar (n_filas df) 0)
       ∧ columna "sin_zona" f = Some (escalar (n_filas df) 1))
    ∧ (col_COD_NATUJUR df = None →
       columna "cod_naturaleza_num" f = Some (escalar (n_filas df) 0)
       ∧ columna "cod_naturaleza_grupo" f = Some (escalar (n_filas df) 0))
    ∧ (col_FECHA_RADICA_TEXTO df = None → is_Some (col_YEAR_RADICA df) →
       columna "month" f = Some (escalar (n_filas df) 6)
       ∧ columna "quarter" f = Some (escalar (n_filas df) 2)
       ∧ columna "day_of_week" f = Some (escalar (n_filas df) 3)
       ∧ columna "is_weekend" f = Some (escalar (n_filas df) 0))
    ∧ (col_FECHA_RADICA_TEXTO df = None → col_YEAR_RADICA df = None →
       columna "year" f = None ∧ columna "month" f = None
       ∧ columna "quarter" f = None ∧ columna "day_of_week" f = None
       ∧ columna "is_weekend" f = None
       ∧ columna "days_since_2015" f = None).
Proof.
  intros Hwf Hpres Hcod.
  destruct df as [n tid fecha year valor anot tipo cat fae fgd tfa tv cod
                    ca cde pn].
  unfold columnas_leidas_presentes, cod_natujur_finito, bien_formado in *.
  cbn [n_filas col_transaction_id col_FECHA_RADICA_TEXTO col_YEAR_RADICA
       col_VALOR col_anotaciones_por_anio col_TIPO_PREDIO_ZONA
       col_CATEGORIA_RURALIDAD col_flag_actividad_excesiva
       col_flag_geo_discrepancia col_total_flags_anomalia col_TIENE_VALOR
       col_COD_NATUJUR col_COUNT_A col_COUNT_DE col_PREDIOS_NUEVOS] in *.
  destruct Hpres as ([tid' ->] & [valor' ->] & [fae' ->] & [fgd' ->]
                     & [tfa' ->] & [tv' ->] & [ca' ->] & [cde' ->]
                     & [pn' ->]).
  destruct Hwf as (Ltid & Lfecha & Lyear & Lvalor & Lanot & Ltipo & Lcat
                   & Lfae & Lfgd & Ltfa & Ltv & Lcod & Lca & Lcde & Lpn).
  unfold largo_ok in *.
  assert (∃ nat_cols,
            features_naturaleza
              (mkDataFrame n (Some tid') fecha year (Some valor') anot tipo
                 cat (Some fae') (Some fgd') (Some tfa') (Some tv') cod
                 (Some ca') (Some cde') (Some pn')) (length tid')
            = Ok nat_cols
            ∧ Forall (fun c => length c.2 = n) nat_cols
            ∧ (cod = None →
               nat_cols = [("cod_naturaleza_num", escalar n 0);
                           ("cod_naturaleza_grupo", escalar n 0)])
            ∧ (fst <$> nat_cols)
              = ["cod_naturaleza_num"; "cod_naturaleza_grupo"])
    as (nat_cols & Hnat & Lnat & Dnat & Nnat).
  { unfold features_naturaleza. cbn [col_COD_NATUJUR].
    destruct cod as [cod|].
    - destruct (floordiv_sin_infinitos cod (Hcod cod eq_refl))
        as (grupo & -> & Hl).
      eexists. split; [reflexivity|]. split; [|done].
      repeat constructor; simpl; rewrite ?length_fmap; congruence.
    - eexists. split; [reflexivity|]. rewrite Ltid. split; [|done].
      repeat constructor; simpl; apply length_escalar. }
  unfold create_features.
  cbn [col_transaction_id getitem bind]. rewrite Hnat.
  unfold features_valor, features_flags, features_counts,
    get_fillna_astype_int.
  cbn [col_VALOR col_flag_actividad_excesiva col_flag_geo_discrepancia
       col_total_flags_anomalia col_TIENE_VALOR col_COUNT_A col_COUNT_DE
       col_PREDIOS_NUEVOS getitem bind].
  eexists. split; [reflexivity|].
  cbn [feat_transaction_id columnas]. rewrite Ltid.
  split; [reflexivity|].
  split.
  { apply largo_fillna_0. rewrite !Forall_app.
    split; [by apply (largo_temporales (mkDataFrame n (Some tid') fecha year
                      (Some valor') anot tipo cat (Some fae') (Some fgd')
                      (Some tfa') (Some tv') cod (Some ca') (Some cde')
                      (Some pn')))|].
    split; [repeat constructor; simpl; rewrite ?length_fmap; done|].
    split; [apply largo_areas|].
    split; [by apply (largo_actividad (mkDataFrame n (Some tid') fecha year
                      (Some valor') anot tipo cat (Some fae') (Some fgd')
                      (Some tfa') (Some tv') cod (Some ca') (Some cde')
                      (Some pn')))|].
    split; [by apply (largo_geograficas (mkDataFrame n (Some tid') fecha year
                      (Some valor') anot tipo cat (Some fae') (Some fgd')
                      (Some tfa') (Some tv') cod (Some ca') (Some cde')
                      (Some pn')))|].
    split; [by apply (largo_tipo_predio (mkDataFrame n (Some tid') fecha year
                      (Some valor') anot tipo cat (Some fae') (Some fgd')
                      (Some tfa') (Some tv') cod (Some ca') (Some cde')
                      (Some pn')))|].
    split; [repeat constructor; simpl; rewrite ?length_fmap; done|].
    split; [exact Lnat|].
    repeat constructor; simpl; rewrite ?length_fmap; done. }
  destruct nat_cols as [|[k1 v1] [|[k2 v2] [|? ?]]]; try discriminate.
  injection Nnat as -> ->.
  unfold columna, features_temporales, features_actividad,
    features_geograficas, features_tipo_predio, features_areas,
    features_fillna_0.
  cbn [col_FECHA_RADICA_TEXTO col_YEAR_RADICA col_anotaciones_por_anio
       col_TIPO_PREDIO_ZONA col_CATEGORIA_RURALIDAD columnas].
  assert (∀ z, sanear <$> escalar n z = escalar n z) as Hs
    by apply sanear_escalar.
  split; [|split; [|split; [|split; [|split]]]].
  - intros ->. destruct fecha, year, tipo, cat; simpl; by rewrite !Hs.
  - intros ->. destruct fecha, year, anot, cat; simpl; by rewrite !Hs.
  - intros -> ->. destruct fecha, year, anot; simpl; by rewrite !Hs.
  - intros ->. specialize (Dnat eq_refl). injection Dnat as -> ->.
    destruct fecha, year, anot, tipo, cat; simpl; by rewrite !Hs.
  - intros -> [year' ->]. simpl. by rewrite !Hs.
  - intros -> ->. destruct anot, tipo, cat; simpl; done.
Qed.

Lemma create_features_columnas_opcionales_witness :
  ∃ f,
    create_features lote_sin_opcionales = Ok f
    ∧ Forall (fun c => length c.2 = 2%nat) (columnas f)
    ∧ columna "anotaciones_por_anio" f = Some (escalar 2 1)
    ∧ columna "sin_zona" f = Some (escalar 2 1)
    ∧ columna "cod_naturaleza_num" f = Some (escalar 2 0)
    ∧ columna "year" f = None.
Proof.
  destruct (create_features_columnas_opcionales lote_sin_opcionales)
    as (f & Hf & _ & Hlen & Hact & _ & Hzona & Hcod & _ & Htemp).
  - unfold bien_formado. simpl. repeat split; reflexivity.
  - unfold columnas_leidas_presentes. simpl.
    repeat split; eexists; reflexivity.
  - intros cod Hc. discriminate.
  - exists f. split; [exact Hf|]. split; [exact Hlen|].
    split; [apply Hact; reflexivity|].
    split; [apply Hzona; reflexivity|].
    split; [apply Hcod; reflexivity|].
    apply Htemp; reflexivity.
Defined.

(** ** Part III. Further properties of the code *)

(** *** [load_data]: the sample *)
Section CargaDeDatos.

(** Leaving the loop once [sample_size] rows are read loses none of the
    first [sample_size] rows. *)
Lemma leer_batches_take {A : Type} (k : nat) (r : Z)
    (batches : list (list A)) :
  take k (concat (leer_batches (r + Z.of_nat k) r batches))
  = take k (concat batches).
Proof.
  revert k r. induction batches as [|b batches IH]; intros k r; [done|].
  cbn [leer_batches concat]. cbv zeta.
  case_bool_decide as Hge.
  - simpl. rewrite app_nil_r. rewrite take_app_le by lia. done.
  - rewrite !take_app_ge by lia. f_equal.
    replace (r + Z.of_nat k) with
      ((r + Z.of_nat (length b)) + Z.of_nat (k - length b)) by lia.
    apply IH.
Qed.

End CargaDeDatos.

(** X1. [load_data] with a positive [sample_size], on a file of which the
    reader yields at least one batch, returns exactly the first
    [sample_size] rows of the file, in their order (all of them where the
    file has fewer), and stores their number, the smaller of [sample_size]
    and the number of rows of the file, as [registros_entrada]. *)
Theorem load_data_muestra {A : Type} (parquet_file : ParquetFile A) (n : Z) :
  0 < n → iter_batches parquet_file 100000 ≠ [] →
  load_data parquet_file (Some n)
  = Some (take (Z.to_nat n) (filas_parquet parquet_file),
          Z.min n (Z.of_nat (length (filas_parquet parquet_file)))).
Proof.
  intros Hn Hne. unfold load_data.
  rewrite bool_decide_eq_false_2 by lia.
  rewrite <- (iter_batches_concat _ parquet_file 100000).
  destruct (iter_batches parquet_file 100000) as [|b batches]; [done|].
  assert (pd_concat (leer_batches n 0 (b :: batches))
          = Some (concat (leer_batches n 0 (b :: batches)))) as ->.
  { by cbn [leer_batches]. }
  cbn [fmap option_fmap option_map mbind option_bind].
  unfold df_head. rewrite bool_decide_eq_true_2 by lia.
  pose proof (leer_batches_take (Z.to_nat n) 0 (b :: batches)) as H.
  rewrite Z.add_0_l, Z2Nat.id in H by lia. rewrite H.
  do 2 f_equal. rewrite length_take. lia.
Qed.

Lemma load_data_muestra_witness :
  load_data archivo_seis_filas (Some 3) = Some ([1; 2; 3], 3).
Proof.
  refine (load_data_muestra archivo_seis_filas 3 _ _).
  - lia.
  - discriminate.
Defined.

(** *** [validar_y_tipar]: the range of ORIP and the categorical columns *)

(** X2. The range check of step 8 leaves an [ORIP] cell either missing
    (NaN) or unchanged, and it is unchanged only if it is a finite number
    of [1, 999]: a value outside the range, an infinity included, is set
    to missing, not clamped.  Checking a second time changes nothing. *)
Theorem validar_orip_rango (orip : float64) :
  (validar_orip orip = NaN
   ∨ ∃ q, orip = Fin q ∧ validar_orip orip = Fin q ∧ (1 <= q <= 999)%Q)
  ∧ validar_orip (validar_orip orip) = validar_orip orip.
Proof.
  unfold validar_orip, gtb, of_Z.
  destruct orip as [q| | |]; simpl; try (split; [by left | done]).
  destruct (Qlt_bool q (inject_Z 1)) eqn:H1; simpl; [split; [by left|done]|].
  destruct (Qlt_bool (inject_Z 999) q) eqn:H2; simpl; [split; [by left|done]|].
  rewrite H1, H2. split; [|done]. right. exists q.
  split; [done|]. split; [done|].
  apply ltb_Fin_false in H1, H2. unfold inject_Z in *. lra.
Qed.

Section Cadenas.

Lemma upper_ascii_idemp (a : ascii) :
  upper_ascii (upper_ascii a) = upper_ascii a.
Proof. destruct a as [[] [] [] [] [] [] [] []]; by vm_compute. Qed.

Lemma is_space_upper_ascii (a : ascii) :
  Ascii.is_space (upper_ascii a) = Ascii.is_space a.
Proof. destruct a as [[] [] [] [] [] [] [] []]; by vm_compute. Qed.

Lemma str_upper_idemp (s : string) : str_upper (str_upper s) = str_upper s.
Proof.
  induction s as [|a s IH]; [done|]. simpl. by rewrite upper_ascii_idemp, IH.
Qed.

Lemma lstrip_upper (s : string) : lstrip (str_upper s) = str_upper (lstrip s).
Proof.
  induction s as [|a s IH]; [done|]. simpl.
  rewrite is_space_upper_ascii. by destruct (Ascii.is_space a).
Qed.

Lemma string_rev_app_upper (s acc : string) :
  String.rev_app (str_upper s) (str_upper acc)
  = str_upper (String.rev_app s acc).
Proof.
  revert acc. induction s as [|a s IH]; intros acc; [done|].
  simpl. apply (IH (String a acc)).
Qed.

Lemma string_rev_upper (s : string) :
  String.rev (str_upper s) = str_upper (String.rev s).
Proof. apply (string_rev_app_upper s ""). Qed.

(** Trimming and upper-casing commute. *)
Lemma str_strip_upper (s : string) :
  str_strip (str_upper s) = str_upper (str_strip s).
Proof.
  unfold str_strip.
  by rewrite lstrip_upper, string_rev_upper, lstrip_upper, string_rev_upper.
Qed.

Lemma string_app_cons (a : ascii) (s t : string) :
  String a s +:+ t = String a (s +:+ t).
Proof. reflexivity. Qed.

Lemma string_app_nil (t : string) : "" +:+ t = t.
Proof. reflexivity. Qed.

Lemma string_app_assoc (s t u : string) : (s +:+ t) +:+ u = s +:+ (t +:+ u).
Proof.
  induction s as [|a s IH]; [done|].
  by rewrite !string_app_cons, IH.
Qed.

Lemma string_rev_app_app (s acc : string) :
  String.rev_app s acc = String.rev s +:+ acc.
Proof.
  unfold String.rev. revert acc.
  induction s as [|a s IH]; intros acc; [done|].
  simpl. rewrite (IH (String a acc)), (IH (String a "")).
  by rewrite string_app_assoc.
Qed.

Lemma string_rev_cons (a : ascii) (s : string) :
  String.rev (String a s) = String.rev s +:+ String a "".
Proof. unfold String.rev at 1. simpl. apply string_rev_app_app. Qed.

Lemma string_rev_snoc (a : ascii) (s : string) :
  String.rev (s +:+ String a "") = String a (String.rev s).
Proof.
  induction s as [|b s IH]; [done|].
  by rewrite string_app_cons, !string_rev_cons, IH.
Qed.

Lemma string_rev_involutive (s : string) : String.rev (String.rev s) = s.
Proof.
  induction s as [|a s IH]; [done|].
  by rewrite string_rev_cons, string_rev_snoc, IH.
Qed.

Lemma lstrip_idemp (s : string) : lstrip (lstrip s) = lstrip s.
Proof.
  induction s as [|a s IH]; [done|]. simpl.
  destruct (Ascii.is_space a) eqn:E; [done|]. simpl. by rewrite E.
Qed.

Lemma lstrip_snoc (a : ascii) (s : string) :
  Ascii.is_space a = false →
  lstrip (s +:+ String a "") = lstrip s +:+ String a "".
Proof.
  intros Ha. induction s as [|b s IH].
  - simpl. by rewrite Ha.
  - rewrite string_app_cons. simpl. by destruct (Ascii.is_space b).
Qed.

Lemma lstrip_length (u : string) :
  (String.length (lstrip u) <= String.length u)%nat.
Proof.
  induction u as [|b u IH]; simpl; [done|].
  destruct (Ascii.is_space b); simpl; lia.
Qed.

(** What is left of a string without leading white space, once its
    trailing white space is removed, has none at either end. *)
Lemma lstrip_rev_rstrip (u : string) :
  lstrip u = u →
  lstrip (String.rev (lstrip (String.rev u)))
  = String.rev (lstrip (String.rev u)).
Proof.
  destruct u as [|a u]; [done|]. simpl.
  destruct (Ascii.is_space a) eqn:Ha.
  - intros H. exfalso. pose proof (lstrip_length u) as Hl.
    rewrite H in Hl. simpl in Hl. lia.
  - intros _. rewrite string_rev_cons, lstrip_snoc, string_rev_snoc by done.
    simpl. by rewrite Ha.
Qed.

Lemma str_strip_idemp (s : string) : str_strip (str_strip s) = str_strip s.
Proof.
  unfold str_strip.
  rewrite (lstrip_rev_rstrip (lstrip s)) by apply lstrip_idemp.
  by rewrite string_rev_involutive, lstrip_idemp.
Qed.

(** Two texts joined to their rests by ['_'] are told apart at the first
    ['_'] where neither holds one. *)
Lemma app_separador_inj (s1 s2 r1 r2 : string) :
  str_find "_" s1 = false → str_find "_" s2 = false →
  s1 +:+ "_" +:+ r1 = s2 +:+ "_" +:+ r2 → s1 = s2 ∧ r1 = r2.
Proof.
  revert s2. induction s1 as [|a s1 IH]; intros [|b s2] H1 H2 Heq;
    rewrite ?string_app_cons, ?string_app_nil in Heq.
  - by injection Heq as ->.
  - exfalso. injection Heq as <- _. simpl in H2. by destruct s2.
  - exfalso. injection Heq as -> _. simpl in H1. by destruct s1.
  - injection Heq as -> Heq.
    simpl in H1, H2. apply orb_false_iff in H1 as [_ H1], H2 as [_ H2].
    destruct (IH s2 H1 H2 Heq) as [-> ->]. done.
Qed.

End Cadenas.

(** X3. Step 7 leaves every cell of a categorical column either missing
    (NaN) or a string in canonical form: trimming it or upper-casing it
    again changes nothing, and it is not ['NONE'].  No cell keeps a value
    that is not a string. *)
Theorem limpiar_categoria_canonica (c : celda) :
  limpiar_categoria c = CNaN
  ∨ ∃ s, limpiar_categoria c = CStr s
         ∧ str_strip s = s ∧ str_upper s = s ∧ s ≠ "NONE".
Proof.
  unfold limpiar_categoria. cbv zeta. case_bool_decide as Hs; [by left|].
  right. eexists. split; [reflexivity|]. split; [|split; [|done]].
  - by rewrite str_strip_upper, str_strip_idemp.
  - apply str_upper_idemp.
Qed.

(** X25. The loop of step 7 touches the categorical columns and nothing
    else: it adds no column and drops none, it leaves every column outside
    the list of five exactly as it was, and it rewrites each listed column
    the batch has cell by cell, keeping its number of rows. *)
Theorem limpiar_campos_categoricos_marco
    (df : gmap string (list celda)) (col : string) :
  (is_Some (limpiar_campos_categoricos df !! col) ↔ is_Some (df !! col))
  ∧ (col ∉ cat_cols → limpiar_campos_categoricos df !! col = df !! col)
  ∧ (∀ l, col ∈ cat_cols → df !! col = Some l →
          ∃ l', limpiar_campos_categoricos df !! col = Some l'
                ∧ length l' = length l
                ∧ ∀ i c, l !! i = Some c →
                         l' !! i = Some (limpiar_categoria c)).
Proof.
  rewrite limpiar_campos_categoricos_lookup.
  split; [|split].
  - case_bool_decide; [|done]. by rewrite fmap_is_Some.
  - intros Hcol. by rewrite bool_decide_eq_false_2.
  - intros l Hcol Hl. rewrite bool_decide_eq_true_2, Hl by done.
    eexists. split; [reflexivity|]. split; [by rewrite length_fmap|].
    intros i c Hc. by rewrite list_lookup_fmap, Hc.
Qed.

(** *** [crear_composite_key]: when the key tells rows apart *)

(** X4. Two rows in which no one of the first four parts of the key holds
    the separator ['_'] get the same [transaction_id] only if the texts of
    all five parts agree: on such rows the key is injective in its
    parts. *)
Theorem transaction_id_inyectiva (r1 r2 : Crudo) :
  sin_separador r1 = true → sin_separador r2 = true →
  transaction_id r1 = transaction_id r2 →
  astype_str (crudo_DIVIPOLA r1) = astype_str (crudo_DIVIPOLA r2)
  ∧ astype_str (crudo_MATRICULA r1) = astype_str (crudo_MATRICULA r2)
  ∧ astype_str (crudo_NUM_ANOTACION r1) = astype_str (crudo_NUM_ANOTACION r2)
  ∧ astype_str (crudo_COD_NATUJUR r1) = astype_str (crudo_COD_NATUJUR r2)
  ∧ astype_str (crudo_YEAR_RADICA r1) = astype_str (crudo_YEAR_RADICA r2).
Proof.
  unfold sin_separador, transaction_id, key_part, fillna_str. simpl.
  rewrite !andb_true_iff, !negb_true_iff.
  intros (A1 & B1 & C1 & D1 & _) (A2 & B2 & C2 & D2 & _) Heq.
  apply app_separador_inj in Heq as [-> Heq]; [|done..].
  apply app_separador_inj in Heq as [-> Heq]; [|done..].
  apply app_separador_inj in Heq as [-> Heq]; [|done..].
  apply app_separador_inj in Heq as [-> Heq]; [|done..].
  done.
Qed.

Lemma transaction_id_inyectiva_witness :
  astype_str (CInt 5001) = astype_str (CStr "5001")
  ∧ astype_str (CStr "001-77") = astype_str (CStr "001-77")
  ∧ astype_str (CInt 1) = astype_str (CStr "1")
  ∧ astype_str (CStr "0125") = astype_str (CStr "0125")
  ∧ astype_str (CInt 2021) = astype_str (CStr "2021").
Proof.
  refine (transaction_id_inyectiva (fila_cruda "001-77" 1)
            fila_cruda_texto _ _ _).
  - reflexivity.
  - reflexivity.
  - vm_compute. reflexivity.
Defined.

(** Where a part of the key holds the separator, two different rows can
    get one key. *)
Example transaction_id_colision :
  transaction_id (mkCrudo (CInt 5001) (CStr "001_77") (CInt 1) (CStr "0125")
                    (CInt 2021))
  = transaction_id (mkCrudo (CInt 5001) (CStr "001") (CStr "77_1")
                      (CStr "0125") (CInt 2021)).
Proof. vm_compute. reflexivity. Qed.

(** *** [clasificar_calidad]: the rules taken together *)

(** Splits on the masks of [clasificar_fila], the outermost first. *)
Ltac partir_mascaras :=
  repeat match goal with
         | |- context [if ?b then _ else _] =>
             lazymatch b with
             | context [if _ then _ else _] => fail
             | _ => destruct b eqn:?
             end;
             simpl; try done
         end.

(** A row that ends [OK] is matched by none of the rules. *)
Lemma calidad_ok_condiciones (r : Registro) :
  calidad_datos (clasificar_fila r) = OK →
  Dinamica_Inmobiliaria r ≠ None
  ∧ selects (or_na (Int64_ltb (YEAR_RADICA r) YEAR_MIN)
                   (Int64_gtb (YEAR_RADICA r) YEAR_MAX)) = false
  ∧ DEPARTAMENTO r ≠ None ∧ MUNICIPIO r ≠ None
  ∧ isin valores_validos_tipo (TIPO_PREDIO_ZONA r) = true.
Proof.
  leer_columnas. partir_mascaras. intros _.
  repeat match goal with
         | H : _ || _ = false |- _ => apply orb_false_iff in H as [? ?]
         | H : bool_decide _ = false |- _ => apply bool_decide_eq_false in H
         | H : negb _ && true = false |- _ =>
             rewrite andb_true_r in H; apply negb_false_iff in H
         end.
  done.
Qed.

(** X5. The sequence of mask assignments of [clasificar_calidad] amounts
    to a fixed list of priorities: a row ends with the reason code of the
    first of these that holds -- value above the ceiling; market row with
    no value; department or municipality missing; year outside 2000..2025;
    market indicator missing; act with a positive value under the floor;
    zone outside the accepted list -- and with no reason code if none
    holds. *)
Theorem tipo_error_prioridad (r : Registro) :
  tipo_error (clasificar_fila r) = prioridad_tipo_error r.
Proof.
  unfold prioridad_tipo_error. leer_columnas.
  destruct (gtb (VALOR r) VALOR_TECHO) eqn:Hext.
  - simpl. by rewrite andb_false_r.
  - destruct (bool_decide (Dinamica_Inmobiliaria r = Some 1)) eqn:Hm,
      (isna (VALOR r) || eqb (VALOR r) (of_Z 0)) eqn:Hv,
      (bool_decide (DEPARTAMENTO r = None) || bool_decide (MUNICIPIO r = None)),
      (selects (or_na (Int64_ltb (YEAR_RADICA r) YEAR_MIN)
                      (Int64_gtb (YEAR_RADICA r) YEAR_MAX))),
      (bool_decide (Dinamica_Inmobiliaria r = None)),
      (str_contains_any palabras_actos_con_valor false (NOMBRE_NATUJUR r)),
      (gtb (VALOR r) (of_Z 0)), (ltb (VALOR r) VALOR_PISO),
      (isin valores_validos_tipo (TIPO_PREDIO_ZONA r)); simpl; try done.
Qed.

(** X6. The verdict and the reason code of a classified row always agree:
    the verdict is [OK] exactly when there is no reason code, [ERROR]
    exactly with one of the five error codes, and [ADVERTENCIA] exactly
    with one of the two warning codes ([VALOR_IRRISIORIO],
    [TIPO_PREDIO_INVALIDO]). *)
Theorem calidad_y_tipo_error_coherentes (r : Registro) :
  match calidad_datos (clasificar_fila r), tipo_error (clasificar_fila r) with
  | OK, None => True
  | ERROR, Some (DINAMICA_INVALIDA | YEAR_INVALIDO | GEOGRAFIA_INVALIDA
                 | MERCADO_SIN_VALOR | VALOR_EXTREMO_DIGITACION) => True
  | ADVERTENCIA, Some (VALOR_IRRISIORIO | TIPO_PREDIO_INVALIDO) => True
  | _, _ => False
  end.
Proof. leer_columnas. partir_mascaras. Qed.

(** X7. A row whose filing year is missing gets the four classification
    columns it would get with any year of 2000..2025: the year rule
    passes over a missing year. *)
Theorem year_faltante_como_valido (r : Registro) (y : Z) :
  YEAR_MIN <= y <= YEAR_MAX →
  clasificar_fila (con_year r None) = clasificar_fila (con_year r (Some y)).
Proof.
  intros Hy. unfold clasificar_fila, con_year.
  cbn [YEAR_RADICA Dinamica_Inmobiliaria VALOR DEPARTAMENTO MUNICIPIO
       NOMBRE_NATUJUR TIPO_PREDIO_ZONA].
  assert (selects (or_na (Int64_ltb (Some y) YEAR_MIN)
                         (Int64_gtb (Some y) YEAR_MAX)) = false) as ->.
  { unfold Int64_ltb, Int64_gtb, YEAR_MIN, YEAR_MAX in *. simpl.
    rewrite !bool_decide_eq_false_2 by lia. done. }
  reflexivity.
Qed.

Lemma year_faltante_como_valido_witness :
  clasificar_fila (con_year registro_year_1990 None)
  = clasificar_fila (con_year registro_year_1990 (Some 2020)).
Proof.
  refine (year_faltante_como_valido registro_year_1990 2020 _).
  unfold YEAR_MIN, YEAR_MAX. lia.
Defined.

(** *** [crear_datasets]: the six files *)
Section Particiones.

Lemma mask_sum_particion {A : Type} (p q r : A → bool) (df : list A) :
  (∀ f, f ∈ df →
        (if p f then 1 else 0) + (if q f then 1 else 0)
        + (if r f then 1 else 0) = 1)%nat →
  (mask_sum p df + mask_sum q df + mask_sum r df = length df)%nat.
Proof.
  unfold mask_sum. induction df as [|f df IH]; intros H; [done|].
  specialize (IH (fun g Hg => H g (list_elem_of_further _ _ _ Hg))).
  specialize (H f (list_elem_of_here _ _)).
  rewrite !filter_cons. simpl.
  destruct (p f), (q f), (r f); simpl in *; try lia;
    repeat case_decide; try done; simpl; lia.
Qed.

Lemma mask_sum_le {A : Type} (p q : A → bool) (df : list A) :
  (∀ f, f ∈ df → p f = true → q f = true) →
  (mask_sum p df <= mask_sum q df)%nat.
Proof.
  unfold mask_sum. induction df as [|f df IH]; intros H; [done|].
  specialize (IH (fun g Hg => H g (list_elem_of_further _ _ _ Hg))).
  specialize (H f (list_elem_of_here _ _)).
  rewrite !filter_cons.
  destruct (p f) eqn:Hp.
  - rewrite H by done. repeat case_decide; try done. simpl. lia.
  - repeat case_decide; try done; simpl; lia.
Qed.

Lemma particion_calidad (f : Clasificado) :
  ((if mask_limpio f then 1 else 0) + (if mask_error f then 1 else 0)
   + (if mask_adv f then 1 else 0) = 1)%nat.
Proof.
  unfold mask_limpio, mask_error, mask_adv. by destruct (calidad_datos f.2).
Qed.

Lemma mask_ml_limpio (f : Clasificado) :
  mask_ml f = true → mask_limpio f = true.
Proof.
  unfold mask_ml, mask_limpio.
  by destruct (es_mercado_valido f.2), (valor_valido f.2),
       (calidad_datos f.2).
Qed.

Lemma mask_ml_mercado (f : Clasificado) :
  mask_ml f = true → mask_mercado f = true.
Proof.
  unfold mask_ml, mask_mercado.
  by destruct (es_mercado_valido f.2), (valor_valido f.2),
       (calidad_datos f.2).
Qed.

Lemma mask_mercado_sin_error (f : Clasificado) :
  mask_mercado f = true → mask_error f = false.
Proof.
  unfold mask_mercado, mask_error.
  by destruct (es_mercado_valido f.2), (calidad_datos f.2).
Qed.

End Particiones.

(** X8. The files [limpio], [errores] and [advertencias] split the batch:
    every row of [completo] is written to exactly one of the three, and
    the three counts add up to the count of [completo]. *)
Theorem crear_datasets_particion (stats : Stats) (df : list Clasificado) :
  let '(d, c, _) := crear_datasets stats df in
  (counts_limpio c + counts_errores c + counts_advertencias c
   = counts_completo c)%nat
  ∧ ∀ f, f ∈ completo_parquet d →
      (f ∈ limpio_parquet d ∧ (f ∉ errores_parquet d)
       ∧ (f ∉ advertencias_parquet d))
      ∨ ((f ∉ limpio_parquet d) ∧ f ∈ errores_parquet d
         ∧ (f ∉ advertencias_parquet d))
      ∨ ((f ∉ limpio_parquet d) ∧ (f ∉ errores_parquet d)
         ∧ f ∈ advertencias_parquet d).
Proof.
  unfold crear_datasets. cbv zeta.
  cbn [counts_limpio counts_errores counts_advertencias counts_completo
       completo_parquet limpio_parquet errores_parquet advertencias_parquet].
  split.
  - apply mask_sum_particion. intros f _. apply particion_calidad.
  - intros f Hf. rewrite !list_elem_of_filter.
    unfold mask_limpio, mask_error, mask_adv.
    destruct (calidad_datos f.2); simpl; naive_solver.
Qed.

(** X9. The files are nested as their names say: every row of
    [ml_training] is a row of [mercado] and a row of [limpio], no row of
    [mercado] is a row of [errores], and the counts follow:
    [ml_training <= mercado], [ml_training <= limpio],
    [mercado + errores <= completo]. *)
Theorem crear_datasets_anidados (stats : Stats) (df : list Clasificado) :
  let '(d, c, _) := crear_datasets stats df in
  ml_training_parquet d ⊆ mercado_parquet d
  ∧ ml_training_parquet d ⊆ limpio_parquet d
  ∧ (∀ f, f ∈ mercado_parquet d → f ∉ errores_parquet d)
  ∧ (counts_ml_training c <= counts_mercado c)%nat
  ∧ (counts_ml_training c <= counts_limpio c)%nat
  ∧ (counts_mercado c + counts_errores c <= counts_completo c)%nat.
Proof.
  unfold crear_datasets. cbv zeta.
  cbn [counts_limpio counts_errores counts_mercado counts_ml_training
       counts_completo ml_training_parquet mercado_parquet limpio_parquet
       errores_parquet].
  pose proof mask_ml_mercado as H1. pose proof mask_ml_limpio as H2.
  pose proof mask_mercado_sin_error as H3.
  unfold ml_training.
  split; [|split; [|split; [|split; [|split]]]].
  - intros f. rewrite !list_elem_of_filter. naive_solver.
  - intros f. rewrite !list_elem_of_filter. naive_solver.
  - intros f. rewrite !list_elem_of_filter. intros [Hm _] [He _].
    apply H3 in Hm. congruence.
  - apply mask_sum_le. auto.
  - apply mask_sum_le. auto.
  - pose proof (mask_sum_particion mask_mercado mask_error
                  (fun f => negb (mask_mercado f) && negb (mask_error f)) df)
      as Hp.
    rewrite <- Hp; [lia|].
    intros f _. specialize (H3 f).
    destruct (mask_mercado f), (mask_error f); simpl; try done.
    by specialize (H3 eq_refl).
Qed.

(** X10. Every row written to [ml_training.parquet] from a classified
    batch is a row of the batch with market indicator 1, a finite [VALOR]
    of [1,000,000 .. 10,000,000,000], a department and a municipality, a
    zone of the accepted list, and a filing year that is within 2000..2025
    or missing. *)
Theorem ml_training_garantias (stats : Stats) (df : list Registro)
    (f : Clasificado) :
  f ∈ ml_training_parquet (crear_datasets stats (clasificar_calidad df)).1.1 →
  f.1 ∈ df
  ∧ Dinamica_Inmobiliaria f.1 = Some 1
  ∧ (∃ q, VALOR f.1 = Fin q ∧ (1000000 <= q <= 10000000000)%Q)
  ∧ is_Some (DEPARTAMENTO f.1) ∧ is_Some (MUNICIPIO f.1)
  ∧ (∃ zona, TIPO_PREDIO_ZONA f.1 = Some zona ∧ zona ∈ valores_validos_tipo)
  ∧ (∀ y, YEAR_RADICA f.1 = Some y → YEAR_MIN <= y <= YEAR_MAX).
Proof.
  unfold crear_datasets. cbv zeta. cbn [fst ml_training_parquet].
  intros [Hin Hml]%ml_training_elem.
  apply clasificar_calidad_elem in Hin as [Hin Hf].
  destruct f as [r c]. simpl in *. subst c.
  split; [exact Hin|].
  unfold mask_ml in Hml. simpl in Hml.
  apply andb_true_iff in Hml as [[Hmer Hval]%andb_true_iff Hok].
  apply bool_decide_eq_true in Hok.
  apply calidad_ok_condiciones in Hok as (_ & Hyear & Hdep & Hmun & Hzona).
  revert Hmer Hval. leer_columnas. intros Hmer Hval.
  split; [by apply bool_decide_eq_true in Hmer|].
  apply andb_true_iff in Hval as [[Hge Hle]%andb_true_iff _].
  split.
  { unfold geb, VALOR_PISO, VALOR_TECHO, of_Z in *.
    destruct (VALOR r) as [q| | |]; try done.
    apply leb_Fin in Hge, Hle. exists q. split; [done|].
    clear -Hge Hle. unfold inject_Z in *. lra. }
  split; [by destruct (DEPARTAMENTO r)|].
  split; [by destruct (MUNICIPIO r)|].
  split.
  { unfold isin in Hzona. destruct (TIPO_PREDIO_ZONA r) as [zona|]; [|done].
    apply bool_decide_eq_true in Hzona. eauto. }
  intros y Hy. rewrite Hy in Hyear. unfold Int64_ltb, Int64_gtb in Hyear.
  simpl in Hyear. repeat case_bool_decide; try done. lia.
Qed.

Lemma ml_training_garantias_witness :
  registro_sin_year ∈ lote_ml
  ∧ Dinamica_Inmobiliaria registro_sin_year = Some 1
  ∧ (∃ q, VALOR registro_sin_year = Fin q
          ∧ (1000000 <= q <= 10000000000)%Q)
  ∧ is_Some (DEPARTAMENTO registro_sin_year)
  ∧ is_Some (MUNICIPIO registro_sin_year)
  ∧ (∃ zona, TIPO_PREDIO_ZONA registro_sin_year = Some zona
             ∧ zona ∈ valores_validos_tipo)
  ∧ (∀ y, YEAR_RADICA registro_sin_year = Some y → YEAR_MIN <= y <= YEAR_MAX).
Proof.
  refine (ml_training_garantias (mkStats 2 0 0 0 0) lote_ml
            (registro_sin_year, clasificar_fila registro_sin_year) _).
  vm_compute. apply list_elem_of_here.
Defined.

(** X11. The figures of the final report, for a typed batch of as many
    rows as were loaded: [registros_salida] and [registros_descartados]
    add up to [registros_entrada], neither is negative, every row counted
    in [registros_con_errores] or in [registros_sospechosos] is among the
    discarded ones, and [completo] holds every row of the batch. *)
Theorem estadisticas_del_reporte (stats : Stats) (df : list Registro) :
  registros_entrada stats = Z.of_nat (length df) →
  let '(df', stats') := clasificar_calidad_stats stats df in
  let '(_, c, s) := crear_datasets stats' df' in
  registros_salida s + registros_descartados s = registros_entrada s
  ∧ 0 <= registros_salida s ∧ 0 <= registros_descartados s
  ∧ registros_con_errores s + registros_sospechosos s
    <= registros_descartados s
  ∧ counts_completo c = length df.
Proof.
  intros Hent.
  unfold clasificar_calidad_stats, crear_datasets. cbv zeta.
  cbn [registros_entrada registros_salida registros_descartados
       registros_con_errores registros_sospechosos counts_completo
       counts_ml_training].
  rewrite clasificar_calidad_length, Hent.
  set (df' := clasificar_calidad df).
  pose proof (mask_sum_particion mask_limpio mask_error mask_adv df'
                (fun f _ => particion_calidad f)) as Hp.
  pose proof (mask_sum_le mask_ml mask_limpio df'
                (fun f _ => mask_ml_limpio f)) as Hle.
  unfold df' in Hp at 4. rewrite clasificar_calidad_length in Hp.
  repeat split; lia.
Qed.

Lemma estadisticas_del_reporte_witness :
  let '(df', stats') := clasificar_calidad_stats (mkStats 2 0 0 0 0) lote_ml in
  let '(_, c, s) := crear_datasets stats' df' in
  registros_salida s + registros_descartados s = registros_entrada s
  ∧ 0 <= registros_salida s ∧ 0 <= registros_descartados s
  ∧ registros_con_errores s + registros_sospechosos s
    <= registros_descartados s
  ∧ counts_completo c = length lote_ml.
Proof.
  refine (estadisticas_del_reporte (mkStats 2 0 0 0 0) lote_ml _).
  reflexivity.
Defined.

(** *** [detectar_anomalias_negocio]: the activity flag, group by group *)
Section ActividadPorGrupo.

Lemma misma_clave_mismo_conteo (df : list Registro) (r r' : Registro) :
  misma_clave r r' = true →
  registros_con_misma_clave df r' = registros_con_misma_clave df r.
Proof.
  intros H. unfold registros_con_misma_clave. f_equal.
  destruct (clave_grupo r) as [k|] eqn:Hk.
  - pose proof (proj1 (misma_clave_spec r r' k Hk) H) as Hk'.
    apply list_filter_iff. intros x.
    rewrite (misma_clave_spec r x k Hk), (misma_clave_spec r' x k Hk'). done.
  - by rewrite misma_clave_sin_clave in H.
Qed.

Lemma detectar_actividad_fmap (df : list Registro) :
  detectar_actividad df
  = (fun x => (x, mkActividad (registros_con_misma_clave df x)
                    (bool_decide (UMBRAL_ACTIVIDAD
                                  < registros_con_misma_clave df x)%nat)))
    <$> df.
Proof.
  unfold detectar_actividad. cbv zeta. apply list_fmap_ext.
  intros i x _. pose proof (dict_get_groupby_size df x) as Hget.
  unfold dict_get in Hget. simpl. by rewrite Hget.
Qed.

Lemma detectar_actividad_elem (df : list Registro) (r : Registro)
    (a : Actividad) :
  (r, a) ∈ detectar_actividad df ↔
    r ∈ df
    ∧ a = mkActividad (registros_con_misma_clave df r)
            (bool_decide (UMBRAL_ACTIVIDAD
                          < registros_con_misma_clave df r)%nat).
Proof.
  rewrite detectar_actividad_fmap, list_elem_of_fmap. split.
  - by intros (r' & [= -> ->] & Hin).
  - intros [Hin ->]. by exists r.
Qed.

Lemma length_filter_fmap_le {A B : Type} (g : A → B) (p : A → bool)
    (q : B → bool) (l : list A) :
  (∀ x, x ∈ l → p x = true → q (g x) = true) →
  (length (filter (fun x => p x = true) l)
   <= length (filter (fun y => q y = true) (g <$> l)))%nat.
Proof.
  induction l as [|x l IH]; intros Hsub; [done|].
  rewrite fmap_cons, !filter_cons.
  specialize (IH (fun y Hy => Hsub y (list_elem_of_further _ _ _ Hy))).
  specialize (Hsub x (list_elem_of_here _ _)).
  destruct (p x) eqn:Hx.
  - rewrite (Hsub eq_refl). repeat case_decide; try done. simpl. lia.
  - repeat case_decide; try done; simpl; lia.
Qed.

End ActividadPorGrupo.

(** X12. Two rows of a batch that share their (property, year) pair get
    the same [anotaciones_por_anio], which is at least 1, and the same
    [flag_actividad_excesiva]; a row in which the property identifier or
    the year is missing gets the count 0 and is never flagged. *)
Theorem actividad_por_grupo (df : list Registro) (r r' : Registro)
    (a a' : Actividad) :
  (r, a) ∈ detectar_actividad df →
  (r', a') ∈ detectar_actividad df →
  (misma_clave r r' = true → a = a' ∧ (1 <= anotaciones_por_anio a)%nat)
  ∧ (clave_grupo r = None → a = mkActividad 0 false).
Proof.
  intros [Hr ->]%detectar_actividad_elem [Hr' ->]%detectar_actividad_elem.
  split.
  - intros H. rewrite (misma_clave_mismo_conteo df r r' H). split; [done|].
    cbn [anotaciones_por_anio]. unfold registros_con_misma_clave.
    assert (misma_clave r r = true) as Hrr.
    { unfold misma_clave in *.
      destruct (MATRICULA r), (YEAR_RADICA r); try done.
      by rewrite !bool_decide_eq_true_2. }
    assert (r ∈ filter (fun x => misma_clave r x = true) df) as Hin.
    { apply list_elem_of_filter. done. }
    destruct (filter (fun x => misma_clave r x = true) df).
    + by apply elem_of_nil in Hin.
    + simpl. lia.
  - intros Hk. unfold registros_con_misma_clave.
    assert (filter (fun x => misma_clave r x = true) df = []) as ->; [|done].
    clear Hr Hr'. induction df as [|x df IH]; [done|].
    rewrite filter_cons_False; [done|]. by rewrite misma_clave_sin_clave.
Qed.

Lemma actividad_por_grupo_witness :
  mkActividad 151 true = mkActividad 151 true
  ∧ (1 <= 151)%nat.
Proof.
  refine (proj1 (actividad_por_grupo lote_151 anotacion_2021 anotacion_2021
                   (mkActividad 151 true) (mkActividad 151 true) _ _) _).
  - unfold detectar_actividad. apply list_elem_of_fmap.
    exists anotacion_2021. split; [vm_compute; reflexivity|].
    apply list_elem_of_here.
  - unfold detectar_actividad. apply list_elem_of_fmap.
    exists anotacion_2021. split; [vm_compute; reflexivity|].
    apply list_elem_of_here.
  - reflexivity.
Defined.

(** X13. The number of rows flagged for excessive activity, the figure
    [detectar_anomalias_negocio] logs, is 0 or more than 150 in every
    batch: a flagged row is flagged together with the more than 150 rows
    of its (property, year) pair. *)
Theorem actividad_excesiva_en_bloque (df : list Registro) :
  actividad_excesiva (detectar_actividad df) = 0%nat
  ∨ (150 < actividad_excesiva (detectar_actividad df))%nat.
Proof.
  unfold actividad_excesiva, mask_sum.
  destruct (filter _ (detectar_actividad df)) as [|[r a] l] eqn:Hfil;
    [by left | right].
  assert ((r, a) ∈ filter
            (fun f : Registro * Actividad => flag_actividad_excesiva f.2 = true)
            (detectar_actividad df)) as Hin.
  { rewrite Hfil. apply list_elem_of_here. }
  rewrite <- Hfil. clear Hfil l.
  apply list_elem_of_filter in Hin as [Hflag Hin]. simpl in Hflag.
  apply detectar_actividad_elem in Hin as [Hin ->].
  cbn [flag_actividad_excesiva] in Hflag. apply bool_decide_eq_true in Hflag.
  unfold UMBRAL_ACTIVIDAD in Hflag.
  eapply Nat.lt_le_trans; [exact Hflag|].
  unfold registros_con_misma_clave at 1.
  rewrite detectar_actividad_fmap.
  apply (length_filter_fmap_le _ (misma_clave r)
           (fun f : Registro * Actividad => flag_actividad_excesiva f.2)).
  intros x _ Hx. cbn [snd flag_actividad_excesiva].
  rewrite (misma_clave_mismo_conteo df r x Hx).
  by apply bool_decide_eq_true.
Qed.

(** *** [create_features]: when it returns, and what the table holds *)
Section TablaDeFeatures.

Lemma bind_ok {A B : Type} (m : resultado A) (k : A → resultado B) (b : B) :
  bind m k = Ok b → ∃ a, m = Ok a ∧ k a = Ok b.
Proof. destruct m as [a|e]; [eauto | discriminate]. Qed.

(** The table [create_features] returns is the concatenation of the nine
    blocks, passed through [fillna(0)]. *)
Lemma create_features_inv (df : DataFrame) (f : Features) :
  create_features df = Ok f →
  ∃ tid valor flags naturaleza counts,
    col_transaction_id df = Some tid
    ∧ features_valor df = Ok valor
    ∧ features_flags df = Ok flags
    ∧ features_naturaleza df (length tid) = Ok naturaleza
    ∧ features_counts df = Ok counts
    ∧ f = mkFeatures tid
            (features_fillna_0
               (features_temporales df (length tid) ++ valor
                ++ features_areas (length tid)
                ++ features_actividad df (length tid)
                ++ features_geograficas df (length tid)
                ++ features_tipo_predio df (length tid)
                ++ flags ++ naturaleza ++ counts)).
Proof.
  unfold create_features. intros H.
  apply bind_ok in H as (tid & Htid & H).
  apply bind_ok in H as (valor & Hvalor & H).
  apply bind_ok in H as (flags & Hflags & H).
  apply bind_ok in H as (naturaleza & Hnat & H).
  apply bind_ok in H as (counts & Hcounts & H).
  injection H as <-.
  exists tid, valor, flags, naturaleza, counts.
  split; [|done]. unfold getitem in Htid.
  destruct (col_transaction_id df); [by injection Htid as -> | done].
Qed.

Lemma get_fillna_astype_int_ok {A : Type} (c : option (list A))
    (llenar : A → Z) (l : list numero) :
  get_fillna_astype_int c llenar = Ok l →
  ∃ col, c = Some col ∧ l = (fun x => entero (llenar x)) <$> col.
Proof.
  unfold get_fillna_astype_int. destruct c as [col|]; [|done].
  intros [= <-]. eauto.
Qed.

Lemma features_valor_ok (df : DataFrame) (cols : list (string * list numero)) :
  features_valor df = Ok cols →
  ∃ valor, col_VALOR df = Some valor
    ∧ cols =
      [("valor_acto", Num <$> (fillna (of_Z 0) <$> valor));
       ("log_valor", Log1p <$> (fillna (of_Z 0) <$> valor));
       ("valor_millones",
         (fun v => Num (div v (of_Z 1000000))) <$> (fillna (of_Z 0) <$> valor));
       ("valor_miles_millones",
         (fun v => Num (div v (of_Z 1000000000)))
         <$> (fillna (of_Z 0) <$> valor));
       ("valor_bajo",
         (fun v => de_bool (ltb v (of_Z 50000000)))
         <$> (fillna (of_Z 0) <$> valor));
       ("valor_medio",
         (fun v => de_bool (geb v (of_Z 50000000)
                            && ltb v (of_Z 500000000)))
         <$> (fillna (of_Z 0) <$> valor));
       ("valor_alto",
         (fun v => de_bool (geb v (of_Z 500000000)))
         <$> (fillna (of_Z 0) <$> valor))].
Proof.
  unfold features_valor, getitem. destruct (col_VALOR df) as [valor|]; [|done].
  intros [= <-]. eauto.
Qed.

Lemma features_flags_ok (df : DataFrame) (cols : list (string * list numero)) :
  features_flags df = Ok cols →
  is_Some (col_flag_actividad_excesiva df)
  ∧ is_Some (col_flag_geo_discrepancia df)
  ∧ is_Some (col_total_flags_anomalia df)
  ∧ is_Some (col_TIENE_VALOR df)
  ∧ cols.*1 = ["flag_actividad_excesiva"; "flag_geo_discrepancia";
               "total_flags_anomalia"; "tiene_valor"].
Proof.
  unfold features_flags. intros H.
  apply bind_ok in H as (f1 & (c1 & -> & _)%get_fillna_astype_int_ok & H).
  apply bind_ok in H as (f2 & (c2 & -> & _)%get_fillna_astype_int_ok & H).
  apply bind_ok in H as (f3 & (c3 & -> & _)%get_fillna_astype_int_ok & H).
  apply bind_ok in H as (f4 & (c4 & -> & _)%get_fillna_astype_int_ok & H).
  injection H as <-. done.
Qed.

Lemma features_counts_ok (df : DataFrame) (cols : list (string * list numero)) :
  features_counts df = Ok cols →
  is_Some (col_COUNT_A df) ∧ is_Some (col_COUNT_DE df)
  ∧ is_Some (col_PREDIOS_NUEVOS df)
  ∧ cols.*1 = ["count_a"; "count_de"; "predios_nuevos"].
Proof.
  unfold features_counts. intros H.
  apply bind_ok in H as (f1 & (c1 & -> & _)%get_fillna_astype_int_ok & H).
  apply bind_ok in H as (f2 & (c2 & -> & _)%get_fillna_astype_int_ok & H).
  apply bind_ok in H as (f3 & (c3 & -> & _)%get_fillna_astype_int_ok & H).
  injection H as <-. done.
Qed.

(** The integer division of the legal-nature code succeeds only on a
    column without an infinity. *)
Lemma floordiv_some_finito (cod : list float64) (grupo : list Z) :
  mapM floordiv_100_astype_int (fillna (of_Z 0) <$> cod) = Some grupo →
  Forall (fun x => x ≠ PInf ∧ x ≠ NInf) cod.
Proof.
  revert grupo. induction cod as [|x cod IH]; intros grupo H; [constructor|].
  rewrite fmap_cons in H. cbn [mapM] in H.
  destruct (floordiv_100_astype_int (fillna (of_Z 0) x)) as [g|] eqn:Hx;
    [|done].
  destruct (mapM floordiv_100_astype_int (fillna (of_Z 0) <$> cod)) as [gs|]
    eqn:Hcod; [|done].
  constructor; [|by eapply IH].
  by destruct x.
Qed.

Lemma features_naturaleza_ok (df : DataFrame) (n : nat)
    (cols : list (string * list numero)) :
  features_naturaleza df n = Ok cols →
  cod_natujur_finito df
  ∧ cols.*1 = ["cod_naturaleza_num"; "cod_naturaleza_grupo"].
Proof.
  unfold features_naturaleza, cod_natujur_finito.
  destruct (col_COD_NATUJUR df) as [cod|].
  - destruct (mapM _ _) as [grupo|] eqn:Hg; [|done].
    intros [= <-]. split; [|done].
    intros ? [= <-]. by eapply floordiv_some_finito.
  - intros [= <-]. done.
Qed.

Lemma nombres_fillna_0 (cols : list (string * list numero)) :
  (features_fillna_0 cols).*1 = cols.*1.
Proof.
  unfold features_fillna_0. rewrite <- list_fmap_compose.
  by apply list_fmap_ext.
Qed.

Lemma buscar_app (k : string) (l1 l2 : list (string * list numero)) :
  buscar k (l1 ++ l2)
  = match buscar k l1 with Some v => Some v | None => buscar k l2 end.
Proof.
  induction l1 as [|[k' v] l1 IH]; [done|]. simpl.
  by destruct (String.eqb k' k).
Qed.

Lemma buscar_fillna_0 (k : string) (cols : list (string * list numero)) :
  buscar k (features_fillna_0 cols)
  = (fun c : list numero => sanear <$> c) <$> buscar k cols.
Proof.
  induction cols as [|[k' v] cols IH]; [done|]. simpl.
  by destruct (String.eqb k' k).
Qed.

(** A name that is not the name of a column of the block is not found in
    it. *)
Lemma buscar_ajeno (k : string) (cols : list (string * list numero)) :
  k ∉ cols.*1 → buscar k cols = None.
Proof.
  induction cols as [|[k' v] cols IH]; [done|]. simpl.
  intros [Hne Hk]%not_elem_of_cons.
  rewrite (proj2 (String.eqb_neq k' k)) by done. by apply IH.
Qed.

Lemma nombres_features_temporales (df : DataFrame) (n : nat) :
  (features_temporales df n).*1
  = if bool_decide (is_Some (col_FECHA_RADICA_TEXTO df)
                    ∨ is_Some (col_YEAR_RADICA df))
    then nombres_temporales else [].
Proof.
  unfold features_temporales.
  destruct (col_FECHA_RADICA_TEXTO df), (col_YEAR_RADICA df);
    case_bool_decide as Hd; try done.
  - exfalso. apply Hd. left. eauto.
  - exfalso. apply Hd. left. eauto.
  - exfalso. apply Hd. right. eauto.
  - exfalso. destruct Hd as [[? ?]|[? ?]]; done.
Qed.

Lemma nombres_features_actividad (df : DataFrame) (n : nat) :
  (features_actividad df n).*1
  = ["anotaciones_por_anio"; "log_anotaciones"; "actividad_alta"].
Proof. unfold features_actividad. by destruct (col_anotaciones_por_anio df). Qed.

Lemma buscar_temporales (k : string) (df : DataFrame) (n : nat) :
  bool_decide (k ∈ nombres_temporales) = false →
  buscar k (features_temporales df n) = None.
Proof.
  intros Hk%bool_decide_eq_false. apply buscar_ajeno.
  rewrite nombres_features_temporales. case_bool_decide; [done|].
  apply not_elem_of_nil.
Qed.

Lemma buscar_actividad (k : string) (df : DataFrame) (n : nat) :
  bool_decide (k ∈ ["anotaciones_por_anio"; "log_anotaciones";
                    "actividad_alta"]) = false →
  buscar k (features_actividad df n) = None.
Proof.
  intros Hk%bool_decide_eq_false. apply buscar_ajeno.
  by rewrite nombres_features_actividad.
Qed.

Lemma Forall3_fmap_mismo {A B : Type} (P : B → B → B → Prop)
    (f g h : A → B) (l : list A) :
  (∀ x, P (f x) (g x) (h x)) → Forall3 P (f <$> l) (g <$> l) (h <$> l).
Proof. intros H. induction l; simpl; by constructor. Qed.

(** A value that is not NaN is in exactly one of the three bands. *)
Lemma bandas_valor (v : float64) :
  isna v = false →
  (ltb v (of_Z 50000000),
   geb v (of_Z 50000000) && ltb v (of_Z 500000000),
   geb v (of_Z 500000000))
  ∈ [(true, false, false); (false, true, false); (false, false, true)].
Proof.
  intros Hv. destruct v as [q| | |]; try done.
  - unfold geb, of_Z.
    destruct (Qlt_le_dec q (inject_Z 50000000)) as [H1|H1].
    + rewrite (proj2 (ltb_Fin _ _) H1).
      assert (leb (Fin (inject_Z 50000000)) (Fin q) = false) as ->.
      { apply not_true_iff_false. rewrite leb_Fin. lra. }
      assert (leb (Fin (inject_Z 500000000)) (Fin q) = false) as ->.
      { apply not_true_iff_false. rewrite leb_Fin.
        unfold inject_Z in *. lra. }
      apply list_elem_of_here.
    + rewrite (proj2 (ltb_Fin_false _ _) H1), (proj2 (leb_Fin _ _) H1).
      destruct (Qlt_le_dec q (inject_Z 500000000)) as [H2|H2].
      * rewrite (proj2 (ltb_Fin _ _) H2).
        assert (leb (Fin (inject_Z 500000000)) (Fin q) = false) as ->.
        { apply not_true_iff_false. rewrite leb_Fin. lra. }
        apply list_elem_of_further, list_elem_of_here.
      * rewrite (proj2 (ltb_Fin_false _ _) H2), (proj2 (leb_Fin _ _) H2).
        do 2 apply list_elem_of_further. apply list_elem_of_here.
  - do 2 apply list_elem_of_further. apply list_elem_of_here.
  - apply list_elem_of_here.
Qed.

Lemma sanear_sin_nan (v : numero) : numero_isna (sanear v) = false.
Proof. unfold sanear. by destruct (numero_isna v) eqn:E. Qed.

End TablaDeFeatures.

(** X14. On a batch whose columns are typed as the ETL writes them,
    [create_features] returns a table exactly when the batch has the nine
    columns it reads with [df[...]] or [df.get(...)] ([transaction_id],
    [VALOR], the three anomaly columns, [TIENE_VALOR], [COUNT_A],
    [COUNT_DE], [PREDIOS_NUEVOS]) and no legal-nature code of the batch is
    an infinity; on every other such batch it raises. *)
Theorem create_features_ok_iff (df : DataFrame) :
  (∃ f, create_features df = Ok f)
  ↔ columnas_leidas_presentes df ∧ cod_natujur_finito df.
Proof.
  split.
  - intros [f (tid & valor & flags & nat & counts & Htid & Hvalor & Hflags
               & Hnat & Hcounts & _)%create_features_inv].
    apply features_valor_ok in Hvalor as (v & Hv & _).
    apply features_flags_ok in Hflags as (F1 & F2 & F3 & F4 & _).
    apply features_counts_ok in Hcounts as (C1 & C2 & C3 & _).
    apply features_naturaleza_ok in Hnat as [Hfin _].
    split; [|done]. unfold columnas_leidas_presentes.
    rewrite Htid, Hv. eauto 10.
  - intros [Hpres Hcod].
    destruct Hpres as ([tid Htid] & [valor Hvalor] & [fae Hfae] & [fgd Hfgd]
                       & [tfa Htfa] & [tv Htv] & [ca Hca] & [cde Hcde]
                       & [pn Hpn]).
    unfold create_features, features_valor, features_flags, features_counts,
      features_naturaleza.
    rewrite Htid, Hvalor, Hfae, Hfgd, Htfa, Htv, Hca, Hcde, Hpn.
    cbn [getitem get_fillna_astype_int bind].
    destruct (col_COD_NATUJUR df) as [cod|] eqn:Hc.
    + destruct (floordiv_sin_infinitos cod (Hcod cod Hc))
        as (grupo & -> & _).
      cbn [bind]. eauto.
    + cbn [bind]. eauto.
Qed.

(** X15. The columns of the table [create_features] returns, and their
    order, depend only on the schema of the batch: the six temporal
    columns, present exactly when the batch has a date column or a year
    column, followed by the same thirty-three columns for every batch.
    The table has 39 feature columns or 33, whatever the rows hold. *)
Theorem create_features_nombres (df : DataFrame) (f : Features) :
  create_features df = Ok f →
  (columnas f).*1
  = (if bool_decide (is_Some (col_FECHA_RADICA_TEXTO df)
                     ∨ is_Some (col_YEAR_RADICA df))
     then nombres_temporales else []) ++ nombres_fijos.
Proof.
  intros (tid & valor & flags & nat & counts & Htid & Hvalor & Hflags
          & Hnat & Hcounts & ->)%create_features_inv.
  apply features_valor_ok in Hvalor as (v & Hv & ->).
  apply features_flags_ok in Hflags as (_ & _ & _ & _ & Hflags).
  apply features_counts_ok in Hcounts as (_ & _ & _ & Hcounts).
  apply features_naturaleza_ok in Hnat as [_ Hnat].
  cbn [columnas]. rewrite nombres_fillna_0, !fmap_app.
  rewrite Hflags, Hnat, Hcounts, nombres_features_temporales,
    nombres_features_actividad.
  f_equal.
  unfold features_geograficas, features_tipo_predio.
  destruct (col_TIPO_PREDIO_ZONA df), (col_CATEGORIA_RURALIDAD df);
    reflexivity.
Qed.

Lemma create_features_nombres_witness :
  ∃ f, create_features lote_sin_opcionales = Ok f
       ∧ (columnas f).*1 = nombres_fijos.
Proof.
  eexists. split; [vm_compute; reflexivity|].
  refine (create_features_nombres lote_sin_opcionales _ _).
  vm_compute. reflexivity.
Defined.

(** X16. No cell of a feature column of the table [create_features]
    returns is NaN: what the blocks leave missing (the year of a row
    without date, the logarithm of a value below -1) is 0 in the table. *)
Theorem create_features_sin_nan (df : DataFrame) (f : Features) :
  create_features df = Ok f →
  Forall (fun c => Forall (fun v => numero_isna v = false) c.2) (columnas f).
Proof.
  intros (tid & valor & flags & nat & counts & _ & _ & _ & _ & _ & ->)
    %create_features_inv.
  cbn [columnas]. unfold features_fillna_0.
  apply Forall_fmap, Forall_forall. intros c _. simpl.
  apply Forall_fmap, Forall_forall. intros v _. apply sanear_sin_nan.
Qed.

Lemma create_features_sin_nan_witness :
  ∃ f, create_features lote_zona_faltante = Ok f
       ∧ columna "year" f = Some [entero 2020; entero 0]
       ∧ Forall (fun c => Forall (fun v => numero_isna v = false) c.2)
           (columnas f).
Proof.
  eexists. split; [vm_compute; reflexivity|]. split; [reflexivity|].
  refine (create_features_sin_nan lote_zona_faltante _ _).
  vm_compute. reflexivity.
Defined.

(** X17. In the table [create_features] returns, the three value bands
    are one-hot: the three columns have one cell per value of the batch,
    and on every row exactly one of [valor_bajo], [valor_medio] and
    [valor_alto] is 1 and the other two are 0. *)
Theorem valor_bandas_excluyentes (df : DataFrame) (f : Features) :
  create_features df = Ok f →
  ∃ bajo medio alto,
    columna "valor_bajo" f = Some bajo
    ∧ columna "valor_medio" f = Some medio
    ∧ columna "valor_alto" f = Some alto
    ∧ Forall3 (fun b m a =>
                 (b, m, a) ∈ [(entero 1, entero 0, entero 0);
                              (entero 0, entero 1, entero 0);
                              (entero 0, entero 0, entero 1)])
        bajo medio alto.
Proof.
  intros (tid & valor & flags & nat & counts & Htid & Hvalor & Hflags
          & Hnat & Hcounts & ->)%create_features_inv.
  apply features_valor_ok in Hvalor as (v & Hv & ->).
  unfold columna. cbn [columnas].
  rewrite !buscar_fillna_0, !buscar_app, !buscar_temporales by reflexivity.
  cbn [buscar String.eqb Ascii.eqb Bool.eqb fmap option_fmap option_map].
  eexists _, _, _. split; [reflexivity|]. split; [reflexivity|].
  split; [reflexivity|].
  rewrite <- !list_fmap_compose.
  apply Forall3_fmap_mismo. intros x. simpl.
  assert (isna (fillna (of_Z 0) x) = false) as Hx by (by destruct x).
  pose proof (bandas_valor _ Hx) as Hb.
  destruct (ltb (fillna (of_Z 0) x) (of_Z 50000000)),
    (geb (fillna (of_Z 0) x) (of_Z 50000000)
     && ltb (fillna (of_Z 0) x) (of_Z 500000000)),
    (geb (fillna (of_Z 0) x) (of_Z 500000000));
    repeat (apply elem_of_cons in Hb as [Hb|Hb]; [discriminate Hb|]);
    try (by apply elem_of_nil in Hb).
  - apply list_elem_of_here.
  - apply list_elem_of_further, list_elem_of_here.
  - do 2 apply list_elem_of_further. apply list_elem_of_here.
Qed.

Lemma valor_bandas_excluyentes_witness :
  ∃ f bajo medio alto,
    create_features lote_zona_faltante = Ok f
    ∧ columna "valor_bajo" f = Some bajo
    ∧ columna "valor_medio" f = Some medio
    ∧ columna "valor_alto" f = Some alto
    ∧ Forall3 (fun b m a =>
                 (b, m, a) ∈ [(entero 1, entero 0, entero 0);
                              (entero 0, entero 1, entero 0);
                              (entero 0, entero 0, entero 1)])
        bajo medio alto.
Proof.
  eexists.
  destruct (valor_bandas_excluyentes lote_zona_faltante _
              ltac:(vm_compute; reflexivity))
    as (bajo & medio & alto & H).
  exists bajo, medio, alto. split; [reflexivity | exact H].
Defined.

(** X18. Where the batch has the column [TIPO_PREDIO_ZONA]: on a row
    whose zone is missing the three zone indicators [es_urbano],
    [es_rural] and [sin_zona] are all 0; on a row whose zone is a text,
    [es_urbano] and [es_rural] tell whether it contains ['URBANO'] and
    ['RURAL'], and [sin_zona] is 1 exactly when both are 0. *)
Theorem zona_indicadores (df : DataFrame) (f : Features)
    (zona : list (option string)) :
  create_features df = Ok f →
  col_TIPO_PREDIO_ZONA df = Some zona →
  ∃ urbano rural sin,
    columna "es_urbano" f = Some urbano
    ∧ columna "es_rural" f = Some rural
    ∧ columna "sin_zona" f = Some sin
    ∧ ∀ i c u r s,
        zona !! i = Some c → urbano !! i = Some u → rural !! i = Some r →
        sin !! i = Some s →
        match c with
        | None => u = entero 0 ∧ r = entero 0 ∧ s = entero 0
        | Some z =>
            u = de_bool (str_find "URBANO" z)
            ∧ r = de_bool (str_find "RURAL" z)
            ∧ (s = entero 1 ↔ u = entero 0 ∧ r = entero 0)
        end.
Proof.
  intros (tid & valor & flags & nat & counts & Htid & Hvalor & Hflags
          & Hnat & Hcounts & ->)%create_features_inv Hzona.
  apply features_valor_ok in Hvalor as (v & Hv & ->).
  unfold columna. cbn [columnas].
  rewrite !buscar_fillna_0, !buscar_app, !buscar_temporales by reflexivity.
  unfold features_geograficas. rewrite Hzona.
  cbn [buscar String.eqb Ascii.eqb Bool.eqb features_areas fmap list_fmap].
  rewrite !buscar_actividad by reflexivity.
  cbn [buscar String.eqb Ascii.eqb Bool.eqb fmap option_fmap option_map].
  eexists _, _, _. split; [reflexivity|]. split; [reflexivity|].
  split; [reflexivity|].
  intros i c u r s Hc. rewrite !list_lookup_fmap, Hc. simpl.
  intros [= <-] [= <-] [= <-].
  destruct c as [z|]; simpl; [|done].
  rewrite !orb_false_r.
  split; [done|]. split; [done|].
  destruct (str_find "URBANO" z), (str_find "RURAL" z); simpl;
    split; try done; intros [? ?]; done.
Qed.

Lemma zona_indicadores_witness :
  ∃ f urbano rural sin,
    create_features lote_zona_faltante = Ok f
    ∧ columna "es_urbano" f = Some urbano
    ∧ columna "es_rural" f = Some rural
    ∧ columna "sin_zona" f = Some sin
    ∧ urbano !! 1%nat = Some (entero 0)
    ∧ rural !! 1%nat = Some (entero 0)
    ∧ sin !! 1%nat = Some (entero 0).
Proof.
  eexists.
  destruct (zona_indicadores lote_zona_faltante _ [Some "URBANO"; None]
              ltac:(vm_compute; reflexivity) eq_refl)
    as (urbano & rural & sin & Hu & Hr & Hs & _).
  exists urbano, rural, sin. split; [reflexivity|].
  split; [exact Hu|]. split; [exact Hr|]. split; [exact Hs|].
  injection Hu as <-. injection Hr as <-. injection Hs as <-.
  repeat split; reflexivity.
Defined.

(** *** The ensemble scorer: what the scores are, and their order *)
Section Ensamble.

Lemma float64_leb_trans (x y z : float64) :
  leb x y = true → leb y z = true → leb x z = true.
Proof.
  destruct x as [a| | |], y as [b| | |], z as [c| | |]; try done.
  rewrite !leb_Fin. intros; lra.
Qed.

(** The minimum and the maximum of an array of finite values are values of
    the array. *)
Lemma array_min_in (x : Q) (xs : list Q) :
  ∃ m, array_min (Fin x) (asarray xs) = Fin m ∧ m ∈ x :: xs.
Proof.
  unfold array_min, asarray. revert x.
  induction xs as [|y xs IH]; intros x; simpl.
  - exists x. split; [done | set_solver].
  - rewrite fmin_Fin. destruct (Qlt_bool y x).
    + destruct (IH y) as (m & Hfold & Hm). exists m.
      split; [exact Hfold | set_solver].
    + destruct (IH x) as (m & Hfold & Hm). exists m.
      split; [exact Hfold | set_solver].
Qed.

Lemma array_max_in (x : Q) (xs : list Q) :
  ∃ m, array_max (Fin x) (asarray xs) = Fin m ∧ m ∈ x :: xs.
Proof.
  unfold array_max, asarray. revert x.
  induction xs as [|y xs IH]; intros x; simpl.
  - exists x. split; [done | set_solver].
  - rewrite fmax_Fin. destruct (Qlt_bool x y).
    + destruct (IH y) as (m & Hfold & Hm). exists m.
      split; [exact Hfold | set_solver].
    + destruct (IH x) as (m & Hfold & Hm). exists m.
      split; [exact Hfold | set_solver].
Qed.

Lemma div_sub_Fin (c lo hi : Q) :
  (lo <= c)%Q → (c <= hi)%Q →
  div (sub (Fin c) (Fin lo)) (sub (Fin hi) (Fin lo))
  = if Qlt_bool lo hi then Fin ((c + - lo) / (hi + - lo)) else NaN.
Proof.
  intros H1 H2. unfold sub, add, opp, div.
  destruct (Qlt_bool lo hi) eqn:E.
  - apply Qlt_bool_iff in E.
    assert (Qeq_bool (hi + - lo) 0 = false) as ->; [|done].
    apply not_true_iff_false. intros H%Qeq_bool_iff. lra.
  - assert (hi <= lo)%Q as Hle.
    { destruct (Qlt_le_dec lo hi) as [H|H]; [|done].
      apply Qlt_bool_iff in H. congruence. }
    assert (hi + - lo == 0)%Q as Hz by lra.
    rewrite (proj2 (Qeq_bool_iff _ _) Hz).
    assert (0 == c + - lo)%Q as Hc by lra.
    unfold sign_of. apply Qeq_alt in Hc. by rewrite Hc.
Qed.

(** [min_max] on a non-empty array of finite scores, element by element:
    the quotient where the array has two different values, NaN where it has
    one. *)
Lemma min_max_asarray (scores : list Q) :
  scores ≠ [] →
  ∃ lo hi,
    lo ∈ scores ∧ hi ∈ scores
    ∧ Forall (fun c => (lo <= c)%Q ∧ (c <= hi)%Q) scores
    ∧ min_max (asarray scores)
      = Some ((fun c => if Qlt_bool lo hi
                        then Fin ((c + - lo) / (hi + - lo)) else NaN)
              <$> scores).
Proof.
  destruct scores as [|x xs]; [done|]. intros _.
  unfold min_max. change (asarray (x :: xs)) with (Fin x :: asarray xs).
  destruct (array_min_Fin x xs) as (lo & Hlo & Hlox & Hloall).
  destruct (array_max_Fin x xs) as (hi & Hhi & Hhix & Hhiall).
  destruct (array_min_in x xs) as (lo' & Hlo' & Hloin).
  destruct (array_max_in x xs) as (hi' & Hhi' & Hhiin).
  rewrite Hlo in Hlo'. injection Hlo' as <-.
  rewrite Hhi in Hhi'. injection Hhi' as <-.
  rewrite Hlo, Hhi. exists lo, hi.
  assert (Forall (fun c => (lo <= c)%Q ∧ (c <= hi)%Q) (x :: xs)) as Hall.
  { constructor; [done|]. by apply Forall_and. }
  split; [done|]. split; [done|]. split; [done|]. f_equal.
  change (Fin x :: asarray xs) with (asarray (x :: xs)).
  unfold asarray. rewrite <- list_fmap_compose.
  apply Forall_fmap_ext. eapply Forall_impl; [exact Hall|].
  intros c [H1 H2]. simpl. by apply div_sub_Fin.
Qed.

Lemma distingue_extremos (scores : list Q) (lo hi : Q) :
  lo ∈ scores → hi ∈ scores →
  Forall (fun c => (lo <= c)%Q ∧ (c <= hi)%Q) scores →
  distingue scores ↔ (lo < hi)%Q.
Proof.
  intros Hlo Hhi Hall. split.
  - intros (a & b & Ha & Hb & Hab). rewrite Forall_forall in Hall.
    destruct (Hall a Ha) as [? _], (Hall b Hb) as [_ ?]. lra.
  - intros H. by exists lo, hi.
Qed.

Lemma score_batch_is_anomaly {Lote X : Type} (df : Lote)
    (engineer : FeatureEngineer Lote X) (iso_forest lof : Detector X)
    (scores : list float64) (flags : list bool) :
  score_batch df engineer iso_forest lof = Some (scores, flags) →
  flags = (fun s => geb s (Fin (1 # 2))) <$> scores.
Proof.
  unfold score_batch. cbv zeta.
  destruct (min_max (asarray (score_samples iso_forest _))) as [a|],
    (min_max (asarray (score_samples lof _))) as [b|];
    cbn [mbind option_bind]; try done.
  by intros [= <- <-].
Qed.

Lemma weighted_ensemble_nan (a b : list float64) :
  Forall (fun v => v = NaN) a ∨ Forall (fun v => v = NaN) b →
  Forall (fun v => v = NaN)
    (weighted_ensemble ((fun v => sub (Fin 1) v) <$> a)
       ((fun v => sub (Fin 1) v) <$> b)).
Proof.
  unfold weighted_ensemble. revert b.
  induction a as [|x a IH]; intros [|y b] H; try constructor.
  - destruct H as [H|H].
    + apply Forall_cons in H as [-> _]. reflexivity.
    + apply Forall_cons in H as [-> _].
      change (sub (Fin 1) NaN) with NaN. change (mul PESO_LOF NaN) with NaN.
      by destruct (mul PESO_IF (sub (Fin 1) x)).
  - apply IH. destruct H as [H|H]; [left | right];
      by apply Forall_cons in H as [_ H].
Qed.

End Ensamble.

(** For an engineer that returns a pair with a non-empty matrix,
    [score_batch] returns one score and one flag per record, and the
    scores are all numbers of [0, 1] or all NaN. *)
Lemma score_batch_par_intervalo_o_nan {Lote X : Type} (df : Lote)
    (engineer : FeatureEngineer Lote X) (iso_forest lof : Detector X) :
  transform engineer df ≠ [] →
  ∃ scores flags,
    score_batch df engineer iso_forest lof = Some (scores, flags)
    ∧ length scores = length (transform engineer df)
    ∧ length flags = length (transform engineer df)
    ∧ ((distingue (score_samples iso_forest (transform engineer df))
        ∧ distingue (score_samples lof (transform engineer df))
        ∧ Forall (fun s => in_unit_interval s = true) scores)
       ∨ (¬ (distingue (score_samples iso_forest (transform engineer df))
             ∧ distingue (score_samples lof (transform engineer df)))
          ∧ Forall (fun s => s = NaN) scores
          ∧ Forall (fun a => a = false) flags)).
Proof.
  intros Hne.
  set (X_ := transform engineer df) in *.
  pose proof (score_samples_length _ iso_forest X_) as L1.
  pose proof (score_samples_length _ lof X_) as L2.
  assert (score_samples iso_forest X_ ≠ []) as N1.
  { intros H. rewrite H in L1. by destruct X_. }
  assert (score_samples lof X_ ≠ []) as N2.
  { intros H. rewrite H in L2. by destruct X_. }
  destruct (min_max_asarray _ N1) as (lo1 & hi1 & Hlo1 & Hhi1 & A1 & M1).
  destruct (min_max_asarray _ N2) as (lo2 & hi2 & Hlo2 & Hhi2 & A2 & M2).
  pose proof (distingue_extremos _ _ _ Hlo1 Hhi1 A1) as D1.
  pose proof (distingue_extremos _ _ _ Hlo2 Hhi2 A2) as D2.
  unfold score_batch. cbv zeta. fold X_. rewrite M1, M2.
  cbn [mbind option_bind].
  eexists _, _. split; [reflexivity|].
  split.
  { unfold weighted_ensemble. rewrite length_zip_with, !length_fmap. lia. }
  split.
  { unfold weighted_ensemble. rewrite length_fmap, length_zip_with,
      !length_fmap. lia. }
  destruct (Qlt_bool lo1 hi1) eqn:E1, (Qlt_bool lo2 hi2) eqn:E2.
  - left. split; [by apply D1, Qlt_bool_iff|].
    split; [by apply D2, Qlt_bool_iff|].
    apply Qlt_bool_iff in E1, E2.
    apply weighted_ensemble_unit_interval; rewrite <- list_fmap_compose;
      apply Forall_fmap; (eapply Forall_impl; [eassumption|]);
      intros c [H1 H2]; unfold compose; apply invertir_unit_interval;
      unfold in_unit_interval; rewrite andb_true_iff, !leb_Fin.
    + split; [apply Qle_shift_div_l | apply Qle_shift_div_r]; lra.
    + split; [apply Qle_shift_div_l | apply Qle_shift_div_r]; lra.
  - right. split.
    { intros [_ H%D2%Qlt_bool_iff]. congruence. }
    assert (Forall (fun v => v = NaN)
              (weighted_ensemble
                 ((fun v => sub (Fin 1) v) <$>
                  ((fun c => Fin ((c + - lo1) / (hi1 + - lo1)))
                   <$> score_samples iso_forest X_))
                 ((fun v => sub (Fin 1) v) <$>
                  ((fun _ : Q => NaN) <$> score_samples lof X_)))) as Hnan.
    { apply weighted_ensemble_nan. right. apply Forall_fmap, Forall_forall.
      done. }
    split; [exact Hnan|].
    apply Forall_fmap. eapply Forall_impl; [exact Hnan|]. by intros ? ->.
  - right. split.
    { intros [H%D1%Qlt_bool_iff _]. congruence. }
    assert (Forall (fun v => v = NaN)
              (weighted_ensemble
                 ((fun v => sub (Fin 1) v) <$>
                  ((fun _ : Q => NaN) <$> score_samples iso_forest X_))
                 ((fun v => sub (Fin 1) v) <$>
                  ((fun c => Fin ((c + - lo2) / (hi2 + - lo2)))
                   <$> score_samples lof X_)))) as Hnan.
    { apply weighted_ensemble_nan. left. apply Forall_fmap, Forall_forall.
      done. }
    split; [exact Hnan|].
    apply Forall_fmap. eapply Forall_impl; [exact Hnan|]. by intros ? ->.
  - right. split.
    { intros [H%D1%Qlt_bool_iff _]. congruence. }
    assert (Forall (fun v => v = NaN)
              (weighted_ensemble
                 ((fun v => sub (Fin 1) v) <$>
                  ((fun _ : Q => NaN) <$> score_samples iso_forest X_))
                 ((fun v => sub (Fin 1) v) <$>
                  ((fun _ : Q => NaN) <$> score_samples lof X_)))) as Hnan.
    { apply weighted_ensemble_nan. left. apply Forall_fmap, Forall_forall.
      done. }
    split; [exact Hnan|].
    apply Forall_fmap. eapply Forall_impl; [exact Hnan|]. by intros ? ->.
Qed.

(** X19. [score_batch] first unpacks [engineer.transform(df)] as a
    pair.  With an engineer that returns one array, as
    [FeatureEngineer.transform] of [ml/feature_engineering.py] does, it
    raises and returns nothing.  With an engineer that returns a pair
    whose feature matrix is not empty, it returns one score and one flag
    per record, and the scores are either all numbers of [0, 1] or all
    NaN: they are numbers of [0, 1] exactly when each of the two detectors
    gives the batch at least two different scores; when one of them gives
    every record the same score, every ensemble score is NaN and no record
    is flagged. *)
Theorem score_batch_intervalo_o_nan {Lote X : Type} (df : Lote)
    (transformar : Lote → Transformado X) (iso_forest lof : Detector X) :
  (∀ filas, transformar df = Arreglo filas →
            score_batch_desde_transform df transformar iso_forest lof = None)
  ∧ (∀ X_, transformar df = Par X_ → X_ ≠ [] →
       ∃ scores flags,
         score_batch_desde_transform df transformar iso_forest lof
         = Some (scores, flags)
         ∧ length scores = length X_
         ∧ length flags = length X_
         ∧ ((distingue (score_samples iso_forest X_)
             ∧ distingue (score_samples lof X_)
             ∧ Forall (fun s => in_unit_interval s = true) scores)
            ∨ (¬ (distingue (score_samples iso_forest X_)
                  ∧ distingue (score_samples lof X_))
               ∧ Forall (fun s => s = NaN) scores
               ∧ Forall (fun a => a = false) flags))).
Proof.
  unfold score_batch_desde_transform. split.
  - by intros filas ->.
  - intros X_ -> Hne.
    apply (score_batch_par_intervalo_o_nan df
             (mkFeatureEngineer (fun _ => X_)) iso_forest lof Hne).
Qed.

Lemma score_batch_intervalo_o_nan_witness :
  score_batch_desde_transform lote_outlier_inlier Arreglo
    detector_identidad detector_identidad = None
  ∧ ∃ scores flags,
      score_batch_desde_transform lote_outlier_inlier Par
        detector_identidad detector_identidad = Some (scores, flags)
      ∧ length scores = 2%nat ∧ length flags = 2%nat.
Proof.
  split.
  - refine (proj1 (score_batch_intervalo_o_nan lote_outlier_inlier Arreglo
                     detector_identidad detector_identidad)
              lote_outlier_inlier _).
    reflexivity.
  - destruct (proj2 (score_batch_intervalo_o_nan lote_outlier_inlier Par
                       detector_identidad detector_identidad)
                lote_outlier_inlier)
      as (scores & flags & H & L1 & L2 & _).
    + reflexivity.
    + discriminate.
    + exists scores, flags. split; [exact H|]. split; [exact L1 | exact L2].
Defined.

(** X22. The two risk classifiers agree: on every array of scores,
    [PropSafeAnomalyDetector._classify_risk] returns the codes 0, 1, 2 of
    the classes [normal], [suspicious], [high-risk] that [_classify_risk]
    of [apply_models.py] gives score by score; and the class never goes
    down when the score goes up. *)
Theorem classify_risk_coinciden (scores : list float64) :
  _classify_risk scores
  = (fun s => codigo_riesgo (_classify_risk_score s)) <$> scores
  ∧ ∀ s s', leb s s' = true →
            codigo_riesgo (_classify_risk_score s)
            <= codigo_riesgo (_classify_risk_score s').
Proof.
  split.
  - unfold _classify_risk, _classify_risk_score. apply list_fmap_ext.
    intros _ s _. simpl.
    by destruct (geb s (Fin (7 # 10))), (geb s (Fin (4 # 10))).
  - intros s s' Hle. unfold _classify_risk_score, geb.
    destruct (leb (Fin (7 # 10)) s) eqn:H7.
    + by rewrite (float64_leb_trans _ _ _ H7 Hle).
    + destruct (leb (Fin (4 # 10)) s) eqn:H4.
      * rewrite (float64_leb_trans _ _ _ H4 Hle).
        by destruct (leb (Fin (7 # 10)) s').
      * by destruct (leb (Fin (7 # 10)) s'), (leb (Fin (4 # 10)) s').
Qed.

(** X21. The flag [is_anomaly] and the risk class written for a record
    never contradict each other: a record classified [high-risk] from its
    score is flagged, a record classified [normal] is not, and a NaN score
    is classified [normal]. *)
Theorem anomalia_y_riesgo_coherentes {Lote X : Type} (df : Lote)
    (engineer : FeatureEngineer Lote X) (iso_forest lof : Detector X)
    (scores : list float64) (flags : list bool) (i : nat) (s : float64)
    (a : bool) :
  score_batch df engineer iso_forest lof = Some (scores, flags) →
  scores !! i = Some s → flags !! i = Some a →
  (_classify_risk_score s = high_risk → a = true)
  ∧ (_classify_risk_score s = normal → a = false)
  ∧ (s = NaN → _classify_risk_score s = normal).
Proof.
  intros ->%score_batch_is_anomaly Hs. rewrite list_lookup_fmap, Hs.
  intros [= <-]. unfold _classify_risk_score, geb.
  split; [|split].
  - destruct (leb (Fin (7 # 10)) s) eqn:H7.
    + intros _. apply (float64_leb_trans (Fin (1 # 2)) (Fin (7 # 10))); [|done].
      by apply leb_Fin.
    + by destruct (leb (Fin (4 # 10)) s).
  - destruct (leb (Fin (7 # 10)) s) eqn:H7; [done|].
    destruct (leb (Fin (4 # 10)) s) eqn:H4; [done|]. intros _.
    apply not_true_iff_false. intros H5. apply not_true_iff_false in H4.
    apply H4. apply (float64_leb_trans _ (Fin (1 # 2))); [|done]. by apply leb_Fin.
  - by intros ->.
Qed.

Lemma anomalia_y_riesgo_coherentes_witness :
  ∃ scores flags s a,
    score_batch lote_outlier_inlier (mkFeatureEngineer (fun l => l))
      detector_identidad detector_identidad = Some (scores, flags)
    ∧ scores !! 0%nat = Some s ∧ flags !! 0%nat = Some a
    ∧ (_classify_risk_score s = high_risk → a = true).
Proof.
  eexists _, _, _, _. split; [vm_compute; reflexivity|].
  split; [reflexivity|]. split; [reflexivity|].
  refine (proj1 (anomalia_y_riesgo_coherentes lote_outlier_inlier
                   (mkFeatureEngineer (fun l => l)) detector_identidad
                   detector_identidad _ _ 0 _ _ _ _ _)).
  - vm_compute. reflexivity.
  - reflexivity.
  - reflexivity.
Defined.

Section Prediccion.

Lemma normalize_scores_nil : _normalize_scores [] = None.
Proof. reflexivity. Qed.

Lemma classify_risk_rango (scores : list float64) :
  Forall (fun c => 0 <= c <= 2) (_classify_risk scores).
Proof.
  unfold _classify_risk. apply Forall_fmap, Forall_forall. intros s _. simpl.
  destruct (geb s (Fin (7 # 10))), (geb s (Fin (4 # 10))); lia.
Qed.

End Prediccion.

(** X23. With a scaler and two detectors that accept the batch,
    [predict] raises exactly on a detector that is not fitted and on an
    empty batch.  Otherwise its four arrays have one entry per record,
    the ensemble score and the two normalised scores are numbers of
    [0, 1] (never NaN), and every classification is 0, 1 or 2. *)
Theorem predict_resultado {X : Type} (self : PropSafeAnomalyDetector X)
    (X_ : list X) :
  (predict self X_ = None
   ↔ is_fitted self = false ∨ scaler_transform self X_ = [])
  ∧ ∀ p, predict self X_ = Some p →
      length (anomaly_scores p) = length (scaler_transform self X_)
      ∧ length (classifications p) = length (scaler_transform self X_)
      ∧ length (if_scores p) = length (scaler_transform self X_)
      ∧ length (lof_scores p) = length (scaler_transform self X_)
      ∧ Forall (fun v => in_unit_interval v = true) (anomaly_scores p)
      ∧ Forall (fun v => in_unit_interval v = true) (if_scores p)
      ∧ Forall (fun v => in_unit_interval v = true) (lof_scores p)
      ∧ Forall (fun c => 0 <= c <= 2) (classifications p).
Proof.
  unfold predict. cbv zeta.
  destruct (is_fitted self); cbn [negb]; [|split; [tauto | done]].
  pose proof (decision_function_length _ (iso_forest self)
                (scaler_transform self X_)) as L1.
  pose proof (decision_function_length _ (lof self)
                (scaler_transform self X_)) as L2.
  destruct (scaler_transform self X_) as [|x xs] eqn:HX.
  - destruct (decision_function (iso_forest self) []); [|done].
    rewrite normalize_scores_nil. cbn [mbind option_bind].
    split; [tauto | done].
  - destruct (normalize_scores_unit_interval
                (decision_function (iso_forest self) (x :: xs)))
      as (a & -> & La & Ha).
    { intros H. by rewrite H in L1. }
    destruct (normalize_scores_unit_interval
                (Qopp <$> decision_function (lof self) (x :: xs)))
      as (b & -> & Lb & Hb).
    { intros H%fmap_nil_inv. by rewrite H in L2. }
    cbn [mbind option_bind]. split.
    { split; [done | intros [?|?]; done]. }
    intros p [= <-].
    cbn [anomaly_scores classifications if_scores lof_scores].
    rewrite length_fmap in Lb.
    assert (length (weighted_ensemble a b) = length (x :: xs)) as Lw.
    { unfold weighted_ensemble. rewrite length_zip_with. lia. }
    split; [done|]. split.
    { unfold _classify_risk. by rewrite length_fmap. }
    split; [lia|]. split; [lia|].
    split; [by apply weighted_ensemble_unit_interval|].
    split; [done|]. split; [done|]. apply classify_risk_rango.
Qed.

Section Monotonia.

Lemma Qdiv_le_compat_pos (a b d : Q) :
  (a <= b)%Q → (0 < d)%Q → (a / d <= b / d)%Q.
Proof.
  intros Hab Hd. unfold Qdiv. apply Qmult_le_compat_r; [done|].
  apply Qlt_le_weak, Qinv_lt_0_compat, Hd.
Qed.

Lemma clip_Fin_eq (lo hi x : Q) :
  clip (Fin lo) (Fin hi) (Fin x) = Fin (clip_Q lo hi x).
Proof. unfold clip, clip_Q. by rewrite fmax_Fin, fmin_Fin. Qed.

Lemma clip_Q_mono (lo hi x y : Q) :
  (x <= y)%Q → (clip_Q lo hi x <= clip_Q lo hi y)%Q.
Proof.
  intros Hxy. unfold clip_Q.
  destruct (Qlt_bool x lo) eqn:E1, (Qlt_bool y lo) eqn:E2;
    try apply Qlt_bool_iff in E1; try apply Qlt_bool_iff in E2;
    try apply ltb_Fin_false in E1; try apply ltb_Fin_false in E2.
  - destruct (Qlt_bool hi lo); lra.
  - destruct (Qlt_bool hi lo) eqn:E3, (Qlt_bool hi y) eqn:E4;
      try apply Qlt_bool_iff in E3; try apply Qlt_bool_iff in E4;
      try apply ltb_Fin_false in E3; try apply ltb_Fin_false in E4; lra.
  - lra.
  - destruct (Qlt_bool hi x) eqn:E3, (Qlt_bool hi y) eqn:E4;
      try apply Qlt_bool_iff in E3; try apply Qlt_bool_iff in E4;
      try apply ltb_Fin_false in E3; try apply ltb_Fin_false in E4; lra.
Qed.

End Monotonia.

(** X24. [_normalize_scores] keeps the order of the scores: of two
    records of one batch, the one with the higher raw score never gets the
    lower normalised score. *)
Theorem normalize_scores_monotona (scores : list Q) (out : list float64)
    (i j : nat) (a b : Q) (x y : float64) :
  _normalize_scores scores = Some out →
  scores !! i = Some a → scores !! j = Some b → (a <= b)%Q →
  out !! i = Some x → out !! j = Some y →
  leb x y = true.
Proof.
  intros Hnorm Ha Hb Hab Hx Hy.
  unfold _normalize_scores in Hnorm. cbv zeta in Hnorm.
  set (p5 := percentile scores 5) in *.
  set (p95 := percentile scores 95) in *.
  assert (clip (Fin p5) (Fin p95) <$> asarray scores
          = asarray (clip_Q p5 p95 <$> scores)) as Hc.
  { unfold asarray. rewrite <- !list_fmap_compose. apply list_fmap_ext.
    intros ? c _. apply clip_Fin_eq. }
  rewrite Hc in Hnorm. clear Hc.
  pose proof (clip_Q_mono p5 p95 a b Hab) as Hmono.
  assert ((clip_Q p5 p95 <$> scores) !! i = Some (clip_Q p5 p95 a)) as Hi.
  { by rewrite list_lookup_fmap, Ha. }
  assert ((clip_Q p5 p95 <$> scores) !! j = Some (clip_Q p5 p95 b)) as Hj.
  { by rewrite list_lookup_fmap, Hb. }
  destruct (clip_Q p5 p95 <$> scores) as [|c cs]; [done|].
  change (asarray (c :: cs)) with (Fin c :: asarray cs) in Hnorm.
  cbv beta iota in Hnorm.
  destruct (array_min_Fin c cs) as (lo & Hmin & Hloc & Hlo).
  destruct (array_max_Fin c cs) as (hi & Hmax & Hhic & Hhi).
  rewrite Hmin, Hmax in Hnorm.
  destruct (gtb (sub (Fin hi) (Fin lo)) (Fin 0)) eqn:Hg.
  - apply (inj Some) in Hnorm. subst out.
    change (Fin c :: asarray cs) with (asarray (c :: cs)) in Hx, Hy.
    unfold asarray in Hx, Hy.
    rewrite !list_lookup_fmap in Hx, Hy. rewrite Hi in Hx. rewrite Hj in Hy.
    simpl in Hx, Hy.
    injection Hx as <-. injection Hy as <-.
    apply ltb_Fin in Hg.
    assert (Qeq_bool (hi + - lo) 0 = false) as ->.
    { apply not_true_iff_false. intros H%Qeq_bool_iff. lra. }
    apply leb_Fin. apply Qdiv_le_compat_pos; [|lra].
    clear -Hmono. lra.
  - apply (inj Some) in Hnorm. subst out.
    rewrite !list_lookup_fmap in Hx, Hy. rewrite Ha in Hx. rewrite Hb in Hy.
    simpl in Hx, Hy.
    by injection Hx as <-; injection Hy as <-.
Qed.

Lemma normalize_scores_monotona_witness :
  ∃ out x y,
    _normalize_scores lote_outlier_inlier = Some out
    ∧ out !! 0%nat = Some x ∧ out !! 1%nat = Some y
    ∧ leb x y = true.
Proof.
  eexists _, _, _. split; [vm_compute; reflexivity|].
  split; [reflexivity|]. split; [reflexivity|].
  eapply (normalize_scores_monotona lote_outlier_inlier _ 0 1
            (-3 # 10) (2 # 10)).
  - vm_compute. reflexivity.
  - reflexivity.
  - reflexivity.
  - unfold Qle. simpl. lia.
  - reflexivity.
  - reflexivity.
Defined.

(** X20. Where each detector gives the batch two different scores,
    [score_batch] does score the more abnormal record higher: a record to
    which both detectors give a raw score no higher than to another
    record gets an ensemble score no lower than that record's. *)
Theorem score_batch_orden {Lote X : Type} (df : Lote)
    (engineer : FeatureEngineer Lote X) (iso_forest lof : Detector X)
    (scores : list float64) (flags : list bool) (i j : nat)
    (a_i a_j b_i b_j : Q) (s_i s_j : float64) :
  score_batch df engineer iso_forest lof = Some (scores, flags) →
  distingue (score_samples iso_forest (transform engineer df)) →
  distingue (score_samples lof (transform engineer df)) →
  score_samples iso_forest (transform engineer df) !! i = Some a_i →
  score_samples iso_forest (transform engineer df) !! j = Some a_j →
  score_samples lof (transform engineer df) !! i = Some b_i →
  score_samples lof (transform engineer df) !! j = Some b_j →
  (a_i <= a_j)%Q → (b_i <= b_j)%Q →
  scores !! i = Some s_i → scores !! j = Some s_j →
  leb s_j s_i = true.
Proof.
  intros Hsb D1 D2 Ai Aj Bi Bj Ha Hb Si Sj.
  set (X_ := transform engineer df) in *.
  assert (score_samples iso_forest X_ ≠ []) as N1.
  { intros H. by rewrite H in Ai. }
  assert (score_samples lof X_ ≠ []) as N2.
  { intros H. by rewrite H in Bi. }
  destruct (min_max_asarray _ N1) as (lo1 & hi1 & Hlo1 & Hhi1 & A1 & M1).
  destruct (min_max_asarray _ N2) as (lo2 & hi2 & Hlo2 & Hhi2 & A2 & M2).
  apply (distingue_extremos _ _ _ Hlo1 Hhi1 A1) in D1.
  apply (distingue_extremos _ _ _ Hlo2 Hhi2 A2) in D2.
  rewrite (proj2 (Qlt_bool_iff _ _) D1) in M1.
  rewrite (proj2 (Qlt_bool_iff _ _) D2) in M2.
  unfold score_batch in Hsb. cbv zeta in Hsb. fold X_ in Hsb.
  rewrite M1, M2 in Hsb. cbn [mbind option_bind] in Hsb.
  apply (inj Some) in Hsb. apply pair_equal_spec in Hsb as [<- _].
  unfold weighted_ensemble in Si, Sj.
  apply lookup_zip_with_Some in Si as (x1 & y1 & -> & Hx1 & Hy1).
  apply lookup_zip_with_Some in Sj as (x2 & y2 & -> & Hx2 & Hy2).
  rewrite !list_lookup_fmap in Hx1, Hy1, Hx2, Hy2.
  rewrite Ai in Hx1. rewrite Bi in Hy1. rewrite Aj in Hx2. rewrite Bj in Hy2.
  simpl in Hx1, Hy1, Hx2, Hy2.
  injection Hx1 as <-. injection Hy1 as <-.
  injection Hx2 as <-. injection Hy2 as <-.
  unfold PESO_IF, PESO_LOF. simpl. apply leb_Fin.
  assert ((a_i + - lo1) / (hi1 + - lo1) <= (a_j + - lo1) / (hi1 + - lo1))%Q
    as H1 by (apply Qdiv_le_compat_pos; lra).
  assert ((b_i + - lo2) / (hi2 + - lo2) <= (b_j + - lo2) / (hi2 + - lo2))%Q
    as H2 by (apply Qdiv_le_compat_pos; lra).
  revert H1 H2.
  generalize ((a_i + - lo1) / (hi1 + - lo1))%Q, ((a_j + - lo1) / (hi1 + - lo1))%Q,
    ((b_i + - lo2) / (hi2 + - lo2))%Q, ((b_j + - lo2) / (hi2 + - lo2))%Q.
  clear. intros p q r s H1 H2. lra.
Qed.

Lemma score_batch_orden_witness :
  ∃ scores flags s_i s_j,
    score_batch lote_outlier_inlier (mkFeatureEngineer (fun l => l))
      detector_identidad detector_identidad = Some (scores, flags)
    ∧ scores !! 0%nat = Some s_i ∧ scores !! 1%nat = Some s_j
    ∧ leb s_j s_i = true.
Proof.
  eexists _, _, _, _. split; [vm_compute; reflexivity|].
  split; [reflexivity|]. split; [reflexivity|].
  eapply (score_batch_orden lote_outlier_inlier
            (mkFeatureEngineer (fun l => l)) detector_identidad
            detector_identidad _ _ 0 1 (-3 # 10) (2 # 10) (-3 # 10) (2 # 10)).
  - vm_compute. reflexivity.
  - exists (-3 # 10)%Q, (2 # 10)%Q. split; [|split].
    + apply list_elem_of_here.
    + apply list_elem_of_further, list_elem_of_here.
    + unfold Qlt. simpl. lia.
  - exists (-3 # 10)%Q, (2 # 10)%Q. split; [|split].
    + apply list_elem_of_here.
    + apply list_elem_of_further, list_elem_of_here.
    + unfold Qlt. simpl. lia.
  - reflexivity.
  - reflexivity.
  - reflexivity.
  - reflexivity.
  - unfold Qle. simpl. lia.
  - unfold Qle. simpl. lia.
  - reflexivity.
  - reflexivity.
Defined.
